(** * Backtesting core of trading-algo: ledger, data provider, risk gate, scheduler

    A shallow embedding of
    - [brokers/integrations/backtest/csv_provider.py] (module [CSV]),
    - [brokers/integrations/backtest/driver.py]       (module [Driver]),
    - [brokers/risk.py]                               (module [Risk]),
    - [backtest_engine.py]                            (module [Engine]),
    followed by the properties of the ledger, the provider, the risk gate and
    the tick scheduler.

    Numbers.  Python [int]s are [Z].  Python [float]s are read as exact
    rationals [Q] (compared with [==]); the only non-finite float the code
    tests for, pandas' missing value NaN, is explicit in [CSV.cell] and
    [CSV.pyfloat].  Dictionaries are [gmap]s, lists and data-frame rows are
    [list]s in table order. *)

From Stdlib Require Import ZArith QArith Qround Lqa String Ascii List Lia.
From stdpp Require Import gmap strings list fin_maps pretty.

Open Scope Z_scope.

(** ** Python helpers *)

(** [pat in s] on strings. *)
Fixpoint contains (pat s : string) : bool :=
  String.prefix pat s ||
  match s with
  | EmptyString => false
  | String _ s' => contains pat s'
  end.

(** [s.split(":")[-1]]: what follows the last colon ([s] itself when there is
    none). *)
Fixpoint after_last_colon (s : string) : string :=
  match s with
  | EmptyString => EmptyString
  | String c s' =>
      if contains ":" s' then after_last_colon s'
      else if Ascii.eqb c ":" then s' else s
  end.

Definition is_digit (c : ascii) : bool :=
  let n := Z.of_nat (nat_of_ascii c) in (48 <=? n) && (n <=? 57).

Definition is_upper (c : ascii) : bool :=
  let n := Z.of_nat (nat_of_ascii c) in (65 <=? n) && (n <=? 90).

(** Longest prefix of [s] whose characters satisfy [p], and the rest. *)
Fixpoint span (p : ascii -> bool) (s : string) : string * string :=
  match s with
  | EmptyString => (EmptyString, EmptyString)
  | String c s' =>
      if p c then let '(a, b) := span p s' in (String c a, b)
      else (EmptyString, s)
  end.

(** Exactly [n] leading characters satisfying [p], and the rest. *)
Fixpoint take_n (p : ascii -> bool) (n : nat) (s : string) : option (string * string) :=
  match n with
  | O => Some (EmptyString, s)
  | S n' =>
      match s with
      | String c s' =>
          if p c then
            match take_n p n' s' with
            | Some (a, b) => Some (String c a, b)
            | None => None
            end
          else None
      | EmptyString => None
      end
  end.

(** [s] without the leading [pre], when [s] starts with it. *)
Fixpoint strip_prefix (pre s : string) : option string :=
  match pre, s with
  | EmptyString, _ => Some s
  | String a pre', String b s' => if Ascii.eqb a b then strip_prefix pre' s' else None
  | String _ _, EmptyString => None
  end.

(** Value of a string of decimal digits. *)
Definition digits_value (s : string) : Z :=
  fold_left (fun acc c => 10 * acc + (Z.of_nat (nat_of_ascii c) - 48))
            (list_ascii_of_string s) 0.

(** [a < b] and [a > b] on floats. *)
Definition Qltb (a b : Q) : bool := negb (Qle_bool b a).

(** [int(x)]: truncation toward zero. *)
Definition int_of_Q (x : Q) : Z := Z.quot (Qnum x) (Z.pos (Qden x)).

(** [abs(x)] on floats. *)
Definition Qabs' (x : Q) : Q := if Qle_bool 0 x then x else Qopp x.

(** ** Doubles

    A Python float is read as the rational number it denotes, and the sums
    and products of the ledger (cash, position values, equity, the used
    margin summed over the book) are taken exact.  The margin arithmetic of
    the driver, [quantity / 50.0 * 100000.0] and [equity - used_margin], is
    rounded as the machine rounds it, to the nearest double with ties to
    even: one fiftieth is not a double, so the rounding shows for most
    quantities, and it decides the margin test at its boundary.  The exponent range is bounded below
    (subnormal numbers) and not above: no overflow to infinity. *)

(** Two to the power [e]. *)
Definition pow2 (e : Z) : Q :=
  if 0 <=? e then inject_Z (2 ^ e) else / inject_Z (2 ^ (- e)).

(** The integer part of the binary logarithm of [a > 0]. *)
Definition binade (a : Q) : Z :=
  let k := Z.log2 (Qnum a) - Z.log2 (Z.pos (Qden a)) in
  if Qle_bool (pow2 k) a then k else k - 1.

(** The nearest integer, ties to even. *)
Definition round_half_even (x : Q) : Z :=
  let f := Qfloor x in
  match Qcompare (x - inject_Z f) (1 # 2) with
  | Lt => f
  | Gt => f + 1
  | Eq => if Z.even f then f else f + 1
  end.

(** The double nearest to [x]: 53 significant bits, exponent at least
    -1074. *)
Definition round_double (x : Q) : Q :=
  let x := Qred x in
  if Qeq_bool x 0 then 0%Q
  else
    let a := Qabs' x in
    let e := Z.max (binade a - 52) (-1074) in
    let r := Qred (inject_Z (round_half_even (a * pow2 (- e))) * pow2 e) in
    if Qle_bool 0 x then r else Qopp r.

(** [float(n)], and [a / b], [a * b] and [a - b] on floats. *)
Definition float_of_int (n : Z) : Q := round_double (inject_Z n).
Definition fdiv (a b : Q) : Q := round_double (a / b).
Definition fmul (a b : Q) : Q := round_double (a * b).
Definition fsub (a b : Q) : Q := round_double (a - b).

(** ** Calendar dates and timestamps *)

(** A calendar date, compared field by field as [datetime.date] does. *)
Record date := mkDate { year : Z; month : Z; day : Z }.

(** A [datetime]/[pd.Timestamp]: its date and the seconds since midnight. *)
Record timestamp := mkTs { ts_date : date; ts_secs : Z }.

#[global] Instance date_eq_dec : EqDecision date.
Proof. solve_decision. Defined.

#[global] Instance date_countable : Countable date.
Proof.
  refine (inj_countable' (fun d => (year d, month d, day d))
                         (fun t => mkDate t.1.1 t.1.2 t.2) _).
  intros []; reflexivity.
Defined.

#[global] Instance timestamp_eq_dec : EqDecision timestamp.
Proof. solve_decision. Defined.

Definition date_eqb (a b : date) : bool := bool_decide (a = b).

Definition date_ltb (a b : date) : bool :=
  (year a <? year b)
  || ((year a =? year b)
      && ((month a <? month b) || ((month a =? month b) && (day a <? day b)))).

Definition date_leb (a b : date) : bool := date_eqb a b || date_ltb a b.

(** [Series.max()] / [Series.min()] over a date column: [None] is NaT, the
    result on an empty column. *)
Definition max_date (l : list date) : option date :=
  match l with
  | [] => None
  | d :: l' => Some (fold_left (fun m x => if date_ltb m x then x else m) l' d)
  end.

Definition min_date (l : list date) : option date :=
  match l with
  | [] => None
  | d :: l' => Some (fold_left (fun m x => if date_ltb x m then x else m) l' d)
  end.

(** [strftime('%b').upper()] in the C locale. *)
Definition month_abbr (m : Z) : string :=
  match m with
  | 1 => "JAN" | 2 => "FEB" | 3 => "MAR" | 4 => "APR" | 5 => "MAY" | 6 => "JUN"
  | 7 => "JUL" | 8 => "AUG" | 9 => "SEP" | 10 => "OCT" | 11 => "NOV" | 12 => "DEC"
  | _ => ""
  end%string.

(** [strftime('%y')]: the year within its century, two digits. *)
Definition year2 (y : Z) : string :=
  let r := y mod 100 in
  if r <? 10 then "0" +:+ pretty r else pretty r.

(** ** The historical data provider ([csv_provider.py]) *)

Module CSV.

(** A cell of a column that pandas could not read as numbers throughout: a
    number, the missing value NaN, or text such as ["-"]. *)
Inductive cell := CNum (q : Q) | CNaN | CStr (s : string).

(** What [float(...)] returns. *)
Inductive pyfloat := FNum (q : Q) | FNaN.

(** A row of an option-chain table (columns [Date], [Expiry],
    [Strike Price], [Option type], [LTP], [Close], [Underlying Value]). *)
Record OptRow := mkOptRow {
  Date : date;
  Expiry : date;
  Strike_Price : Q;
  Option_type : string;
  LTP : cell;
  Close : cell;
  Underlying_Value : Q
}.

(** A row of the index table, keyed by its [Date]. *)
Record IndexRow := mkIndexRow {
  iDate : date; iOpen : Q; iHigh : Q; iLow : Q; iClose : Q
}.

(** The provider after [_load_data]: a table is [None] when its file was not
    found. *)
Record CSVDataProvider := mkProvider {
  index_data : option (list IndexRow);
  ce_data : option (list OptRow);
  pe_data : option (list OptRow)
}.

(** A chain row with its [synth_symbol] column. *)
Record ChainRow := mkChainRow { cr_row : OptRow; synth_symbol : string }.

(** The dictionary [get_option_chain] returns; [expiry = None] is NaT. *)
Record Snapshot := mkSnapshot {
  CE : list ChainRow;
  PE : list ChainRow;
  snap_date : date;
  expiry : option date
}.

Definition on_date (d : date) (r : OptRow) : bool := date_eqb (Date r) d.
Definition upto_date (d : date) (r : OptRow) : bool := date_leb (Date r) d.

(** [df['Expiry'] == near_expiry]; nothing equals NaT. *)
Definition has_expiry (e : option date) (r : OptRow) : bool :=
  match e with
  | Some x => date_eqb (Expiry r) x
  | None => false
  end.

Definition is_empty {A} (l : list A) : bool :=
  match l with [] => true | _ => false end.

(** [get_index_price]: exact date, else forward fill from the last row at or
    before it; [None] without a table or before all data. *)
Definition get_index_price (p : CSVDataProvider) (ts : timestamp) : option Q :=
  match index_data p with
  | None => None
  | Some rows =>
      let d := ts_date ts in
      match List.find (fun r => date_eqb (iDate r) d) rows with
      | Some r => Some (iClose r)
      | None =>
          match List.last (map Some (List.filter (fun r => date_leb (iDate r) d) rows)) None with
          | Some r => Some (iClose r)
          | None => None
          end
      end
  end.

(** The nested [synth_symbol(row)] of [get_option_chain]. *)
Definition synth (r : OptRow) : string :=
  "NIFTY" +:+ year2 (year (Expiry r)) +:+ month_abbr (month (Expiry r))
          +:+ pretty (int_of_Q (Strike_Price r)) +:+ Option_type r.

Definition with_synth (r : OptRow) : ChainRow := mkChainRow r (synth r).

(** The two day subsets [get_option_chain] works on: the requested date's
    rows, or, when both are empty, the rows of the last date of the CE table
    at or before it; [None] when that date is NaT. *)
Definition day_subsets (ce pe : list OptRow) (d : date)
  : option (list OptRow * list OptRow) :=
  let ce_subset := List.filter (on_date d) ce in
  let pe_subset := List.filter (on_date d) pe in
  if is_empty ce_subset && is_empty pe_subset then
    match max_date (map Date (List.filter (upto_date d) ce)) with
    | None => None
    | Some last_date =>
        Some (List.filter (on_date last_date) ce, List.filter (on_date last_date) pe)
    end
  else Some (ce_subset, pe_subset).

(** What a call of [get_option_chain] does: it returns a dictionary or
    [None], or it raises [ValueError]. *)
Inductive outcome :=
| Returns (chain : option Snapshot)
| ValueError.

(** [chain['synth_symbol'] = chain.apply(synth_symbol, axis=1)].  On a frame
    without rows [apply] gives back a frame and not a column, and the
    assignment of a frame to one column raises [ValueError]: [None]. *)
Definition add_synth_symbol (chain : list OptRow) : option (list ChainRow) :=
  match chain with
  | [] => None
  | _ :: _ => Some (map with_synth chain)
  end.

Definition get_option_chain (p : CSVDataProvider) (ts : timestamp) : outcome :=
  match ce_data p, pe_data p with
  | Some ce, Some pe =>
      let d := ts_date ts in
      match day_subsets ce pe d with
      | None => Returns None
      | Some (ce_subset, pe_subset) =>
          let near_expiry := min_date (map Expiry ce_subset) in
          match add_synth_symbol (List.filter (has_expiry near_expiry) ce_subset) with
          | None => ValueError
          | Some ce_chain =>
              match add_synth_symbol (List.filter (has_expiry near_expiry) pe_subset) with
              | None => ValueError
              | Some pe_chain =>
                  Returns (Some {| CE := ce_chain;
                                   PE := pe_chain;
                                   snap_date := match ce_chain with
                                                | r :: _ => Date (cr_row r)
                                                | [] => d
                                                end;
                                   expiry := near_expiry |})
              end
          end
      end
  | _, _ => Returns None
  end.

(** [re.match(r"NIFTY(\d{2})([A-Z]{3})(\d+)(CE|PE)", symbol)]: the four groups.
    The digit run is greedy; giving digits back cannot help, as the character
    after a shorter run is a digit and not [C] or [P]. *)
Definition match_symbol (symbol : string) : option (string * string * string * string) :=
  match strip_prefix "NIFTY" symbol with
  | None => None
  | Some r0 =>
      match take_n is_digit 2 r0 with
      | None => None
      | Some (yy, r1) =>
          match take_n is_upper 3 r1 with
          | None => None
          | Some (mon, r2) =>
              let '(strike, r3) := span is_digit r2 in
              match strike with
              | EmptyString => None
              | _ =>
                  if String.prefix "CE" r3 then Some (yy, mon, strike, "CE"%string)
                  else if String.prefix "PE" r3 then Some (yy, mon, strike, "PE"%string)
                  else None
              end
          end
      end
  end.

Section OptionPrice.

(** Python's [float(s)] on a string; [None] is [ValueError]. *)
Variable py_float : string -> option pyfloat.

(** [val == "-" or pd.isna(val) or val == 0]. *)
Definition unusable (val : cell) : bool :=
  match val with
  | CStr s => String.eqb s "-"
  | CNaN => true
  | CNum q => Qeq_bool q 0
  end.

(** [float(val) if val != "-" else 0.0], with the bare [except] returning
    [0.0]. *)
Definition to_price (val : cell) : pyfloat :=
  match val with
  | CNum q => FNum q
  | CNaN => FNaN
  | CStr s =>
      if String.eqb s "-" then FNum 0
      else match py_float s with
           | Some f => f
           | None => FNum 0
           end
  end.

Definition at_strike (d : date) (strike : Q) (r : OptRow) : bool :=
  date_eqb (Date r) d && Qeq_bool (Strike_Price r) strike.

(** The row [get_option_price] reads: the first row of the table at
    [(date, strike)], else the first row at that strike on the table's last
    date at or before [date]. *)
Definition find_row (data : list OptRow) (d : date) (strike : Q) : option OptRow :=
  match List.filter (at_strike d strike) data with
  | r :: _ => Some r
  | [] =>
      match max_date (map Date (List.filter (upto_date d) data)) with
      | None => None
      | Some last_dt => head (List.filter (at_strike last_dt strike) data)
      end
  end.

(** The price read off a found row. *)
Definition row_price (r : OptRow) : pyfloat :=
  to_price (if unusable (LTP r) then Close r else LTP r).

Definition get_option_price (p : CSVDataProvider) (symbol : string) (ts : timestamp) : pyfloat :=
  match match_symbol symbol with
  | None => FNum 0
  | Some (_, _, strike_str, type_str) =>
      let strike := inject_Z (digits_value strike_str) in
      let data := if String.eqb type_str "CE" then ce_data p else pe_data p in
      match data with
      | None => FNum 0
      | Some rows =>
          match find_row rows (ts_date ts) strike with
          | Some r => row_price r
          | None => FNum 0
          end
      end
  end.

End OptionPrice.

End CSV.

(** ** The simulated execution driver ([driver.py]) *)

Module Driver.

(** Modelled from the spec: the enumerations of [brokers/core/enums.py], which
    is not part of the sources at hand.  A side is one of two string-valued
    members, so that both [== "SELL"] and [== TransactionType.BUY] of the
    driver test the member. *)
Inductive TransactionType := BUY | SELL.
Inductive Exchange := NSE | NFO.
Inductive ProductType := MARGIN.

#[global] Instance TransactionType_eq_dec : EqDecision TransactionType.
Proof. solve_decision. Defined.

(** Modelled from the spec: the [Position] schema of
    [brokers/core/schemas.py] (symbol, venue, signed total quantity, available
    quantity, average price, unrealized P&L, product type); a position built
    without a [pnl] starts at [0.0]. *)
Record Position := mkPosition {
  p_symbol : string;
  p_exchange : Exchange;
  quantity_total : Z;
  quantity_available : Z;
  average_price : Q;
  pnl : Q;
  product_type : ProductType
}.

(** Modelled from the spec: the fields of [OrderRequest] the driver reads. *)
Record OrderRequest := mkRequest {
  r_symbol : string;
  r_exchange : Exchange;
  r_transaction_type : TransactionType;
  r_quantity : Z;
  r_order_type : string;
  r_tag : option string
}.

(** The dictionary [place_order] builds; [o_timestamp = None] stands for the
    wall-clock reading taken when no simulated time is set. *)
Record Order := mkOrder {
  o_order_id : string;
  o_symbol : string;
  o_exchange : Exchange;
  o_transaction_type : TransactionType;
  o_quantity : Z;
  o_order_type : string;
  o_price : Q;
  o_status : string;
  o_timestamp : option timestamp;
  o_tag : option string
}.

Record OrderResponse := mkResponse {
  status : string;
  order_id : option string;
  message : option string;
  raw : option Order
}.

Record Quote := mkQuote {
  q_symbol : string;
  q_exchange : Exchange;
  last_price : Q;
  q_timestamp : option timestamp
}.

Record Funds := mkFunds {
  equity : Q;
  available_cash : Q;
  used_margin : Q;
  net : Q;
  raw_initial_capital : Q
}.

Record Instrument := mkInstrument {
  i_symbol : string;
  i_strike : Q;
  i_lot_size : Z;
  i_instrument_type : string;
  i_segment : string
}.

(** The three methods the driver calls on its [csv_provider], whatever object
    is set there; the prices it hands back are taken finite. *)
Record Provider := mkProviderIface {
  prov_option_price : string -> timestamp -> Q;
  prov_index_price : timestamp -> option Q;
  prov_option_chain : timestamp -> option CSV.Snapshot
}.

(** The attributes of a [BacktestDriver]. *)
Record State := mkState {
  initial_capital : Q;
  current_cash : Q;
  positions : gmap string Position;
  orders : list Order;
  trades : list Order;
  current_time : option timestamp;
  current_prices : gmap string Q;
  instruments_df : option (list Instrument);
  csv_provider : option Provider
}.

(** [BacktestDriver(initial_capital)]. *)
Definition init (capital : Q) : State :=
  {| initial_capital := capital; current_cash := capital; positions := ∅;
     orders := []; trades := []; current_time := None; current_prices := ∅;
     instruments_df := None; csv_provider := None |}.

Definition with_positions (ps : gmap string Position) (d : State) : State :=
  {| initial_capital := initial_capital d; current_cash := current_cash d;
     positions := ps; orders := orders d; trades := trades d;
     current_time := current_time d; current_prices := current_prices d;
     instruments_df := instruments_df d; csv_provider := csv_provider d |}.

Definition with_cash (c : Q) (d : State) : State :=
  {| initial_capital := initial_capital d; current_cash := c;
     positions := positions d; orders := orders d; trades := trades d;
     current_time := current_time d; current_prices := current_prices d;
     instruments_df := instruments_df d; csv_provider := csv_provider d |}.

Definition with_orders (os : list Order) (d : State) : State :=
  {| initial_capital := initial_capital d; current_cash := current_cash d;
     positions := positions d; orders := os; trades := trades d;
     current_time := current_time d; current_prices := current_prices d;
     instruments_df := instruments_df d; csv_provider := csv_provider d |}.

Definition with_trades (ts : list Order) (d : State) : State :=
  {| initial_capital := initial_capital d; current_cash := current_cash d;
     positions := positions d; orders := orders d; trades := ts;
     current_time := current_time d; current_prices := current_prices d;
     instruments_df := instruments_df d; csv_provider := csv_provider d |}.

Definition with_prices (ps : gmap string Q) (d : State) : State :=
  {| initial_capital := initial_capital d; current_cash := current_cash d;
     positions := positions d; orders := orders d; trades := trades d;
     current_time := current_time d; current_prices := ps;
     instruments_df := instruments_df d; csv_provider := csv_provider d |}.

Definition set_csv_provider (p : Provider) (d : State) : State :=
  {| initial_capital := initial_capital d; current_cash := current_cash d;
     positions := positions d; orders := orders d; trades := trades d;
     current_time := current_time d; current_prices := current_prices d;
     instruments_df := instruments_df d; csv_provider := Some p |}.

Definition set_current_time (dt : timestamp) (d : State) : State :=
  {| initial_capital := initial_capital d; current_cash := current_cash d;
     positions := positions d; orders := orders d; trades := trades d;
     current_time := Some dt; current_prices := current_prices d;
     instruments_df := instruments_df d; csv_provider := csv_provider d |}.

Definition set_instruments (df : list Instrument) (d : State) : State :=
  {| initial_capital := initial_capital d; current_cash := current_cash d;
     positions := positions d; orders := orders d; trades := trades d;
     current_time := current_time d; current_prices := current_prices d;
     instruments_df := Some df; csv_provider := csv_provider d |}.

Definition with_pnl (x : Q) (p : Position) : Position :=
  {| p_symbol := p_symbol p; p_exchange := p_exchange p;
     quantity_total := quantity_total p; quantity_available := quantity_available p;
     average_price := average_price p; pnl := x; product_type := product_type p |}.

(** [set_price]: record the mark and revalue the open position, if any. *)
Definition set_price (symbol : string) (price : Q) (d : State) : State :=
  let d1 := with_prices (<[symbol := price]> (current_prices d)) d in
  match positions d !! symbol with
  | None => d1
  | Some pos =>
      let long_pnl := ((price - average_price pos) * inject_Z (quantity_total pos))%Q in
      let new_pnl :=
        if quantity_total pos <? 0
        then ((average_price pos - price) * inject_Z (Z.abs (quantity_total pos)))%Q
        else long_pnl in
      with_positions (<[symbol := with_pnl new_pnl pos]> (positions d)) d1
  end.

(** [get_funds]: equity and used margin accumulated over the positions. *)
Definition get_funds (d : State) : Funds :=
  let equity :=
    map_fold (fun _ pos acc =>
                (acc + (pnl pos + inject_Z (quantity_total pos) * average_price pos))%Q)
             (current_cash d) (positions d) in
  let used_margin :=
    map_fold (fun _ pos acc =>
                if quantity_total pos <? 0
                then (acc + fmul (Qabs' (fdiv (float_of_int (quantity_total pos)) 50))
                                 100000)%Q
                else acc)
             (0%Q) (positions d) in
  {| equity := equity; available_cash := current_cash d; used_margin := used_margin;
     net := equity; raw_initial_capital := initial_capital d |}.

(** [get_positions]: the stored positions (in the order of the map). *)
Definition get_positions (d : State) : list Position :=
  (map_to_list (positions d)).*2.

(** [get_quote]: the recorded mark; when there is none (or it is zero) and
    both a provider and a simulated time are set, the provider's option or
    index price for a NIFTY symbol. *)
Definition get_quote (d : State) (symbol : string) : Quote :=
  let price := default 0%Q (current_prices d !! symbol) in
  let has_opt := contains "CE" symbol || contains "PE" symbol in
  let price' : option Q :=
    match csv_provider d, current_time d with
    | Some prov, Some now =>
        if Qeq_bool price 0 then
          if contains "NIFTY" symbol && has_opt
          then Some (prov_option_price prov symbol now)
          else if contains "NIFTY" symbol
               then prov_index_price prov now
               else Some price
        else Some price
    | _, _ => Some price
    end in
  {| q_symbol := if contains ":" symbol then after_last_colon symbol else symbol;
     q_exchange := if has_opt then NFO else NSE;
     last_price := default 0%Q price';
     q_timestamp := current_time d |}.

(** [_execute_trade]: cash, the position of the symbol, and the trade log. *)
Definition _execute_trade (order : Order) (d : State) : State :=
  let symbol := o_symbol order in
  let qty := o_quantity order in
  let price := o_price order in
  let trade_value := (inject_Z qty * price)%Q in
  let d1 :=
    match o_transaction_type order with
    | BUY =>
        let d0 := with_cash (current_cash d - trade_value)%Q d in
        match positions d !! symbol with
        | Some pos =>
            let new_qty := quantity_total pos + qty in
            if new_qty =? 0 then with_positions (delete symbol (positions d)) d0
            else
              let avg := ((average_price pos * inject_Z (quantity_total pos) + trade_value)
                          / inject_Z new_qty)%Q in
              with_positions
                (<[symbol := {| p_symbol := p_symbol pos; p_exchange := p_exchange pos;
                                quantity_total := new_qty; quantity_available := new_qty;
                                average_price := avg; pnl := pnl pos;
                                product_type := product_type pos |}]> (positions d)) d0
        | None =>
            with_positions
              (<[symbol := {| p_symbol := symbol; p_exchange := o_exchange order;
                              quantity_total := qty; quantity_available := qty;
                              average_price := price; pnl := 0;
                              product_type := MARGIN |}]> (positions d)) d0
        end
    | SELL =>
        let d0 := with_cash (current_cash d + trade_value)%Q d in
        match positions d !! symbol with
        | Some pos =>
            let new_qty := quantity_total pos - qty in
            if new_qty =? 0 then with_positions (delete symbol (positions d)) d0
            else
              with_positions
                (<[symbol := {| p_symbol := p_symbol pos; p_exchange := p_exchange pos;
                                quantity_total := new_qty; quantity_available := new_qty;
                                average_price := average_price pos; pnl := pnl pos;
                                product_type := product_type pos |}]> (positions d)) d0
        | None =>
            with_positions
              (<[symbol := {| p_symbol := symbol; p_exchange := o_exchange order;
                              quantity_total := - qty; quantity_available := - qty;
                              average_price := price; pnl := 0;
                              product_type := MARGIN |}]> (positions d)) d0
        end
    end in
  with_trades (trades d1 ++ [order]) d1.

Definition error_response (msg : string) : OrderResponse :=
  {| status := "error"; order_id := None; message := Some msg; raw := None |}.

(** The margin a SELL of [quantity] needs, one lakh per lot of 50:
    [(request.quantity / 50.0) * 100000.0], in doubles. *)
Definition required_margin (quantity : Z) : Q :=
  fmul (fdiv (float_of_int quantity) 50) 100000.

(** [funds.equity - funds.used_margin], in doubles. *)
Definition available_margin (d : State) : Q :=
  fsub (equity (get_funds d)) (used_margin (get_funds d)).

(** [place_order]: price resolution, the margin gate of SELL requests, then
    the immediate fill. *)
Definition place_order (request : OrderRequest) (d : State) : State * OrderResponse :=
  let price := last_price (get_quote d (r_symbol request)) in
  if Qeq_bool price 0 then (d, error_response ("No price for " +:+ r_symbol request))
  else if bool_decide (r_transaction_type request = SELL)
          && Qltb (available_margin d) (required_margin (r_quantity request))
  then (d, error_response "Insufficient Margin")
  else
    let order_id := "BT" +:+ pretty (Z.of_nat (length (orders d)) + 1) in
    let order_entry :=
      {| o_order_id := order_id; o_symbol := r_symbol request;
         o_exchange := r_exchange request;
         o_transaction_type := r_transaction_type request;
         o_quantity := r_quantity request; o_order_type := r_order_type request;
         o_price := price; o_status := "COMPLETE";
         o_timestamp := current_time d; o_tag := r_tag request |} in
    let d1 := with_orders (orders d ++ [order_entry]) d in
    (_execute_trade order_entry d1,
     {| status := "ok"; order_id := Some order_id; message := None;
        raw := Some order_entry |}).

Definition cancel_order (oid : string) (d : State) : State * OrderResponse :=
  (d, {| status := "ok"; order_id := Some oid;
         message := Some "Order already executed or cancelled"%string; raw := None |}).

Definition modify_order (oid : string) (d : State) : State * OrderResponse :=
  (d, {| status := "error"; order_id := Some oid;
         message := Some "Modification not supported in simple backtest"%string;
         raw := None |}).

Definition get_orderbook (d : State) : list Order := orders d.
Definition get_tradebook (d : State) : list Order := trades d.

(** [get_option_chain(symbol, expiry)]: both arguments are ignored. *)
Definition get_option_chain (d : State) : option CSV.Snapshot :=
  match csv_provider d, current_time d with
  | Some prov, Some now => prov_option_chain prov now
  | _, _ => None
  end.

Definition instrument_of (r : CSV.ChainRow) : Instrument :=
  {| i_symbol := CSV.synth_symbol r;
     i_strike := CSV.Strike_Price (CSV.cr_row r);
     i_lot_size := 50;
     i_instrument_type := CSV.Option_type (CSV.cr_row r);
     i_segment := "NFO-OPT" |}.

(** [download_instruments]: the instrument table of the current chain. *)
Definition download_instruments (d : State) : State :=
  match get_option_chain d with
  | Some chain => set_instruments (map instrument_of (CSV.CE chain ++ CSV.PE chain)) d
  | None => d
  end.

End Driver.

(** ** The risk gate ([risk.py]) *)

Module Risk.

(** The part of the [BrokerDriver] interface the controller wraps, for a
    backend whose state has type [B]. *)
Class BrokerDriver (B : Type) := {
  b_place_order : Driver.OrderRequest -> B -> B * Driver.OrderResponse;
  b_cancel_order : string -> B -> B * Driver.OrderResponse;
  b_get_quote : B -> string -> Driver.Quote;
  b_get_positions : B -> list Driver.Position;
  b_download_instruments : B -> B;
  b_get_instruments : B -> option (list Driver.Instrument)
}.

#[global] Instance backtest_backend : BrokerDriver Driver.State := {
  b_place_order := Driver.place_order;
  b_cancel_order := Driver.cancel_order;
  b_get_quote := Driver.get_quote;
  b_get_positions := Driver.get_positions;
  b_download_instruments := Driver.download_instruments;
  b_get_instruments := Driver.instruments_df
}.

Section Controller.

Context {B : Type} `{BrokerDriver B}.

(** The attributes of a [MasterRiskController]. *)
Record State := mkState {
  broker : B;
  max_global_drawdown : Q;
  max_orders_per_minute : Z;
  margin_buffer_percent : Q;
  global_pnl : Q;
  is_halted : bool;
  _order_timestamps : list Q
}.

(** [MasterRiskController(broker)]. *)
Definition init (b : B) : State :=
  {| broker := b; max_global_drawdown := 5000; max_orders_per_minute := 30;
     margin_buffer_percent := 5 # 100; global_pnl := 0; is_halted := false;
     _order_timestamps := [] |}.

Definition with_broker (b : B) (c : State) : State :=
  {| broker := b; max_global_drawdown := max_global_drawdown c;
     max_orders_per_minute := max_orders_per_minute c;
     margin_buffer_percent := margin_buffer_percent c; global_pnl := global_pnl c;
     is_halted := is_halted c; _order_timestamps := _order_timestamps c |}.

Definition with_timestamps (l : list Q) (c : State) : State :=
  {| broker := broker c; max_global_drawdown := max_global_drawdown c;
     max_orders_per_minute := max_orders_per_minute c;
     margin_buffer_percent := margin_buffer_percent c; global_pnl := global_pnl c;
     is_halted := is_halted c; _order_timestamps := l |}.

(** [_check_velocity], with the reading [now] of [time.time()] made an
    argument. *)
Definition _check_velocity (now : Q) (c : State) : State * bool :=
  let kept := List.filter (fun t => Qltb (now - t) 60) (_order_timestamps c) in
  if max_orders_per_minute c <=? Z.of_nat (length kept)
  then (with_timestamps kept c, false)
  else (with_timestamps (kept ++ [now]) c, true).

(** [update_global_pnl]: the halt flag is only ever set here, never cleared. *)
Definition update_global_pnl (realized unrealized : Q) (c : State) : State :=
  let new_pnl := (realized + unrealized)%Q in
  {| broker := broker c; max_global_drawdown := max_global_drawdown c;
     max_orders_per_minute := max_orders_per_minute c;
     margin_buffer_percent := margin_buffer_percent c;
     global_pnl := new_pnl;
     is_halted := if Qle_bool new_pnl (- Qabs' (max_global_drawdown c)) then true
                  else is_halted c;
     _order_timestamps := _order_timestamps c |}.

(** What the controller's [place_order] returns: its own rejection
    dictionary, or the backend's answer. *)
Inductive PlaceResult :=
| Rejected (msg : string)
| Forwarded (resp : Driver.OrderResponse).

Definition place_order (request : Driver.OrderRequest) (now : Q) (c : State)
  : State * PlaceResult :=
  if is_halted c then (c, Rejected "Risk System Halted")
  else
    let '(c1, ok) := _check_velocity now c in
    if ok then
      let '(b', resp) := b_place_order request (broker c1) in
      (with_broker b' c1, Forwarded resp)
    else (c1, Rejected "Velocity Limit Exceeded").

Definition cancel_order (oid : string) (c : State) : State * Driver.OrderResponse :=
  let '(b', resp) := b_cancel_order oid (broker c) in
  (with_broker b' c, resp).

Definition get_quote (c : State) (symbol : string) : Driver.Quote :=
  b_get_quote (broker c) symbol.

Definition get_positions (c : State) : list Driver.Position :=
  b_get_positions (broker c).

Definition download_instruments (c : State) : State :=
  with_broker (b_download_instruments (broker c)) c.

Definition get_instruments (c : State) : option (list Driver.Instrument) :=
  b_get_instruments (broker c).

(** A call made on the gate over its lifetime. *)
Inductive call :=
| UpdateGlobalPnl (realized unrealized : Q)
| PlaceOrder (request : Driver.OrderRequest) (now : Q)
| CancelOrder (oid : string)
| DownloadInstruments.

Definition step (c : State) (k : call) : State :=
  match k with
  | UpdateGlobalPnl r u => update_global_pnl r u c
  | PlaceOrder req now => fst (place_order req now c)
  | CancelOrder oid => fst (cancel_order oid c)
  | DownloadInstruments => download_instruments c
  end.

Definition run (ks : list call) (c : State) : State := fold_left step ks c.

End Controller.

Arguments State B : clear implicits.

End Risk.

(** ** The tick scheduler ([backtest_engine.py]) *)

Module Engine.

(** What [run] can raise on the frames and engines considered here. *)
Inductive exn :=
| KeyError (key : string)
| AttributeError (attr : string)
| ZeroDivisionError.

Inductive result (A : Type) :=
| Ok (a : A)
| Raise (e : exn).
Arguments Ok {A} a.
Arguments Raise {A} e.

Definition bind {A C} (m : result A) (f : A -> result C) : result C :=
  match m with
  | Ok a => f a
  | Raise e => Raise e
  end.

Notation "'let*' x := m 'in' k" := (bind m (fun x => k))
  (at level 10, x name, m at level 100, k at level 200, only parsing).

(** The configuration keys [run] reads. *)
Record Config := mkConfig { index_symbol : string; symbol_initials : string }.

(** The tick handed to the strategy. *)
Record Tick := mkTick { last_price : Q; ltp : Q; tick_timestamp : timestamp }.

(** A row of the data frame: its index label and the columns [run] looks
    for; a column the frame does not have is [None]. *)
Record Row := mkRow {
  name : timestamp;
  col_timestamp : option timestamp;
  col_Open : option Q;
  col_High : option Q;
  col_Low : option Q;
  col_Close : option Q;
  col_close : option Q
}.

(** A strategy class as the scheduler uses it.  A strategy holds the broker
    and so may change the ledger in any of its methods; [S] is the type of
    its own attributes. *)
Record StrategyClass (S : Type) := mkStrategyClass {
  construct : Config -> Driver.State -> S * Driver.State;
  get_symbol_initials : S -> string;
  set_symbol_initials : string -> S -> S;
  refresh_instruments : S -> Driver.State -> S * Driver.State;
  on_ticks_update : Tick -> S -> Driver.State -> S * Driver.State
}.
Arguments construct {S}.
Arguments get_symbol_initials {S}.
Arguments set_symbol_initials {S}.
Arguments refresh_instruments {S}.
Arguments on_ticks_update {S}.

(** The record [calculate_metrics] returns. *)
Record Results := mkResults {
  res_initial_capital : Q;
  final_equity : Q;
  total_pnl : Q;
  total_pnl_percent : Q;
  total_trades : Z;
  res_trades : list Driver.Order
}.

Section WithStrategy.

Context {S : Type}.

(** The attributes of a [BacktestEngine]; [csv_provider = None] is an engine
    on which [load_csv_data] was never called, which has no such attribute. *)
Record State := mkState {
  strategy_class : StrategyClass S;
  config : Config;
  initial_capital : Q;
  max_trades_per_day : Z;
  driver : Driver.State;
  csv_provider : option Driver.Provider;
  strategy : option S;
  daily_trade_count : gmap date Z;
  results : option Results
}.

(** [BacktestEngine(strategy_class, config, initial_capital,
    max_trades_per_day)]. *)
Definition init (sc : StrategyClass S) (cfg : Config) (capital : Q) (ceiling : Z) : State :=
  {| strategy_class := sc; config := cfg; initial_capital := capital;
     max_trades_per_day := ceiling; driver := Driver.init capital;
     csv_provider := None; strategy := None; daily_trade_count := ∅;
     results := None |}.

(** [load_csv_data]: the provider is kept by the engine and handed to the
    driver. *)
Definition load_csv_data (p : Driver.Provider) (e : State) : State :=
  {| strategy_class := strategy_class e; config := config e;
     initial_capital := initial_capital e;
     max_trades_per_day := max_trades_per_day e;
     driver := Driver.set_csv_provider p (driver e);
     csv_provider := Some p; strategy := strategy e;
     daily_trade_count := daily_trade_count e; results := results e |}.

(** What the loop of [run] updates. *)
Record Loop := mkLoop {
  l_driver : Driver.State;
  l_strategy : S;
  l_counts : gmap date Z
}.

(** [re.match(r"(NIFTY\d{2}[A-Z]{3})", s)]: the matched prefix. *)
Definition contract_prefix (s : string) : option string :=
  match strip_prefix "NIFTY" s with
  | None => None
  | Some r0 =>
      match take_n is_digit 2 r0 with
      | None => None
      | Some (yy, r1) =>
          match take_n is_upper 3 r1 with
          | None => None
          | Some (mon, _) => Some ("NIFTY" +:+ yy +:+ mon)
          end
      end
  end.

(** The time of a row: its [timestamp] column, else its index label. *)
Definition row_time (r : Row) : timestamp := default (name r) (col_timestamp r).

Definition column (key : string) (v : option Q) : result Q :=
  match v with
  | Some x => Ok x
  | None => Raise (KeyError key)
  end.

(** The sub-tick prices of a row: Open, High, Low, Close when the frame has
    an [Open] column, else the single [close]. *)
Definition row_prices (r : Row) : result (list Q) :=
  match col_Open r with
  | Some o =>
      let* h := column "High" (col_High r) in
      let* l := column "Low" (col_Low r) in
      let* c := column "Close" (col_Close r) in
      Ok [o; h; l; c]
  | None =>
      let* c := column "close" (col_close r) in
      Ok [c]
  end.

(** Refreshing the mark of one held symbol other than the index. *)
Definition refresh_mark (idx : string) (d : Driver.State) (symbol : string) : Driver.State :=
  if String.eqb symbol idx then d
  else
    let p := Driver.last_price (Driver.get_quote d symbol) in
    if Qeq_bool p 0 then d else Driver.set_price symbol p d.

(** The rolling-expiry step done before each row when a provider is set. *)
Definition roll_contract (sc : StrategyClass S) (st : Loop) : Loop :=
  let rolled :=
    match Driver.get_option_chain (l_driver st) with
    | Some chain =>
        match CSV.CE chain with
        | first :: _ =>
            match contract_prefix (CSV.synth_symbol first) with
            | Some new_prefix =>
                if String.eqb new_prefix (get_symbol_initials sc (l_strategy st))
                then st
                else
                  let s1 := set_symbol_initials sc new_prefix (l_strategy st) in
                  let '(s2, d2) := refresh_instruments sc s1 (l_driver st) in
                  {| l_driver := d2; l_strategy := s2; l_counts := l_counts st |}
            | None => st
            end
        | [] => st
        end
    | None => st
    end in
  {| l_driver := Driver.download_instruments (l_driver rolled);
     l_strategy := l_strategy rolled; l_counts := l_counts rolled |}.

(** One sub-tick: marks, the throttle, the callback, the daily counter.  The
    held symbols are visited in the order of the map; each visit reads and
    writes the mark and the position of its own symbol only, so the order
    does not show in the result.  The counter is keyed by the date itself
    rather than by its ISO text. *)
Definition tick_step (sc : StrategyClass S) (cfg : Config) (ceiling : Z)
    (current_time : timestamp) (st : Loop) (price : Q) : Loop :=
  let d1 := Driver.set_price (index_symbol cfg) price (l_driver st) in
  let open_symbols := (map_to_list (Driver.positions d1)).*1 in
  let d2 := fold_left (refresh_mark (index_symbol cfg)) open_symbols d1 in
  let date_str := ts_date current_time in
  let trades_today := default 0 (l_counts st !! date_str) in
  let tick := {| last_price := price; ltp := price; tick_timestamp := current_time |} in
  let pre_trade_count := Z.of_nat (length (Driver.trades d2)) in
  let '(s3, d3) :=
    if trades_today <? ceiling then on_ticks_update sc tick (l_strategy st) d2
    else (l_strategy st, d2) in
  let post_trade_count := Z.of_nat (length (Driver.trades d3)) in
  {| l_driver := d3; l_strategy := s3;
     l_counts :=
       if pre_trade_count <? post_trade_count
       then <[date_str := trades_today + (post_trade_count - pre_trade_count)]> (l_counts st)
       else l_counts st |}.

Definition with_driver (d : Driver.State) (st : Loop) : Loop :=
  {| l_driver := d; l_strategy := l_strategy st; l_counts := l_counts st |}.

(** The head of the loop body: the simulated clock, then the rolling-expiry
    step (the provider is known to be set once the loop is reached). *)
Definition before_row (sc : StrategyClass S) (r : Row) (st : Loop) : Loop :=
  roll_contract sc (with_driver (Driver.set_current_time (row_time r) (l_driver st)) st).

(** The sub-ticks of one row, in order. *)
Definition row_ticks (sc : StrategyClass S) (cfg : Config) (ceiling : Z)
    (r : Row) (st : Loop) : result Loop :=
  let* prices := row_prices r in
  Ok (fold_left (tick_step sc cfg ceiling (row_time r)) prices st).

(** The [for idx, row in data_df.iterrows()] loop; [skip_first_day] is the
    flag of the same name. *)
Fixpoint loop (sc : StrategyClass S) (cfg : Config) (ceiling : Z)
    (rows : list Row) (skip_first_day : bool) (st : Loop) : result Loop :=
  match rows with
  | [] => Ok st
  | r :: rest =>
      let st1 := before_row sc r st in
      if skip_first_day then
        let* day_price :=
          match col_Close r with
          | Some c => Ok c
          | None => column "close" (col_close r)
          end in
        loop sc cfg ceiling rest false
             (with_driver (Driver.set_price (index_symbol cfg) day_price (l_driver st1)) st1)
      else
        let* st2 := row_ticks sc cfg ceiling r st1 in
        loop sc cfg ceiling rest false st2
  end.

(** [calculate_metrics]; the percentage divides by the starting capital. *)
Definition calculate_metrics (capital : Q) (d : Driver.State) : result Results :=
  let funds := Driver.get_funds d in
  let pnl := (Driver.equity funds - capital)%Q in
  if Qeq_bool capital 0 then Raise ZeroDivisionError
  else Ok {| res_initial_capital := capital;
             final_equity := Driver.equity funds;
             total_pnl := pnl;
             total_pnl_percent := (pnl / capital * 100)%Q;
             total_trades := Z.of_nat (length (Driver.trades d));
             res_trades := Driver.trades d |}.

Definition mock_inst (cfg : Config) : Driver.Instrument :=
  {| Driver.i_symbol := symbol_initials cfg +:+ "20000CE";
     Driver.i_strike := 20000;
     Driver.i_lot_size := 50;
     Driver.i_instrument_type := "CE";
     Driver.i_segment := "NFO-OPT" |}.

(** [run(data_df)], up to writing the results file. *)
Definition run (data_df : list Row) (e : State) : result State :=
  match data_df with
  | [] => Ok e
  | first_row :: _ =>
      let cfg := config e in
      let d0 :=
        match Driver.instruments_df (driver e) with
        | None => Driver.set_instruments [mock_inst cfg] (driver e)
        | Some _ => driver e
        end in
      let initial_time := row_time first_row in
      let* initial_price :=
        match col_close first_row with
        | Some c => Ok c
        | None => column "Close" (col_Close first_row)
        end in
      let d1 := Driver.set_price (index_symbol cfg) initial_price
                  (Driver.set_current_time initial_time d0) in
      match csv_provider e with
      | None => Raise (AttributeError "csv_provider")
      | Some _ =>
          let d2 := Driver.download_instruments d1 in
          let '(s0, d3) := construct (strategy_class e) cfg d2 in
          let* st := loop (strategy_class e) cfg (max_trades_per_day e) data_df true
                          {| l_driver := d3; l_strategy := s0;
                             l_counts := daily_trade_count e |} in
          let* res := calculate_metrics (initial_capital e) (l_driver st) in
          Ok {| strategy_class := strategy_class e; config := cfg;
                initial_capital := initial_capital e;
                max_trades_per_day := max_trades_per_day e;
                driver := l_driver st; csv_provider := csv_provider e;
                strategy := Some (l_strategy st);
                daily_trade_count := l_counts st; results := Some res |}
      end
  end.

End WithStrategy.

Arguments State S : clear implicits.
Arguments Loop S : clear implicits.

End Engine.

(** * Properties *)

(** ** The ledger: positions under fills *)

Section Ledger.

Import Driver.

(** The signed quantity held on [sym]: zero when no position is stored. *)
Definition net (d : State) (sym : string) : Z :=
  match positions d !! sym with
  | Some p => quantity_total p
  | None => 0
  end.

(** What a fill adds to the holding: BUY positive, SELL negative. *)
Definition signed (o : Order) : Z :=
  match o_transaction_type o with
  | BUY => o_quantity o
  | SELL => - o_quantity o
  end.

Definition signed_sum (fills : list Order) : Z :=
  fold_right (fun o acc => signed o + acc) 0 fills.

(** No stored position has quantity zero. *)
Definition no_flat_position (d : State) : Prop :=
  forall s p, positions d !! s = Some p -> quantity_total p <> 0.

(** A sequence of fills, oldest first. *)
Definition run_fills (fills : list Order) (d : State) : State :=
  fold_left (fun acc o => _execute_trade o acc) fills d.

Lemma execute_trade_net (o : Order) (d : State) :
  net (_execute_trade o d) (o_symbol o) = net d (o_symbol o) + signed o.
Proof.
  unfold net, signed, _execute_trade.
  destruct (o_transaction_type o); cbn;
    destruct (positions d !! o_symbol o) as [pos|] eqn:Hpos; cbn.
  - destruct (Z.eqb_spec (quantity_total pos + o_quantity o) 0) as [Hz|Hz]; cbn.
    + rewrite lookup_delete_eq. lia.
    + rewrite lookup_insert_eq. reflexivity.
  - rewrite lookup_insert_eq. reflexivity.
  - destruct (Z.eqb_spec (quantity_total pos - o_quantity o) 0) as [Hz|Hz]; cbn.
    + rewrite lookup_delete_eq. lia.
    + rewrite lookup_insert_eq. cbn. lia.
  - rewrite lookup_insert_eq. reflexivity.
Qed.

Lemma execute_trade_other (o : Order) (d : State) (s : string) :
  s <> o_symbol o ->
  positions (_execute_trade o d) !! s = positions d !! s.
Proof.
  intros Hne. unfold _execute_trade.
  destruct (o_transaction_type o); cbn;
    destruct (positions d !! o_symbol o) as [pos|]; cbn;
    try match goal with |- context [Z.eqb ?a ?b] => destruct (Z.eqb a b); cbn end;
    first [ apply lookup_delete_ne | apply lookup_insert_ne ]; congruence.
Qed.

Lemma execute_trade_no_flat (o : Order) (d : State) :
  o_quantity o <> 0 -> no_flat_position d -> no_flat_position (_execute_trade o d).
Proof.
  intros Hq Hinv s p.
  destruct (decide (s = o_symbol o)) as [->|Hne].
  - intros Hs. pose proof (execute_trade_net o d) as Hnet.
    unfold net in Hnet. rewrite Hs in Hnet.
    revert Hs. unfold _execute_trade.
    destruct (o_transaction_type o) eqn:Hside; cbn;
      destruct (positions d !! o_symbol o) as [pos|] eqn:Hpos; cbn.
    + destruct (Z.eqb_spec (quantity_total pos + o_quantity o) 0) as [Hz|Hz]; cbn.
      * rewrite lookup_delete_eq. discriminate.
      * rewrite lookup_insert_eq. intros [= <-]. exact Hz.
    + rewrite lookup_insert_eq. intros [= <-]. exact Hq.
    + destruct (Z.eqb_spec (quantity_total pos - o_quantity o) 0) as [Hz|Hz]; cbn.
      * rewrite lookup_delete_eq. discriminate.
      * rewrite lookup_insert_eq. intros [= <-]. exact Hz.
    + rewrite lookup_insert_eq. intros [= <-]. cbn. lia.
  - rewrite execute_trade_other by assumption. apply Hinv.
Qed.

Lemma run_fills_net (sym : string) (fills : list Order) :
  Forall (fun o => o_symbol o = sym) fills ->
  forall d, net (run_fills fills d) sym = net d sym + signed_sum fills.
Proof.
  unfold run_fills, signed_sum.
  induction 1 as [|o fills Ho _ IH]; intros d; cbn [fold_left fold_right].
  - lia.
  - rewrite IH. subst sym. rewrite execute_trade_net. lia.
Qed.

Lemma run_fills_no_flat (fills : list Order) :
  Forall (fun o => o_quantity o <> 0) fills ->
  forall d, no_flat_position d -> no_flat_position (run_fills fills d).
Proof.
  unfold run_fills.
  induction 1 as [|o fills Ho _ IH]; intros d Hd; cbn [fold_left].
  - exact Hd.
  - apply IH. apply execute_trade_no_flat; assumption.
Qed.

Lemma set_price_no_flat (sym : string) (price : Q) (d : State) :
  no_flat_position d -> no_flat_position (set_price sym price d).
Proof.
  intros Hinv s p. unfold set_price.
  destruct (positions d !! sym) as [pos|] eqn:Hpos; cbn; [|apply Hinv].
  destruct (decide (s = sym)) as [->|Hne].
  - rewrite lookup_insert_eq. intros [= <-]. cbn. apply (Hinv sym pos Hpos).
  - rewrite lookup_insert_ne by congruence. apply Hinv.
Qed.

Lemma place_order_no_flat (request : OrderRequest) (d : State) :
  r_quantity request <> 0 ->
  no_flat_position d -> no_flat_position (fst (place_order request d)).
Proof.
  intros Hq Hinv. unfold place_order.
  destruct (Qeq_bool _ 0); [exact Hinv|].
  destruct (_ && _); [exact Hinv|].
  cbn [fst]. apply execute_trade_no_flat; [exact Hq | exact Hinv].
Qed.

(** C6, as amended.  Fills of nonzero quantity on one symbol, starting
    without a position on it: the holding afterwards is the signed sum of the
    fill quantities (BUY positive, SELL negative), the symbol is absent from
    the positions exactly when that sum is zero, and no stored position has
    quantity zero, also after a further mark update or a further order of
    nonzero quantity. *)
Theorem position_is_signed_sum (sym : string) (fills : list Order) (d : State) :
  Forall (fun o => o_symbol o = sym) fills ->
  Forall (fun o => o_quantity o <> 0) fills ->
  no_flat_position d ->
  positions d !! sym = None ->
  let d' := run_fills fills d in
  (forall p, positions d' !! sym = Some p -> quantity_total p = signed_sum fills)
  /\ (positions d' !! sym = None <-> signed_sum fills = 0)
  /\ no_flat_position d'
  /\ (forall s price, no_flat_position (set_price s price d'))
  /\ (forall request, r_quantity request <> 0 ->
                      no_flat_position (fst (place_order request d'))).
Proof.
  intros Hsym Hq Hinv Hflat d'.
  pose proof (run_fills_net sym fills Hsym d) as Hnet.
  pose proof (run_fills_no_flat fills Hq d Hinv) as Hinv'.
  fold d' in Hnet, Hinv'.
  unfold net in Hnet. rewrite Hflat in Hnet. cbn in Hnet.
  split; [|split; [|split; [|split]]].
  - intros p Hp. rewrite Hp in Hnet. exact Hnet.
  - destruct (positions d' !! sym) as [p|] eqn:Hp.
    + split; [discriminate|]. intros Hz. exfalso.
      apply (Hinv' sym p Hp). lia.
    + split; [intros _; lia | reflexivity].
  - exact Hinv'.
  - intros s price. apply set_price_no_flat, Hinv'.
  - intros request Hr. apply place_order_no_flat; assumption.
Qed.

End Ledger.

(** ** The ledger: worked fills *)

Section LedgerExamples.

Import Driver.

Definition market (side : TransactionType) (sym : string) (qty : Z) : OrderRequest :=
  {| r_symbol := sym; r_exchange := NSE; r_transaction_type := side;
     r_quantity := qty; r_order_type := "MARKET"; r_tag := None |}.

Definition fill (side : TransactionType) (sym : string) (qty : Z) (price : Q) : Order :=
  {| o_order_id := "BT"; o_symbol := sym; o_exchange := NSE;
     o_transaction_type := side; o_quantity := qty; o_order_type := "MARKET";
     o_price := price; o_status := "COMPLETE"; o_timestamp := None; o_tag := None |}.

(** Mark [sym] at [price], then place a market order of [qty] on it. *)
Definition trade_at (side : TransactionType) (sym : string) (qty : Z) (price : Q)
    (d : State) : State :=
  fst (place_order (market side sym qty) (set_price sym price d)).

Definition average_of (d : State) (sym : string) : option Q :=
  average_price <$> positions d !! sym.

(** Two same-direction fills from a flat book, through [place_order]. *)
Definition two_fills (side : TransactionType) (q1 : Z) (p1 : Q) (q2 : Z) (p2 : Q) : State :=
  trade_at side "NIFTY" q2 p2 (trade_at side "NIFTY" q1 p1 (init 1000000)).

Definition three_fills : list Order :=
  [fill BUY "NIFTY" 50 100; fill SELL "NIFTY" 20 110; fill SELL "NIFTY" 30 90].

Lemma position_is_signed_sum_witness :
  (forall p, positions (run_fills three_fills (init 100000)) !! "NIFTY" = Some p ->
             quantity_total p = signed_sum three_fills)
  /\ (positions (run_fills three_fills (init 100000)) !! "NIFTY" = None
      <-> signed_sum three_fills = 0)
  /\ no_flat_position (run_fills three_fills (init 100000)).
Proof.
  destruct (position_is_signed_sum "NIFTY" three_fills (init 100000))
    as (Hsum & Habsent & Hinv & _).
  - repeat constructor.
  - repeat constructor; cbn; lia.
  - intros s p Hs. cbn in Hs. rewrite lookup_empty in Hs. discriminate.
  - reflexivity.
  - auto.
Defined.

(** C6 as stated fails: one BUY fill of quantity 0 on a flat book has signed
    sum zero, yet the symbol is then present, with a stored quantity of
    zero; [place_order] lets such an order through. *)
Lemma zero_quantity_fill_is_stored :
  signed_sum [fill BUY "NIFTY" 0 100] = 0
  /\ quantity_total <$> positions (run_fills [fill BUY "NIFTY" 0 100] (init 100000)) !! "NIFTY"
     = Some 0
  /\ quantity_total <$> positions (trade_at BUY "NIFTY" 0 100 (init 100000)) !! "NIFTY"
     = Some 0.
Proof. vm_compute. repeat split. Qed.

(** Extending a long: the stored average is the quantity-weighted mean of the
    two lots, whichever comes first. *)
Lemma buy_buy_average (sym : string) (q1 q2 : Z) (p1 p2 : Q) (d : State) :
  positions d !! sym = None ->
  q1 + q2 <> 0 ->
  exists a b,
    average_of (run_fills [fill BUY sym q1 p1; fill BUY sym q2 p2] d) sym = Some a
    /\ average_of (run_fills [fill BUY sym q2 p2; fill BUY sym q1 p1] d) sym = Some b
    /\ (a == (inject_Z q1 * p1 + inject_Z q2 * p2) / inject_Z (q1 + q2))%Q
    /\ (a == b)%Q.
Proof.
  intros Hflat Hsum.
  unfold run_fills, average_of, _execute_trade; cbn.
  rewrite Hflat; cbn. rewrite !lookup_insert_eq; cbn.
  destruct (Z.eqb_spec (q1 + q2) 0) as [|_]; [contradiction|].
  destruct (Z.eqb_spec (q2 + q1) 0) as [|_]; [lia|].
  cbn. rewrite !lookup_insert_eq; cbn.
  eexists _, _. split; [reflexivity|]. split; [reflexivity|].
  assert (Hne : ~ (inject_Z (q1 + q2) == 0)%Q).
  { unfold Qeq; cbn. lia. }
  assert (Hne' : ~ (inject_Z (q2 + q1) == 0)%Q).
  { unfold Qeq; cbn. lia. }
  split.
  - field. exact Hne.
  - rewrite (Z.add_comm q2 q1). field. exact Hne.
Qed.

(** Extending a short: the average stays at the price of the first fill. *)
Lemma sell_sell_average (sym : string) (q1 q2 : Z) (p1 p2 : Q) (d : State) :
  positions d !! sym = None ->
  q1 + q2 <> 0 ->
  average_of (run_fills [fill SELL sym q1 p1; fill SELL sym q2 p2] d) sym = Some p1.
Proof.
  intros Hflat Hsum.
  unfold run_fills, average_of, _execute_trade; cbn.
  rewrite Hflat; cbn. rewrite !lookup_insert_eq; cbn.
  destruct (Z.eqb_spec (- q1 - q2) 0) as [|_]; [lia|].
  cbn. rewrite lookup_insert_eq. reflexivity.
Qed.

(** C1.  Two SELL fills of 50 at 100 and of 50 at 200 from a flat book, both
    accepted by [place_order], leave the short position at average price 100,
    the price of the first fill, and at 200 when the fills come in the other
    order; the quantity-weighted mean of the two lots is 150.  Two BUY fills
    of the same lots give 150 in either order. *)
Theorem short_average_keeps_first_price :
  length (trades (two_fills SELL 50 100 50 200)) = 2%nat
  /\ average_of (two_fills SELL 50 100 50 200) "NIFTY" = Some (100 : Q)
  /\ average_of (two_fills SELL 50 200 50 100) "NIFTY" = Some (200 : Q)
  /\ ((inject_Z 50 * 100 + inject_Z 50 * 200) / inject_Z (50 + 50) == 150)%Q
  /\ Qred <$> average_of (two_fills BUY 50 100 50 200) "NIFTY" = Some (150 : Q)
  /\ Qred <$> average_of (two_fills BUY 50 200 50 100) "NIFTY" = Some (150 : Q).
Proof. vm_compute. repeat split. Qed.

End LedgerExamples.

(** ** Order admission in the driver *)

Section Admission.

Import Driver.

(** The order entry [place_order] builds for an accepted request. *)
Definition entry_of (request : OrderRequest) (d : State) : Order :=
  {| o_order_id := "BT" +:+ pretty (Z.of_nat (length (orders d)) + 1);
     o_symbol := r_symbol request;
     o_exchange := r_exchange request;
     o_transaction_type := r_transaction_type request;
     o_quantity := r_quantity request; o_order_type := r_order_type request;
     o_price := last_price (get_quote d (r_symbol request));
     o_status := "COMPLETE";
     o_timestamp := current_time d; o_tag := r_tag request |}.

(** The response mentions insufficient margin. *)
Definition mentions_margin (resp : OrderResponse) : bool :=
  match message resp with
  | Some m => contains "Insufficient Margin" m
  | None => false
  end.

Lemma Qeq_bool_false (x y : Q) : ~ (x == y)%Q -> Qeq_bool x y = false.
Proof.
  intros Hne. destruct (Qeq_bool x y) eqn:E; [|reflexivity].
  apply Qeq_bool_iff in E. contradiction.
Qed.

Lemma Qltb_true (a b : Q) : (a < b)%Q -> Qltb a b = true.
Proof.
  intros Hlt. unfold Qltb. destruct (Qle_bool b a) eqn:E; [|reflexivity].
  apply Qle_bool_iff in E. exfalso. apply (Qlt_not_le _ _ Hlt E).
Qed.

Lemma place_order_no_price (request : OrderRequest) (d : State) :
  (last_price (get_quote d (r_symbol request)) == 0)%Q ->
  place_order request d = (d, error_response ("No price for " +:+ r_symbol request)).
Proof.
  intros Hz. unfold place_order.
  apply Qeq_bool_iff in Hz. rewrite Hz. reflexivity.
Qed.


Lemma place_order_buy (request : OrderRequest) (d : State) :
  ~ (last_price (get_quote d (r_symbol request)) == 0)%Q ->
  r_transaction_type request = BUY ->
  place_order request d
  = (_execute_trade (entry_of request d)
                    (with_orders (orders d ++ [entry_of request d]) d),
     {| status := "ok"; order_id := Some (o_order_id (entry_of request d));
        message := None; raw := Some (entry_of request d) |}).
Proof.
  intros Hp Hside. unfold place_order.
  rewrite (Qeq_bool_false _ _ Hp).
  rewrite (bool_decide_eq_false_2 (r_transaction_type request = SELL)) by congruence.
  reflexivity.
Qed.

Lemma execute_trade_buy_ledger (o : Order) (d : State) :
  o_transaction_type o = BUY ->
  current_cash (_execute_trade o d) = (current_cash d - inject_Z (o_quantity o) * o_price o)%Q
  /\ trades (_execute_trade o d) = trades d ++ [o]
  /\ orders (_execute_trade o d) = orders d.
Proof.
  intros Hside. unfold _execute_trade. rewrite Hside.
  destruct (positions d !! o_symbol o) as [pos|]; cbn;
    [destruct (quantity_total pos + o_quantity o =? 0); cbn|]; auto.
Qed.










End Admission.

(** ** The risk gate: the halt is a one-way latch *)

Section RiskGate.

Context {B : Type} `{Risk.BrokerDriver B}.

Implicit Types (c : Risk.State B) (k : Risk.call).

Lemma update_global_pnl_halts (realized unrealized : Q) c :
  (realized + unrealized <= - Qabs' (Risk.max_global_drawdown c))%Q ->
  Risk.is_halted (Risk.update_global_pnl realized unrealized c) = true.
Proof.
  intros Hle. unfold Risk.update_global_pnl; cbn.
  apply Qle_bool_iff in Hle. rewrite Hle. reflexivity.
Qed.

Lemma update_global_pnl_keeps_halt (realized unrealized : Q) c :
  Risk.is_halted c = true ->
  Risk.is_halted (Risk.update_global_pnl realized unrealized c) = true.
Proof.
  intros Hh. unfold Risk.update_global_pnl; cbn. rewrite Hh.
  destruct (Qle_bool _ _); reflexivity.
Qed.

Lemma place_order_when_halted (request : Driver.OrderRequest) (now : Q) c :
  Risk.is_halted c = true ->
  Risk.place_order request now c = (c, Risk.Rejected "Risk System Halted").
Proof. intros Hh. unfold Risk.place_order. rewrite Hh. reflexivity. Qed.

Lemma cancel_order_forwards (oid : string) c :
  Risk.cancel_order oid c
  = (Risk.with_broker (fst (Risk.b_cancel_order oid (Risk.broker c))) c,
     snd (Risk.b_cancel_order oid (Risk.broker c))).
Proof.
  unfold Risk.cancel_order.
  destruct (Risk.b_cancel_order oid (Risk.broker c)); reflexivity.
Qed.

Lemma step_keeps_halt c k :
  Risk.is_halted c = true -> Risk.is_halted (Risk.step c k) = true.
Proof.
  intros Hh. destruct k as [r u|req now|oid|]; cbn [Risk.step].
  - apply update_global_pnl_keeps_halt, Hh.
  - rewrite (place_order_when_halted _ _ _ Hh). exact Hh.
  - rewrite cancel_order_forwards. exact Hh.
  - exact Hh.
Qed.

Lemma run_keeps_halt (ks : list Risk.call) :
  forall c, Risk.is_halted c = true -> Risk.is_halted (Risk.run ks c) = true.
Proof.
  unfold Risk.run.
  induction ks as [|k ks IH]; intros c Hh; cbn [fold_left].
  - exact Hh.
  - apply IH, step_keeps_halt, Hh.
Qed.

(** While halted, [place_order] leaves the wrapped backend as it is. *)
Lemma halted_place_order_keeps_backend (request : Driver.OrderRequest) (now : Q) c :
  Risk.is_halted c = true ->
  Risk.broker (Risk.step c (Risk.PlaceOrder request now)) = Risk.broker c.
Proof.
  intros Hh. cbn [Risk.step]. rewrite (place_order_when_halted _ _ _ Hh). reflexivity.
Qed.

(** C4.  On a gate whose drawdown threshold is 5000, one call
    [update_global_pnl(-5001, 0)] sets the halt flag.  After any later calls
    (P&L updates of any sign, order placements, cancellations) the flag is
    still set, a further P&L update leaves it set, every [place_order] is
    answered with the halt rejection and leaves the gate and its backend
    untouched, and [cancel_order] is answered by the backend. *)
Theorem drawdown_halt_is_permanent c (ks : list Risk.call) :
  (Risk.max_global_drawdown c == 5000)%Q ->
  let halted := Risk.update_global_pnl (-5001) 0 c in
  let later := Risk.run ks halted in
  Risk.is_halted halted = true
  /\ Risk.is_halted later = true
  /\ (forall realized unrealized,
        Risk.is_halted (Risk.update_global_pnl realized unrealized later) = true)
  /\ (forall request now,
        Risk.place_order request now later = (later, Risk.Rejected "Risk System Halted"))
  /\ (forall oid,
        Risk.cancel_order oid later
        = (Risk.with_broker (fst (Risk.b_cancel_order oid (Risk.broker later))) later,
           snd (Risk.b_cancel_order oid (Risk.broker later)))).
Proof.
  intros Hthr halted later.
  assert (Hh : Risk.is_halted halted = true).
  { apply update_global_pnl_halts. unfold Qabs'.
    destruct (Qle_bool 0 (Risk.max_global_drawdown c)); lra. }
  assert (Hl : Risk.is_halted later = true) by (apply run_keeps_halt, Hh).
  repeat split.
  - exact Hh.
  - exact Hl.
  - intros r u. apply update_global_pnl_keeps_halt, Hl.
  - intros req now. apply place_order_when_halted, Hl.
  - intros oid. apply cancel_order_forwards.
Qed.

End RiskGate.

(** The gate of [main.py] over the backtest driver: halted at -5001, then a
    placement, a P&L report of +9000, a cancellation. *)
Definition calls_after_halt : list Risk.call :=
  [Risk.PlaceOrder (market Driver.BUY "NIFTY" 50) 10;
   Risk.UpdateGlobalPnl 9000 0;
   Risk.CancelOrder "BT1"].

Lemma drawdown_halt_is_permanent_witness :
  Risk.is_halted
    (Risk.run calls_after_halt
       (Risk.update_global_pnl (-5001) 0 (Risk.init (Driver.init 100000)))) = true
  /\ Risk.place_order (market Driver.BUY "NIFTY" 50) 11
       (Risk.run calls_after_halt
          (Risk.update_global_pnl (-5001) 0 (Risk.init (Driver.init 100000))))
     = (Risk.run calls_after_halt
          (Risk.update_global_pnl (-5001) 0 (Risk.init (Driver.init 100000))),
        Risk.Rejected "Risk System Halted").
Proof.
  pose proof (drawdown_halt_is_permanent (Risk.init (Driver.init 100000))
                calls_after_halt (Qeq_refl 5000)) as (_ & Hl & _ & Hp & _).
  split; [exact Hl | apply Hp].
Defined.

(** ** The data provider: option chain *)

Section Dates.

Lemma date_eqb_eq (a b : date) : date_eqb a b = true <-> a = b.
Proof. unfold date_eqb. apply bool_decide_eq_true. Qed.

(** The order of dates as a proposition on the three fields. *)
Definition date_lt (a b : date) : Prop :=
  year a < year b
  \/ (year a = year b /\ (month a < month b \/ (month a = month b /\ day a < day b))).

Lemma date_ltb_lt (a b : date) : date_ltb a b = true <-> date_lt a b.
Proof.
  unfold date_ltb, date_lt.
  rewrite !orb_true_iff, !andb_true_iff, !orb_true_iff, !andb_true_iff,
    !Z.ltb_lt, !Z.eqb_eq. tauto.
Qed.

Lemma date_ltb_ge (a b : date) : date_ltb a b = false <-> (a = b \/ date_lt b a).
Proof.
  rewrite <- not_true_iff_false, date_ltb_lt. unfold date_lt.
  destruct a as [ya ma da], b as [yb mb db]; cbn. split.
  - intros Hn.
    destruct (decide (ya = yb /\ ma = mb /\ da = db)) as [(-> & -> & ->)|Hd];
      [left; reflexivity | right; lia].
  - intros [[= -> -> ->]|Hlt]; lia.
Qed.

Lemma date_leb_le (a b : date) : date_leb a b = true <-> (a = b \/ date_lt a b).
Proof.
  unfold date_leb. rewrite orb_true_iff, date_eqb_eq, date_ltb_lt. tauto.
Qed.

Lemma date_lt_trans (a b c : date) : date_lt a b -> date_lt b c -> date_lt a c.
Proof. unfold date_lt. lia. Qed.


Lemma date_leb_trans (a b c : date) :
  date_leb a b = true -> date_leb b c = true -> date_leb a c = true.
Proof.
  rewrite !date_leb_le. intros [->|Hab] [->|Hbc]; auto.
  right. eapply date_lt_trans; eassumption.
Qed.

Lemma date_leb_refl (a : date) : date_leb a a = true.
Proof. apply date_leb_le. left; reflexivity. Qed.

(** Running maximum: the result is the seed or an element, and bounds both. *)
Lemma fold_max_spec (l : list date) :
  forall d,
    let m := fold_left (fun m x => if date_ltb m x then x else m) l d in
    (m = d \/ In m l) /\ date_leb d m = true /\ (forall x, In x l -> date_leb x m = true).
Proof.
  induction l as [|y l IH]; intros d; cbn [fold_left].
  - cbn. repeat split; first [ solve [auto using date_leb_refl] | intros x [] ].
  - destruct (date_ltb d y) eqn:E.
    + destruct (IH y) as (Hin & Hle & Hall). cbn zeta.
      split; [right; destruct Hin as [->|Hin]; [left; reflexivity | right; exact Hin]|].
      split.
      * apply date_leb_trans with y; [|exact Hle].
        apply date_leb_le. right. apply date_ltb_lt, E.
      * intros x [<-|Hx]; auto.
    + destruct (IH d) as (Hin & Hle & Hall). cbn zeta.
      split; [destruct Hin as [->|Hin]; [left; reflexivity | right; right; exact Hin]|].
      split; [exact Hle|].
      intros x [<-|Hx]; auto.
      apply date_leb_trans with d; [|exact Hle].
      apply date_leb_le. apply date_ltb_ge in E. destruct E as [->|E]; auto.
Qed.


Lemma max_date_spec (l : list date) (m : date) :
  max_date l = Some m -> In m l /\ (forall x, In x l -> date_leb x m = true).
Proof.
  destruct l as [|d l]; [discriminate|]. cbn [max_date]. intros [= <-].
  destruct (fold_max_spec l d) as (Hin & Hle & Hall). split.
  - destruct Hin as [->|Hin]; [left; reflexivity | right; exact Hin].
  - intros x [<-|Hx]; auto.
Qed.



End Dates.

Section OptionChain.

Import CSV.

Lemma filter_nil_iff {A} (f : A -> bool) (l : list A) :
  List.filter f l = [] <-> (forall x, In x l -> f x = false).
Proof.
  induction l as [|a l IH]; cbn.
  - split; [intros _ x [] | reflexivity].
  - destruct (f a) eqn:E; split.
    + discriminate.
    + intros Hall. specialize (Hall a (or_introl eq_refl)). congruence.
    + intros Hnil x [<-|Hx]; [exact E | apply IH; assumption].
    + intros Hall. apply IH. intros x Hx. apply Hall. right; exact Hx.
Qed.







Lemma add_synth_symbol_rows (l : list OptRow) :
  match add_synth_symbol l with
  | Some chain => chain = map with_synth l /\ l <> []
  | None => l = []
  end.
Proof. destruct l; cbn; [reflexivity | split; [reflexivity | discriminate]]. Qed.


(** A provider whose CE table is loaded but empty and whose PE table has a
    row for 22 January 2026. *)
Definition pe_row_22jan : OptRow :=
  {| Date := mkDate 2026 1 22; Expiry := mkDate 2026 1 27; Strike_Price := 25500;
     Option_type := "PE"; LTP := CNum 120; Close := CNum 118;
     Underlying_Value := 25480 |}.

Definition ce_row_21jan : OptRow :=
  {| Date := mkDate 2026 1 21; Expiry := mkDate 2026 1 27; Strike_Price := 25500;
     Option_type := "CE"; LTP := CNum 90; Close := CNum 95;
     Underlying_Value := 25400 |}.



Definition ce_row_far : OptRow :=
  {| Date := mkDate 2026 1 21; Expiry := mkDate 2026 2 24; Strike_Price := 25500;
     Option_type := "CE"; LTP := CNum 210; Close := CNum 205;
     Underlying_Value := 25400 |}.

Definition pe_row_near : OptRow :=
  {| Date := mkDate 2026 1 21; Expiry := mkDate 2026 1 27; Strike_Price := 25500;
     Option_type := "PE"; LTP := CNum 80; Close := CNum 82;
     Underlying_Value := 25400 |}.


(** CE and PE rows on the 21st, and a PE row on the 22nd. *)
Definition both_on_21 : CSVDataProvider :=
  {| index_data := None; ce_data := Some [ce_row_21jan];
     pe_data := Some [pe_row_near; pe_row_22jan] |}.




End OptionChain.

(** ** The data provider: option price *)

Section OptionPriceProps.

Import CSV.

Variable py_float : string -> option pyfloat.

(** The table [get_option_price] selects for an option type. *)
Definition table_of (p : CSVDataProvider) (type_str : string) : option (list OptRow) :=
  if String.eqb type_str "CE" then ce_data p else pe_data p.

Lemma unusable_cases (val : cell) :
  unusable val = true
  <-> val = CStr "-" \/ val = CNaN \/ exists q, val = CNum q /\ (q == 0)%Q.
Proof.
  destruct val as [q| |s]; cbn.
  - rewrite Qeq_bool_iff. split.
    + intros Hq. right; right. exists q. split; [reflexivity | exact Hq].
    + intros [Hs|[Hn|(q' & [= <-] & Hq)]]; [discriminate.. | exact Hq].
  - split; [intros _; right; left; reflexivity | reflexivity].
  - rewrite String.eqb_eq. split.
    + intros ->. left; reflexivity.
    + intros [[= ->]|[Hn|(q & Hq & _)]]; [reflexivity | discriminate..].
Qed.

Lemma row_price_ltp (r : OptRow) (q : Q) :
  LTP r = CNum q -> ~ (q == 0)%Q -> row_price py_float r = FNum q.
Proof.
  intros Hl Hq. unfold row_price. rewrite Hl. cbn.
  rewrite (Qeq_bool_false _ _ Hq). reflexivity.
Qed.

Lemma row_price_close (r : OptRow) :
  unusable (LTP r) = true -> row_price py_float r = to_price py_float (Close r).
Proof. intros Hu. unfold row_price. rewrite Hu. reflexivity. Qed.

Lemma row_price_text (r : OptRow) (s : string) :
  LTP r = CStr s -> s <> "-"%string ->
  row_price py_float r = default (FNum 0) (py_float s).
Proof.
  intros Hl Hs. unfold row_price. rewrite Hl. cbn.
  apply String.eqb_neq in Hs. rewrite Hs. cbn. rewrite Hs.
  destruct (py_float s); reflexivity.
Qed.

(** C7, as amended.  For a symbol matching the pattern and the row found at
    (date, strike) or on the table's last date at or before it,
    [get_option_price] returns the LTP when it is a nonzero number, and the
    Close (as [float] reads it: the number itself when it is one) whenever the
    LTP is ["-"], missing or the number zero; an LTP holding any other text
    is converted by [float] and gives 0.0, not the Close, when it does not
    parse.  A symbol that does not match, and a search that finds no row,
    give 0.0. *)
Theorem option_price_prefers_ltp (p : CSVDataProvider) (symbol : string) (ts : timestamp) :
  (match_symbol symbol = None -> get_option_price py_float p symbol ts = FNum 0)
  /\ (forall yy mon strike ty,
        match_symbol symbol = Some (yy, mon, strike, ty) ->
        match table_of p ty with
        | None => get_option_price py_float p symbol ts = FNum 0
        | Some rows =>
            match find_row rows (ts_date ts) (inject_Z (digits_value strike)) with
            | None => get_option_price py_float p symbol ts = FNum 0
            | Some r =>
                (forall q, LTP r = CNum q -> ~ (q == 0)%Q ->
                           get_option_price py_float p symbol ts = FNum q)
                /\ (unusable (LTP r) = true ->
                    get_option_price py_float p symbol ts = to_price py_float (Close r))
                /\ (forall c, unusable (LTP r) = true -> Close r = CNum c ->
                              get_option_price py_float p symbol ts = FNum c)
                /\ (forall s, LTP r = CStr s -> s <> "-"%string ->
                              get_option_price py_float p symbol ts
                              = default (FNum 0) (py_float s))
            end
        end).
Proof.
  split.
  - intros Hm. unfold get_option_price. rewrite Hm. reflexivity.
  - intros yy mon strike ty Hm. unfold get_option_price, table_of. rewrite Hm.
    destruct (if String.eqb ty "CE" then ce_data p else pe_data p) as [rows|];
      [|reflexivity].
    destruct (find_row rows (ts_date ts) (inject_Z (digits_value strike))) as [r|];
      [|reflexivity].
    repeat split.
    + apply row_price_ltp.
    + apply row_price_close.
    + intros c Hu Hc. rewrite (row_price_close r Hu), Hc. reflexivity.
    + apply row_price_text.
Qed.

End OptionPriceProps.

(** [float(s)] on plain decimal literals (an optional sign, digits, an
    optional fraction).  Other text is answered with [ValueError]; exponents,
    infinities and surrounding blanks, which Python also reads, are left
    out.  Used for the worked examples only. *)
Definition plain_float (s : string) : option CSV.pyfloat :=
  let '(neg, body) :=
    match s with
    | String "-" r => (true, r)
    | String "+" r => (false, r)
    | _ => (false, s)
    end in
  let '(ip, rest) := span is_digit body in
  let '(fp, rest') :=
    match rest with
    | String "." r => span is_digit r
    | _ => (EmptyString, rest)
    end in
  match rest', (ip +:+ fp)%string with
  | EmptyString, String _ _ =>
      let v := (inject_Z (digits_value (ip +:+ fp))
                / inject_Z (10 ^ Z.of_nat (String.length fp)))%Q in
      Some (CSV.FNum (Qred (if neg then - v else v)))
  | _, _ => None
  end.

Definition ce_row (ltp close : CSV.cell) : CSV.OptRow :=
  {| CSV.Date := mkDate 2026 1 22; CSV.Expiry := mkDate 2026 1 27;
     CSV.Strike_Price := 25500; CSV.Option_type := "CE";
     CSV.LTP := ltp; CSV.Close := close; CSV.Underlying_Value := 25480 |}.

Definition ce_table (ltp close : CSV.cell) : CSV.CSVDataProvider :=
  {| CSV.index_data := None; CSV.ce_data := Some [ce_row ltp close];
     CSV.pe_data := Some [] |}.

(** C7 as stated fails: an LTP that is text other than ["-"] and does not
    parse gives 0.0 although the row has a Close of 12.5, and so does an LTP
    that is the text ["0"]; and with both LTP and Close at ["-"] the answer
    is 0.0. *)
Lemma unparsable_ltp_gives_zero_not_close :
  CSV.match_symbol "NIFTY26JAN25500CE" = Some ("26", "JAN", "25500", "CE")%string
  /\ CSV.find_row [ce_row (CSV.CStr "abc") (CSV.CNum (25 # 2))] (mkDate 2026 1 23) 25500
     = Some (ce_row (CSV.CStr "abc") (CSV.CNum (25 # 2)))
  /\ plain_float "abc" = None
  /\ CSV.get_option_price plain_float (ce_table (CSV.CStr "abc") (CSV.CNum (25 # 2)))
       "NIFTY26JAN25500CE" (mkTs (mkDate 2026 1 23) 0) = CSV.FNum 0
  /\ plain_float "0" = Some (CSV.FNum 0)
  /\ CSV.get_option_price plain_float (ce_table (CSV.CStr "0") (CSV.CNum (25 # 2)))
       "NIFTY26JAN25500CE" (mkTs (mkDate 2026 1 23) 0) = CSV.FNum 0
  /\ CSV.get_option_price plain_float (ce_table (CSV.CStr "-") (CSV.CStr "-"))
       "NIFTY26JAN25500CE" (mkTs (mkDate 2026 1 23) 0) = CSV.FNum 0.
Proof. vm_compute. repeat split. Qed.

Lemma option_price_prefers_ltp_witness :
  CSV.get_option_price plain_float (ce_table (CSV.CStr "-") (CSV.CNum (25 # 2)))
    "NIFTY26JAN25500CE" (mkTs (mkDate 2026 1 23) 0) = CSV.FNum (25 # 2)
  /\ CSV.get_option_price plain_float (ce_table (CSV.CNum 14) (CSV.CNum (25 # 2)))
       "NIFTY26JAN25500CE" (mkTs (mkDate 2026 1 23) 0) = CSV.FNum 14.
Proof.
  split.
  - pose proof (proj2 (option_price_prefers_ltp plain_float
                  (ce_table (CSV.CStr "-") (CSV.CNum (25 # 2)))
                  "NIFTY26JAN25500CE" (mkTs (mkDate 2026 1 23) 0))
                  _ _ _ _ eq_refl) as H.
    cbv beta iota delta [table_of] in H. cbn in H.
    destruct H as (_ & _ & Hclose & _). apply Hclose; reflexivity.
  - pose proof (proj2 (option_price_prefers_ltp plain_float
                  (ce_table (CSV.CNum 14) (CSV.CNum (25 # 2)))
                  "NIFTY26JAN25500CE" (mkTs (mkDate 2026 1 23) 0))
                  _ _ _ _ eq_refl) as H.
    cbn in H.
    destruct H as (Hltp & _). apply Hltp; [reflexivity | discriminate].
Defined.

(** ** The scheduler: marks, throttle and daily counter *)

Section Marks.

Import Driver.

Lemma set_price_logs (sym : string) (price : Q) (d : State) :
  trades (set_price sym price d) = trades d
  /\ orders (set_price sym price d) = orders d
  /\ current_cash (set_price sym price d) = current_cash d.
Proof. unfold set_price. destruct (positions d !! sym); cbn; auto. Qed.

Lemma set_price_mark (sym : string) (price : Q) (d : State) :
  current_prices (set_price sym price d) = <[sym := price]> (current_prices d).
Proof. unfold set_price. destruct (positions d !! sym); reflexivity. Qed.

Lemma refresh_mark_trades (idx : string) (d : State) (sym : string) :
  trades (Engine.refresh_mark idx d sym) = trades d.
Proof.
  unfold Engine.refresh_mark.
  destruct (String.eqb sym idx); [reflexivity|].
  destruct (Qeq_bool _ 0); [reflexivity|]. apply set_price_logs.
Qed.

Lemma refresh_mark_index (idx : string) (d : State) (sym : string) :
  current_prices (Engine.refresh_mark idx d sym) !! idx = current_prices d !! idx.
Proof.
  unfold Engine.refresh_mark.
  destruct (String.eqb_spec sym idx) as [|Hne]; [reflexivity|].
  destruct (Qeq_bool _ 0); [reflexivity|].
  rewrite set_price_mark. apply lookup_insert_ne. exact Hne.
Qed.

Lemma refresh_marks_trades (idx : string) (syms : list string) :
  forall d, trades (fold_left (Engine.refresh_mark idx) syms d) = trades d.
Proof.
  induction syms as [|s syms IH]; intros d; cbn [fold_left]; [reflexivity|].
  rewrite IH. apply refresh_mark_trades.
Qed.

Lemma refresh_marks_index (idx : string) (syms : list string) :
  forall d, current_prices (fold_left (Engine.refresh_mark idx) syms d) !! idx
            = current_prices d !! idx.
Proof.
  induction syms as [|s syms IH]; intros d; cbn [fold_left]; [reflexivity|].
  rewrite IH. apply refresh_mark_index.
Qed.

(** A recorded nonzero mark is the price [get_quote] answers with. *)
Lemma get_quote_marked (d : State) (sym : string) (price : Q) :
  current_prices d !! sym = Some price -> ~ (price == 0)%Q ->
  last_price (get_quote d sym) = price.
Proof.
  intros Hm Hp. unfold get_quote. rewrite Hm. cbn.
  rewrite (Qeq_bool_false _ _ Hp).
  destruct (csv_provider d), (current_time d); reflexivity.
Qed.

Lemma execute_trade_prices (o : Order) (d : State) :
  current_prices (_execute_trade o d) = current_prices d.
Proof.
  unfold _execute_trade.
  destruct (o_transaction_type o); cbn;
    destruct (positions d !! o_symbol o) as [pos|]; cbn;
    try match goal with |- context [Z.eqb ?a ?b] => destruct (Z.eqb a b) end;
    reflexivity.
Qed.

(** One BUY at a recorded nonzero mark: one more trade, the marks as before. *)
Lemma buy_at_mark (d : State) (sym : string) (qty : Z) (price : Q) :
  current_prices d !! sym = Some price -> ~ (price == 0)%Q ->
  length (trades (fst (place_order (market BUY sym qty) d))) = S (length (trades d))
  /\ current_prices (fst (place_order (market BUY sym qty) d)) = current_prices d.
Proof.
  intros Hm Hp.
  assert (Hq : ~ (last_price (get_quote d sym) == 0)%Q).
  { rewrite (get_quote_marked d sym price Hm Hp). exact Hp. }
  rewrite (place_order_buy (market BUY sym qty) d Hq eq_refl). cbn [fst].
  destruct (execute_trade_buy_ledger (entry_of (market BUY sym qty) d)
              (with_orders (orders d ++ [entry_of (market BUY sym qty) d]) d) eq_refl)
    as (_ & Htr & _).
  rewrite Htr, execute_trade_prices. cbn.
  rewrite length_app. cbn. split; [lia | reflexivity].
Qed.

(** [k] BUY orders placed one after the other. *)
Definition buy_times (k : nat) (sym : string) (qty : Z) (d : State) : State :=
  Nat.iter k (fun acc => fst (place_order (market BUY sym qty) acc)) d.

Lemma buy_times_at_mark (k : nat) (d : State) (sym : string) (qty : Z) (price : Q) :
  current_prices d !! sym = Some price -> ~ (price == 0)%Q ->
  length (trades (buy_times k sym qty d)) = (length (trades d) + k)%nat
  /\ current_prices (buy_times k sym qty d) !! sym = Some price.
Proof.
  intros Hm Hp. induction k as [|k [IHt IHm]].
  - cbn. split; [lia | exact Hm].
  - change (buy_times (S k) sym qty d)
      with (fst (place_order (market BUY sym qty) (buy_times k sym qty d))).
    destruct (buy_at_mark (buy_times k sym qty d) sym qty price IHm Hp) as (Ht & Hc).
    rewrite Ht, Hc, IHt. split; [lia | exact IHm].
Qed.

End Marks.

Section Throttle.

Context {S : Type}.

Implicit Types (sc : Engine.StrategyClass S) (st : Engine.Loop S).

(** The driver of a sub-tick once the index is marked at [price] and the
    marks of the other held symbols are refreshed. *)
Definition marks_refreshed (cfg : Engine.Config) (price : Q) (d : Driver.State) : Driver.State :=
  fold_left (Engine.refresh_mark (Engine.index_symbol cfg))
            (map_to_list (Driver.positions
                            (Driver.set_price (Engine.index_symbol cfg) price d))).*1
            (Driver.set_price (Engine.index_symbol cfg) price d).

(** The trade count on record for the date of [t]. *)
Definition trades_on (t : timestamp) (counts : gmap date Z) : Z :=
  default 0 (counts !! ts_date t).

Lemma marks_refreshed_trades (cfg : Engine.Config) (price : Q) (d : Driver.State) :
  Driver.trades (marks_refreshed cfg price d) = Driver.trades d.
Proof.
  unfold marks_refreshed. rewrite refresh_marks_trades. apply set_price_logs.
Qed.

Lemma marks_refreshed_index (cfg : Engine.Config) (price : Q) (d : Driver.State) :
  Driver.current_prices (marks_refreshed cfg price d) !! Engine.index_symbol cfg
  = Some price.
Proof.
  unfold marks_refreshed. rewrite refresh_marks_index, set_price_mark.
  apply lookup_insert_eq.
Qed.

(** At or above the ceiling the callback is skipped: strategy, trade log and
    counter stay as they are. *)
Lemma tick_step_throttled sc (cfg : Engine.Config) (ceiling : Z) (t : timestamp) st
    (price : Q) :
  ceiling <= trades_on t (Engine.l_counts st) ->
  Engine.tick_step sc cfg ceiling t st price
  = {| Engine.l_driver := marks_refreshed cfg price (Engine.l_driver st);
       Engine.l_strategy := Engine.l_strategy st;
       Engine.l_counts := Engine.l_counts st |}.
Proof.
  intros Hge. unfold Engine.tick_step, trades_on in *.
  fold (marks_refreshed cfg price (Engine.l_driver st)).
  rewrite (proj2 (Z.ltb_ge _ _) Hge), Z.ltb_irrefl. reflexivity.
Qed.

(** Below the ceiling the callback runs once, and the counter of the date
    grows by the growth of the trade log. *)
Lemma tick_step_delivered sc (cfg : Engine.Config) (ceiling : Z) (t : timestamp) st
    (price : Q) :
  trades_on t (Engine.l_counts st) < ceiling ->
  let d2 := marks_refreshed cfg price (Engine.l_driver st) in
  let after := Engine.on_ticks_update sc (Engine.mkTick price price t)
                 (Engine.l_strategy st) d2 in
  let pre := Z.of_nat (length (Driver.trades d2)) in
  let post := Z.of_nat (length (Driver.trades (snd after))) in
  Engine.tick_step sc cfg ceiling t st price
  = {| Engine.l_driver := snd after;
       Engine.l_strategy := fst after;
       Engine.l_counts :=
         if pre <? post
         then <[ts_date t := trades_on t (Engine.l_counts st) + (post - pre)]>
                (Engine.l_counts st)
         else Engine.l_counts st |}.
Proof.
  intros Hlt. unfold Engine.tick_step, trades_on in *.
  fold (marks_refreshed cfg price (Engine.l_driver st)).
  rewrite (proj2 (Z.ltb_lt _ _) Hlt).
  destruct (Engine.on_ticks_update sc _ _ _) as [s3 d3]. reflexivity.
Qed.

End Throttle.

(** ** Strategies used to exercise the scheduler *)

Section Strategies.

Context {A : Type}.

(** A strategy that keeps its contract prefix and a state [A] of its own,
    does nothing when constructed or told to roll, and runs [act] on each
    tick it is given. *)
Definition simple_strategy (a0 : A)
    (act : Engine.Tick -> A -> Driver.State -> A * Driver.State)
  : Engine.StrategyClass (string * A) :=
  {| Engine.construct := fun cfg d => ((Engine.symbol_initials cfg, a0), d);
     Engine.get_symbol_initials := fst;
     Engine.set_symbol_initials := fun prefix s => (prefix, snd s);
     Engine.refresh_instruments := fun s d => (s, d);
     Engine.on_ticks_update := fun tick s d =>
       let '(a, d') := act tick (snd s) d in ((fst s, a), d') |}.

Lemma download_instruments_ledger (d : Driver.State) :
  Driver.trades (Driver.download_instruments d) = Driver.trades d
  /\ Driver.current_prices (Driver.download_instruments d) = Driver.current_prices d
  /\ Driver.positions (Driver.download_instruments d) = Driver.positions d.
Proof.
  unfold Driver.download_instruments.
  destruct (Driver.get_option_chain d); cbn; auto.
Qed.

(** Rolling the contract leaves the trade log, the counter and the state of
    a simple strategy as they are. *)
Lemma roll_contract_simple (a0 : A) (act : Engine.Tick -> A -> Driver.State -> A * Driver.State)
    (st : Engine.Loop (string * A)) :
  Driver.trades (Engine.l_driver (Engine.roll_contract (simple_strategy a0 act) st))
  = Driver.trades (Engine.l_driver st)
  /\ Engine.l_counts (Engine.roll_contract (simple_strategy a0 act) st) = Engine.l_counts st
  /\ snd (Engine.l_strategy (Engine.roll_contract (simple_strategy a0 act) st))
     = snd (Engine.l_strategy st).
Proof.
  unfold Engine.roll_contract.
  destruct (Driver.get_option_chain (Engine.l_driver st)) as [chain|]; cbn;
    [destruct (CSV.CE chain) as [|first rest]; cbn;
     [|destruct (Engine.contract_prefix (CSV.synth_symbol first)) as [prefix|]; cbn;
       [destruct (String.eqb prefix _); cbn|]]|];
    rewrite (proj1 (download_instruments_ledger _)); auto.
Qed.

Lemma before_row_simple (a0 : A) (act : Engine.Tick -> A -> Driver.State -> A * Driver.State)
    (r : Engine.Row) (st : Engine.Loop (string * A)) :
  Driver.trades (Engine.l_driver (Engine.before_row (simple_strategy a0 act) r st))
  = Driver.trades (Engine.l_driver st)
  /\ Engine.l_counts (Engine.before_row (simple_strategy a0 act) r st) = Engine.l_counts st
  /\ snd (Engine.l_strategy (Engine.before_row (simple_strategy a0 act) r st))
     = snd (Engine.l_strategy st).
Proof.
  unfold Engine.before_row.
  destruct (roll_contract_simple a0 act
              (Engine.with_driver
                 (Driver.set_current_time (Engine.row_time r) (Engine.l_driver st)) st))
    as (Ht & Hc & Hs).
  rewrite Ht, Hc, Hs. cbn. auto.
Qed.

End Strategies.

(** A strategy that places [k] BUY orders of [qty] on [sym] on every tick it
    receives, and counts the ticks it receives. *)
Definition buyer (k : nat) (sym : string) (qty : Z) : Engine.StrategyClass (string * Z) :=
  simple_strategy 0 (fun _ calls d => (calls + 1, buy_times k sym qty d)).

(** A strategy that places no order and records the ticks it receives. *)
Definition recorder : Engine.StrategyClass (string * list Engine.Tick) :=
  simple_strategy [] (fun tick seen d => (seen ++ [tick], d)).

Section BuyerTicks.

(** A delivered tick of a [buyer]: [k] more trades, the count of the date up
    by [k], one more call. *)
Lemma tick_step_buyer (k : nat) (qty : Z) (cfg : Engine.Config) (ceiling : Z)
    (t : timestamp) (st : Engine.Loop (string * Z)) (price : Q) :
  trades_on t (Engine.l_counts st) < ceiling ->
  (0 < k)%nat ->
  ~ (price == 0)%Q ->
  let st' := Engine.tick_step (buyer k (Engine.index_symbol cfg) qty) cfg ceiling t st price in
  length (Driver.trades (Engine.l_driver st'))
  = (length (Driver.trades (Engine.l_driver st)) + k)%nat
  /\ Engine.l_counts st'
     = <[ts_date t := trades_on t (Engine.l_counts st) + Z.of_nat k]> (Engine.l_counts st)
  /\ snd (Engine.l_strategy st') = snd (Engine.l_strategy st) + 1.
Proof.
  intros Hlt Hk Hp st'. subst st'.
  rewrite (tick_step_delivered _ cfg ceiling t st price Hlt). cbn.
  destruct (buy_times_at_mark k (marks_refreshed cfg price (Engine.l_driver st))
              (Engine.index_symbol cfg) qty price
              (marks_refreshed_index cfg price _) Hp) as (Hlen & _).
  rewrite Hlen, marks_refreshed_trades.
  split; [reflexivity|]. split; [|reflexivity].
  replace (Z.of_nat (length (Driver.trades (Engine.l_driver st)))
           <? Z.of_nat (length (Driver.trades (Engine.l_driver st)) + k)) with true
    by (symmetry; apply Z.ltb_lt; lia).
  f_equal. lia.
Qed.

(** A delivered tick of any strategy whose callback makes the trade log grow
    by [k > 0]: the count of the date becomes the count on record plus [k]. *)
Lemma tick_step_growth {S : Type} (sc : Engine.StrategyClass S) (cfg : Engine.Config)
    (ceiling : Z) (t : timestamp) (st : Engine.Loop S) (price : Q) (k : nat) :
  trades_on t (Engine.l_counts st) < ceiling ->
  (0 < k)%nat ->
  length (Driver.trades
            (snd (Engine.on_ticks_update sc (Engine.mkTick price price t)
                    (Engine.l_strategy st)
                    (marks_refreshed cfg price (Engine.l_driver st)))))
  = (length (Driver.trades (Engine.l_driver st)) + k)%nat ->
  Engine.l_counts (Engine.tick_step sc cfg ceiling t st price)
  = <[ts_date t := trades_on t (Engine.l_counts st) + Z.of_nat k]> (Engine.l_counts st).
Proof.
  intros Hlt Hk Hgrow.
  rewrite (tick_step_delivered sc cfg ceiling t st price Hlt). cbn [Engine.l_counts].
  rewrite Hgrow, marks_refreshed_trades.
  rewrite (proj2 (Z.ltb_lt _ _)) by lia. f_equal. lia.
Qed.

(** C10.  With the count of the date at any value [c] below the ceiling, a
    delivered callback that makes [k > 1] trades on the one tick moves the
    count of the date to [c + k], above the ceiling whenever [c + k] is.  A
    callback that places [k > 1] BUY orders at a nonzero mark is such a
    callback: all [k] orders are filled. *)
Theorem one_tick_can_exceed_ceiling :
  (forall (S : Type) (sc : Engine.StrategyClass S) cfg ceiling t (st : Engine.Loop S)
          price (k : nat),
      trades_on t (Engine.l_counts st) < ceiling ->
      (1 < k)%nat ->
      length (Driver.trades
                (snd (Engine.on_ticks_update sc (Engine.mkTick price price t)
                        (Engine.l_strategy st)
                        (marks_refreshed cfg price (Engine.l_driver st)))))
      = (length (Driver.trades (Engine.l_driver st)) + k)%nat ->
      let c := trades_on t (Engine.l_counts st) in
      let st' := Engine.tick_step sc cfg ceiling t st price in
      Engine.l_counts st' !! ts_date t = Some (c + Z.of_nat k)
      /\ (ceiling < c + Z.of_nat k -> ceiling < trades_on t (Engine.l_counts st')))
  /\ (forall (k : nat) qty cfg ceiling t (st : Engine.Loop (string * Z)) price,
      trades_on t (Engine.l_counts st) < ceiling ->
      (1 < k)%nat ->
      ~ (price == 0)%Q ->
      let c := trades_on t (Engine.l_counts st) in
      let st' := Engine.tick_step (buyer k (Engine.index_symbol cfg) qty) cfg ceiling t
                   st price in
      snd (Engine.l_strategy st') = snd (Engine.l_strategy st) + 1
      /\ length (Driver.trades (Engine.l_driver st'))
         = (length (Driver.trades (Engine.l_driver st)) + k)%nat
      /\ Engine.l_counts st' !! ts_date t = Some (c + Z.of_nat k)
      /\ (ceiling < c + Z.of_nat k -> ceiling < trades_on t (Engine.l_counts st'))).
Proof.
  split.
  - intros S sc cfg ceiling t st price k Hlt Hk Hgrow c st'.
    assert (Hlook : Engine.l_counts st' !! ts_date t = Some (c + Z.of_nat k)).
    { subst st'. rewrite (tick_step_growth sc cfg ceiling t st price k Hlt ltac:(lia) Hgrow).
      apply lookup_insert_eq. }
    split; [exact Hlook|].
    intros Hex. unfold trades_on. rewrite Hlook. exact Hex.
  - intros k qty cfg ceiling t st price Hlt Hk Hp c st'.
    destruct (tick_step_buyer k qty cfg ceiling t st price Hlt ltac:(lia) Hp)
      as (Hlen & Hcnt & Hcalls).
    fold st' in Hlen, Hcnt, Hcalls. fold c in Hcnt.
    assert (Hlook : Engine.l_counts st' !! ts_date t = Some (c + Z.of_nat k)).
    { rewrite Hcnt. apply lookup_insert_eq. }
    repeat split; try assumption.
    intros Hex. unfold trades_on. rewrite Hlook. exact Hex.
Qed.

End BuyerTicks.

Definition nifty_config : Engine.Config :=
  {| Engine.index_symbol := "NIFTY"; Engine.symbol_initials := "NIFTY26JAN" |}.

(** Four trades on record for 22 January 2026. *)
Definition four_done : Engine.Loop (string * Z) :=
  {| Engine.l_driver := Driver.init 100000;
     Engine.l_strategy := ("NIFTY26JAN"%string, 0);
     Engine.l_counts := {[mkDate 2026 1 22 := 4]} |}.

(** Ceiling 5, four trades on record, a callback placing three orders: the
    count becomes seven. *)
Lemma one_tick_can_exceed_ceiling_witness :
  Engine.l_counts
    (Engine.tick_step (buyer 3 "NIFTY" 1) nifty_config 5 (mkTs (mkDate 2026 1 22) 0)
       four_done 22000) !! mkDate 2026 1 22 = Some 7
  /\ 5 < trades_on (mkTs (mkDate 2026 1 22) 0)
           (Engine.l_counts
              (Engine.tick_step (buyer 3 "NIFTY" 1) nifty_config 5
                 (mkTs (mkDate 2026 1 22) 0) four_done 22000)).
Proof.
  assert (Hp : ~ (22000 == 0)%Q) by discriminate.
  pose proof (proj2 one_tick_can_exceed_ceiling 3%nat 1 nifty_config 5
                (mkTs (mkDate 2026 1 22) 0) four_done 22000%Q eq_refl ltac:(lia) Hp)
    as (_ & _ & Hc & Hex).
  split; [exact Hc | apply Hex; reflexivity].
Defined.

Section Clock.

Context {A : Type}.

Lemma set_price_time (sym : string) (price : Q) (d : Driver.State) :
  Driver.current_time (Driver.set_price sym price d) = Driver.current_time d.
Proof. unfold Driver.set_price. destruct (Driver.positions d !! sym); reflexivity. Qed.

Lemma download_instruments_time (d : Driver.State) :
  Driver.current_time (Driver.download_instruments d) = Driver.current_time d.
Proof.
  unfold Driver.download_instruments. destruct (Driver.get_option_chain d); reflexivity.
Qed.

(** The head of the loop body sets the simulated clock to the time of the
    row. *)
Lemma before_row_simple_time (a0 : A)
    (act : Engine.Tick -> A -> Driver.State -> A * Driver.State)
    (r : Engine.Row) (st : Engine.Loop (string * A)) :
  Driver.current_time (Engine.l_driver (Engine.before_row (simple_strategy a0 act) r st))
  = Some (Engine.row_time r).
Proof.
  unfold Engine.before_row, Engine.roll_contract.
  cbn [Engine.l_driver Engine.with_driver].
  rewrite download_instruments_time.
  destruct (Driver.get_option_chain _) as [chain|]; cbn;
    [destruct (CSV.CE chain) as [|first rest]; cbn;
     [|destruct (Engine.contract_prefix (CSV.synth_symbol first)) as [prefix|]; cbn;
       [destruct (String.eqb prefix _); cbn|]]|];
    reflexivity.
Qed.

End Clock.

(** ** The scheduler: whole runs of a simple strategy on a fresh engine *)

Section FreshRuns.

Context {A : Type}.

Variables (a0 : A) (act : Engine.Tick -> A -> Driver.State -> A * Driver.State).

(** The price the first row seeds the mark with in the loop: [Close], else
    [close]. *)
Definition day_price (r : Engine.Row) : option Q :=
  match Engine.col_Close r with
  | Some c => Some c
  | None => Engine.col_close r
  end.

(** A fresh engine with its provider loaded. *)
Definition fresh_engine (p : Driver.Provider) (cfg : Engine.Config) (capital : Q)
    (ceiling : Z) : Engine.State (string * A) :=
  Engine.load_csv_data p (Engine.init (simple_strategy a0 act) cfg capital ceiling).

(** What the first row leaves behind, and how the rest of the run follows
    from the loop over the remaining rows. *)
Lemma run_fresh_simple (p : Driver.Provider) (cfg : Engine.Config) (capital : Q)
    (ceiling : Z) (r0 : Engine.Row) (rows : list Engine.Row) (c0 : Q) :
  ~ (capital == 0)%Q ->
  day_price r0 = Some c0 ->
  exists st0,
    Driver.trades (Engine.l_driver st0) = []
    /\ Engine.l_counts st0 = ∅
    /\ snd (Engine.l_strategy st0) = a0
    /\ Driver.current_time (Engine.l_driver st0) = Some (Engine.row_time r0)
    /\ Driver.current_prices (Engine.l_driver st0) !! Engine.index_symbol cfg = Some c0
    /\ forall st',
         Engine.loop (simple_strategy a0 act) cfg ceiling rows false st0 = Engine.Ok st' ->
         exists e',
           Engine.run (r0 :: rows) (fresh_engine p cfg capital ceiling) = Engine.Ok e'
           /\ Engine.driver e' = Engine.l_driver st'
           /\ Engine.strategy e' = Some (Engine.l_strategy st')
           /\ Engine.daily_trade_count e' = Engine.l_counts st'.
Proof.
  intros Hcap Hseed.
  assert (Hfirst : exists c1,
             match Engine.col_close r0 with
             | Some c => Engine.Ok c
             | None => Engine.column "Close" (Engine.col_Close r0)
             end = Engine.Ok c1).
  { unfold day_price in Hseed.
    destruct (Engine.col_close r0) as [c|]; [exists c; reflexivity|].
    destruct (Engine.col_Close r0) as [c|]; [exists c; reflexivity | discriminate]. }
  destruct Hfirst as (c1 & Hc1).
  assert (Hday : match Engine.col_Close r0 with
                 | Some c => Engine.Ok c
                 | None => Engine.column "close" (Engine.col_close r0)
                 end = Engine.Ok c0).
  { unfold day_price in Hseed.
    destruct (Engine.col_Close r0) as [c|]; [congruence|].
    destruct (Engine.col_close r0) as [c|]; cbn; congruence. }
  unfold Engine.run, fresh_engine.
  cbn [Engine.load_csv_data Engine.init Engine.config Engine.driver Engine.csv_provider
       Engine.strategy_class Engine.max_trades_per_day Engine.daily_trade_count
       Engine.initial_capital Driver.instruments_df Driver.set_csv_provider Driver.init].
  rewrite Hc1. cbn [Engine.bind Engine.construct simple_strategy].
  cbn [Engine.loop]. rewrite Hday. cbn [Engine.bind].
  set (base := {| Engine.l_driver := _; Engine.l_strategy := (_, a0);
                  Engine.l_counts := ∅ |}).
  destruct (before_row_simple a0 act r0 base) as (Ht & Hc & Hs).
  pose proof (before_row_simple_time a0 act r0 base) as Htime.
  set (st1 := Engine.before_row (simple_strategy a0 act) r0 base) in *.
  exists (Engine.with_driver
            (Driver.set_price (Engine.index_symbol cfg) c0 (Engine.l_driver st1)) st1).
  cbn [Engine.with_driver Engine.l_driver Engine.l_counts Engine.l_strategy].
  split; [|split; [|split; [|split; [|split]]]].
  - rewrite (proj1 (set_price_logs _ _ _)), Ht. subst base. cbn [Engine.l_driver].
    rewrite (proj1 (download_instruments_ledger _)).
    rewrite (proj1 (set_price_logs _ _ _)). reflexivity.
  - rewrite Hc. reflexivity.
  - rewrite Hs. reflexivity.
  - rewrite set_price_time. exact Htime.
  - rewrite set_price_mark. apply lookup_insert_eq.
  - intros st' Hloop. rewrite Hloop. cbn [Engine.bind].
    unfold Engine.calculate_metrics. rewrite (Qeq_bool_false _ _ Hcap).
    cbn [Engine.bind]. eexists. split; [reflexivity|]. cbn. auto.
Qed.

End FreshRuns.

(** ** The scheduler: one order per tick under a daily ceiling *)

Section OneOrderPerTick.

Variables (cfg : Engine.Config) (ceiling : Z) (D : date).

(** The sub-tick prices of a row ([[]] when the row raises). *)
Definition ticks_of (r : Engine.Row) : list Q :=
  match Engine.row_prices r with
  | Engine.Ok ps => ps
  | Engine.Raise _ => []
  end.

(** A row of date [D] whose sub-tick prices are all nonzero. *)
Definition tradable_on (r : Engine.Row) : Prop :=
  ts_date (Engine.row_time r) = D
  /\ exists ps, Engine.row_prices r = Engine.Ok ps /\ Forall (fun x => ~ (x == 0)%Q) ps.

(** After [n] ticks of date [D]: trades, count of the date and calls of the
    strategy all stand at [min n ceiling]. *)
Definition served (n : Z) (st : Engine.Loop (string * Z)) : Prop :=
  Z.of_nat (length (Driver.trades (Engine.l_driver st))) = Z.min n ceiling
  /\ default 0 (Engine.l_counts st !! D) = Z.min n ceiling
  /\ snd (Engine.l_strategy st) = Z.min n ceiling.

Let one_order := buyer 1 (Engine.index_symbol cfg) 1.

Lemma served_tick (n : Z) (t : timestamp) (st : Engine.Loop (string * Z)) (price : Q) :
  0 <= n -> served n st -> ts_date t = D -> ~ (price == 0)%Q ->
  served (n + 1) (Engine.tick_step one_order cfg ceiling t st price).
Proof.
  intros Hn (Htr & Hcnt & Hcalls) Ht Hp. unfold served.
  destruct (Z.lt_ge_cases n ceiling) as [Hlt|Hge].
  - assert (Hbelow : trades_on t (Engine.l_counts st) < ceiling).
    { unfold trades_on. rewrite Ht, Hcnt. lia. }
    destruct (tick_step_buyer 1 1 cfg ceiling t st price Hbelow ltac:(lia) Hp)
      as (Hlen & Hc & Hs).
    fold one_order in Hlen, Hc, Hs. rewrite Hlen, Hc, Hs.
    unfold trades_on. rewrite Ht, lookup_insert_eq, Hcnt, Hcalls. cbn. lia.
  - assert (Habove : ceiling <= trades_on t (Engine.l_counts st)).
    { unfold trades_on. rewrite Ht, Hcnt. lia. }
    rewrite (tick_step_throttled one_order cfg ceiling t st price Habove).
    cbn. rewrite marks_refreshed_trades. lia.
Qed.

Lemma served_ticks (t : timestamp) (ps : list Q) :
  ts_date t = D -> Forall (fun x => ~ (x == 0)%Q) ps ->
  forall n st, 0 <= n -> served n st ->
    served (n + Z.of_nat (length ps))
           (fold_left (Engine.tick_step one_order cfg ceiling t) ps st).
Proof.
  intros Ht. induction 1 as [|price ps Hp _ IH]; intros n st Hn Hserved; cbn [fold_left].
  - cbn. rewrite Z.add_0_r. exact Hserved.
  - replace (n + Z.of_nat (length (price :: ps))) with ((n + 1) + Z.of_nat (length ps))
      by (cbn [length]; lia).
    apply IH; [lia|]. apply served_tick; assumption.
Qed.

Lemma served_before_row (n : Z) (r : Engine.Row) (st : Engine.Loop (string * Z)) :
  served n st -> served n (Engine.before_row one_order r st).
Proof.
  intros (Htr & Hcnt & Hcalls). unfold served, one_order, buyer.
  destruct (before_row_simple 0 (fun _ calls d =>
              (calls + 1, buy_times 1 (Engine.index_symbol cfg) 1 d)) r st)
    as (Ht & Hc & Hs).
  rewrite Ht, Hc, Hs. auto.
Qed.

(** The loop over rows of date [D]: it ends, with [min (n + ticks) ceiling]
    trades. *)
Lemma served_loop (rows : list Engine.Row) :
  Forall tradable_on rows ->
  forall n st, 0 <= n -> served n st ->
    exists st',
      Engine.loop one_order cfg ceiling rows false st = Engine.Ok st'
      /\ served (n + Z.of_nat (length (flat_map ticks_of rows))) st'.
Proof.
  induction 1 as [|r rows (Hdate & ps & Hps & Hnz) _ IH]; intros n st Hn Hserved.
  - exists st. cbn. rewrite Z.add_0_r. auto.
  - cbn [Engine.loop flat_map]. unfold Engine.row_ticks, ticks_of at 1.
    rewrite Hps. cbn [Engine.bind].
    destruct (IH (n + Z.of_nat (length ps))
                 (fold_left (Engine.tick_step one_order cfg ceiling (Engine.row_time r)) ps
                            (Engine.before_row one_order r st)))
      as (st' & Hloop & Hst').
    + lia.
    + apply served_ticks; auto. apply served_before_row, Hserved.
    + exists st'. split; [exact Hloop|].
      rewrite length_app, Nat2Z.inj_add, Z.add_assoc. exact Hst'.
Qed.

End OneOrderPerTick.

(** A provider without tables. *)
Definition no_tables : Driver.Provider :=
  {| Driver.prov_option_price := fun _ _ => 0%Q;
     Driver.prov_index_price := fun _ => None;
     Driver.prov_option_chain := fun _ => None |}.

(** C3.  A sub-tick reaches the callback only when the count on record for
    its date is below the ceiling: at or above it, strategy, trade log and
    counter are untouched.  Below it the callback runs and the counter of
    the date grows by the growth of the trade log.  With ceiling 5 and a
    strategy placing one order per tick, a run whose rows after the first
    are of one date and carry at least six sub-ticks ends with exactly five
    trades, a count of five for that date, and five calls of the callback. *)
Theorem daily_ceiling_throttles_delivery :
  (forall (S : Type) (sc : Engine.StrategyClass S) cfg ceiling t (st : Engine.Loop S) price,
      ceiling <= trades_on t (Engine.l_counts st) ->
      let st' := Engine.tick_step sc cfg ceiling t st price in
      Engine.l_strategy st' = Engine.l_strategy st
      /\ Engine.l_driver st' = marks_refreshed cfg price (Engine.l_driver st)
      /\ Driver.trades (Engine.l_driver st') = Driver.trades (Engine.l_driver st)
      /\ Engine.l_counts st' = Engine.l_counts st)
  /\ (forall (S : Type) (sc : Engine.StrategyClass S) cfg ceiling t (st : Engine.Loop S) price,
      trades_on t (Engine.l_counts st) < ceiling ->
      let st' := Engine.tick_step sc cfg ceiling t st price in
      let growth := Z.of_nat (length (Driver.trades (Engine.l_driver st')))
                    - Z.of_nat (length (Driver.trades (Engine.l_driver st))) in
      (Engine.l_strategy st', Engine.l_driver st')
      = Engine.on_ticks_update sc (Engine.mkTick price price t) (Engine.l_strategy st)
          (marks_refreshed cfg price (Engine.l_driver st))
      /\ (0 < growth ->
          Engine.l_counts st'
          = <[ts_date t := trades_on t (Engine.l_counts st) + growth]> (Engine.l_counts st))
      /\ (growth <= 0 -> Engine.l_counts st' = Engine.l_counts st))
  /\ (forall p cfg capital r0 rows D c0,
      ~ (capital == 0)%Q ->
      day_price r0 = Some c0 ->
      Forall (tradable_on D) rows ->
      (6 <= length (flat_map ticks_of rows))%nat ->
      exists e',
        Engine.run (r0 :: rows)
          (Engine.load_csv_data p
             (Engine.init (buyer 1 (Engine.index_symbol cfg) 1) cfg capital 5))
        = Engine.Ok e'
        /\ Engine.daily_trade_count e' !! D = Some 5
        /\ length (Driver.trades (Engine.driver e')) = 5%nat
        /\ snd <$> Engine.strategy e' = Some 5).
Proof.
  split; [|split].
  - intros S sc cfg ceiling t st price Hge st'. subst st'.
    rewrite (tick_step_throttled sc cfg ceiling t st price Hge). cbn.
    rewrite marks_refreshed_trades. auto.
  - intros S sc cfg ceiling t st price Hlt st' growth. subst st' growth.
    rewrite (tick_step_delivered sc cfg ceiling t st price Hlt).
    cbn [Engine.l_strategy Engine.l_driver Engine.l_counts].
    rewrite marks_refreshed_trades.
    split; [symmetry; apply surjective_pairing|]. split.
    + intros Hg. rewrite (proj2 (Z.ltb_lt _ _)) by lia. reflexivity.
    + intros Hg. rewrite (proj2 (Z.ltb_ge _ _)) by lia. reflexivity.
  - intros p cfg capital r0 rows D c0 Hcap Hseed Hrows Hsix.
    destruct (run_fresh_simple 0
                (fun _ calls d => (calls + 1, buy_times 1 (Engine.index_symbol cfg) 1 d))
                p cfg capital 5 r0 rows c0 Hcap Hseed)
      as (st0 & Htr & Hc & Hs & _ & _ & Hrun).
    assert (H0 : served 5 D 0 st0).
    { unfold served. rewrite Htr, Hc, Hs, lookup_empty. cbn. auto. }
    destruct (served_loop cfg 5 D rows Hrows 0 st0 ltac:(lia) H0)
      as (st' & Hloop & Htr' & Hc' & Hs').
    destruct (Hrun st' Hloop) as (e' & He' & Hd & Hst & Hcnt).
    exists e'. split; [exact He'|].
    rewrite Hd, Hst, Hcnt. cbn [fmap option_fmap option_map].
    rewrite Hs'. repeat split.
    + destruct (Engine.l_counts st' !! D) as [x|]; cbn in Hc'; [f_equal|]; lia.
    + lia.
    + f_equal. lia.
Qed.

Definition daily_bar (d : date) (o h l c : Q) : Engine.Row :=
  {| Engine.name := mkTs d 0; Engine.col_timestamp := None;
     Engine.col_Open := Some o; Engine.col_High := Some h;
     Engine.col_Low := Some l; Engine.col_Close := Some c;
     Engine.col_close := None |}.

(** One bar of 21 January and two bars of 22 January 2026: eight sub-ticks
    on the 22nd. *)
Definition two_bars_one_day : list Engine.Row :=
  [daily_bar (mkDate 2026 1 22) 20010 20050 19990 20005;
   daily_bar (mkDate 2026 1 22) 20005 20040 20000 20030].

Lemma daily_ceiling_throttles_delivery_witness :
  exists e',
    Engine.run (daily_bar (mkDate 2026 1 21) 19900 20010 19890 20000 :: two_bars_one_day)
      (Engine.load_csv_data no_tables
         (Engine.init (buyer 1 "NIFTY" 1) nifty_config 100000 5))
    = Engine.Ok e'
    /\ Engine.daily_trade_count e' !! mkDate 2026 1 22 = Some 5
    /\ length (Driver.trades (Engine.driver e')) = 5%nat
    /\ snd <$> Engine.strategy e' = Some 5.
Proof.
  assert (Hcap : ~ (100000 == 0)%Q) by discriminate.
  refine (proj2 (proj2 daily_ceiling_throttles_delivery) no_tables nifty_config 100000%Q
            (daily_bar (mkDate 2026 1 21) 19900 20010 19890 20000) two_bars_one_day
            (mkDate 2026 1 22) 20000%Q Hcap eq_refl _ _).
  - repeat constructor; eexists; (split; [reflexivity|]); repeat constructor; discriminate.
  - cbn. lia.
Defined.

(** ** The scheduler: the first row and the order of the sub-ticks *)

Section SubTicks.

Variables (cfg : Engine.Config) (ceiling : Z).

Hypothesis ceiling_pos : 0 < ceiling.

(** The ticks a row is to yield: Open, High, Low, Close when all four are
    there, else the single close. *)
Definition sub_ticks (r : Engine.Row) : list Engine.Tick :=
  let at_row x := Engine.mkTick x x (Engine.row_time r) in
  match Engine.col_Open r, Engine.col_High r, Engine.col_Low r, Engine.col_Close r with
  | Some o, Some h, Some l, Some c => [at_row o; at_row h; at_row l; at_row c]
  | _, _, _, _ =>
      match Engine.col_close r with
      | Some c => [at_row c]
      | None => []
      end
  end.

(** A row with all of Open, High, Low, Close, or with no Open and a close. *)
Definition ohlc_or_close (r : Engine.Row) : Prop :=
  (is_Some (Engine.col_Open r) /\ is_Some (Engine.col_High r)
   /\ is_Some (Engine.col_Low r) /\ is_Some (Engine.col_Close r))
  \/ (Engine.col_Open r = None /\ is_Some (Engine.col_close r)).

Lemma row_prices_sub_ticks (r : Engine.Row) :
  ohlc_or_close r ->
  exists ps,
    Engine.row_prices r = Engine.Ok ps
    /\ map (fun x => Engine.mkTick x x (Engine.row_time r)) ps = sub_ticks r.
Proof.
  unfold ohlc_or_close, Engine.row_prices, sub_ticks.
  intros [([o ->] & [h ->] & [l ->] & [c ->])|(-> & [c ->])]; cbn; eauto.
Qed.

(** No trade so far, no count so far, [seen] delivered so far. *)
Definition watching (seen : list Engine.Tick) (st : Engine.Loop (string * list Engine.Tick)) : Prop :=
  Driver.trades (Engine.l_driver st) = []
  /\ Engine.l_counts st = ∅
  /\ snd (Engine.l_strategy st) = seen.

Lemma watching_tick (seen : list Engine.Tick) (t : timestamp)
    (st : Engine.Loop (string * list Engine.Tick)) (price : Q) :
  watching seen st ->
  watching (seen ++ [Engine.mkTick price price t])
           (Engine.tick_step recorder cfg ceiling t st price).
Proof.
  intros (Htr & Hc & Hs).
  assert (Hbelow : trades_on t (Engine.l_counts st) < ceiling).
  { unfold trades_on. rewrite Hc, lookup_empty. exact ceiling_pos. }
  rewrite (tick_step_delivered recorder cfg ceiling t st price Hbelow).
  unfold watching. cbn. rewrite marks_refreshed_trades, Z.ltb_irrefl, Htr, Hc, Hs. auto.
Qed.

Lemma watching_ticks (t : timestamp) (ps : list Q) :
  forall seen st,
    watching seen st ->
    watching (seen ++ map (fun x => Engine.mkTick x x t) ps)
             (fold_left (Engine.tick_step recorder cfg ceiling t) ps st).
Proof.
  induction ps as [|price ps IH]; intros seen st Hw; cbn [fold_left map].
  - rewrite app_nil_r. exact Hw.
  - rewrite (cons_middle _ seen), app_assoc.
    apply IH, watching_tick, Hw.
Qed.

Lemma watching_before_row (seen : list Engine.Tick) (r : Engine.Row)
    (st : Engine.Loop (string * list Engine.Tick)) :
  watching seen st -> watching seen (Engine.before_row recorder r st).
Proof.
  intros (Htr & Hc & Hs). unfold watching, recorder.
  destruct (before_row_simple [] (fun tick seen d => (seen ++ [tick], d)) r st)
    as (Ht' & Hc' & Hs').
  rewrite Ht', Hc', Hs'. auto.
Qed.

(** The loop delivers the sub-ticks of the rows, row by row, in order. *)
Lemma watching_loop (rows : list Engine.Row) :
  Forall ohlc_or_close rows ->
  forall seen st,
    watching seen st ->
    exists st',
      Engine.loop recorder cfg ceiling rows false st = Engine.Ok st'
      /\ watching (seen ++ flat_map sub_ticks rows) st'.
Proof.
  induction 1 as [|r rows Hr _ IH]; intros seen st Hw.
  - exists st. cbn. rewrite app_nil_r. auto.
  - destruct (row_prices_sub_ticks r Hr) as (ps & Hps & Hticks).
    cbn [Engine.loop flat_map]. unfold Engine.row_ticks. rewrite Hps. cbn [Engine.bind].
    destruct (IH (seen ++ sub_ticks r)
                 (fold_left (Engine.tick_step recorder cfg ceiling (Engine.row_time r)) ps
                            (Engine.before_row recorder r st)))
      as (st' & Hloop & Hw').
    + rewrite <- Hticks. apply watching_ticks, watching_before_row, Hw.
    + exists st'. split; [exact Hloop|]. rewrite app_assoc. exact Hw'.
Qed.

End SubTicks.

Section FirstRow.

Context {S : Type}.

(** The strategy class [sc] with its tick callback replaced by [f]. *)
Definition with_callback (f : Engine.Tick -> S -> Driver.State -> S * Driver.State)
    (sc : Engine.StrategyClass S) : Engine.StrategyClass S :=
  {| Engine.construct := Engine.construct sc;
     Engine.get_symbol_initials := Engine.get_symbol_initials sc;
     Engine.set_symbol_initials := Engine.set_symbol_initials sc;
     Engine.refresh_instruments := Engine.refresh_instruments sc;
     Engine.on_ticks_update := f |}.

(** The engine [e] run with the class [sc] instead of its own. *)
Definition with_class (sc : Engine.StrategyClass S) (e : Engine.State S) : Engine.State S :=
  {| Engine.strategy_class := sc; Engine.config := Engine.config e;
     Engine.initial_capital := Engine.initial_capital e;
     Engine.max_trades_per_day := Engine.max_trades_per_day e;
     Engine.driver := Engine.driver e; Engine.csv_provider := Engine.csv_provider e;
     Engine.strategy := Engine.strategy e;
     Engine.daily_trade_count := Engine.daily_trade_count e;
     Engine.results := Engine.results e |}.

(** A run over one row is the same whatever the tick callback is: the
    callback is not invoked for the first row. *)
Lemma first_row_ignores_callback (f : Engine.Tick -> S -> Driver.State -> S * Driver.State)
    (e : Engine.State S) (r0 : Engine.Row) :
  Engine.run [r0] (with_class (with_callback f (Engine.strategy_class e)) e)
  = Engine.bind (Engine.run [r0] e)
      (fun e' => Engine.Ok (with_class (with_callback f (Engine.strategy_class e)) e')).
Proof.
  unfold Engine.run.
  cbn [with_class with_callback Engine.config Engine.driver Engine.csv_provider
       Engine.strategy_class Engine.max_trades_per_day Engine.daily_trade_count
       Engine.initial_capital Engine.construct].
  destruct (match Engine.col_close r0 with
            | Some c => Engine.Ok c
            | None => Engine.column "Close" (Engine.col_Close r0)
            end) as [c1|x]; cbn [Engine.bind]; [|reflexivity].
  destruct (Engine.csv_provider e) as [p|]; [|reflexivity].
  destruct (Engine.construct (Engine.strategy_class e) _ _) as [s0 d3].
  cbn [Engine.loop].
  change (Engine.before_row (with_callback f (Engine.strategy_class e)))
    with (Engine.before_row (Engine.strategy_class e)).
  destruct (match Engine.col_Close r0 with
            | Some c => Engine.Ok c
            | None => Engine.column "close" (Engine.col_close r0)
            end) as [c0|x]; cbn [Engine.bind]; [|reflexivity].
  destruct (Engine.calculate_metrics _ _) as [res|x]; reflexivity.
Qed.

End FirstRow.

(** C8.  On a fresh engine with a positive ceiling and a strategy that only
    records its ticks, a run over a first row and further rows, each with all
    of Open, High, Low, Close or with a close alone, ends; the callback got
    no tick for the first row and, for each later row in turn, its Open,
    High, Low, Close in that order (its close when there is no OHLC); no
    trade is recorded.  When the stream is the first row alone, the run
    leaves the clock at the time of that row and the index marked at its
    close.  For any strategy, a run over the first row alone does not depend
    on the tick callback, and a later row with Open, High, Low, Close is
    worked off as four sub-ticks at these prices, in this order. *)
Theorem first_row_seeds_then_ohlc_ticks (p : Driver.Provider) (cfg : Engine.Config)
    (capital : Q) (ceiling : Z) (r0 : Engine.Row) (rows : list Engine.Row) (c0 : Q) :
  ~ (capital == 0)%Q ->
  0 < ceiling ->
  day_price r0 = Some c0 ->
  Forall ohlc_or_close rows ->
  (exists e',
      Engine.run (r0 :: rows)
        (Engine.load_csv_data p (Engine.init recorder cfg capital ceiling)) = Engine.Ok e'
      /\ snd <$> Engine.strategy e' = Some (flat_map sub_ticks rows)
      /\ Driver.trades (Engine.driver e') = []
      /\ Engine.daily_trade_count e' = ∅)
  /\ (exists e0,
      Engine.run [r0]
        (Engine.load_csv_data p (Engine.init recorder cfg capital ceiling)) = Engine.Ok e0
      /\ snd <$> Engine.strategy e0 = Some []
      /\ Driver.trades (Engine.driver e0) = []
      /\ Driver.current_time (Engine.driver e0) = Some (Engine.row_time r0)
      /\ Driver.current_prices (Engine.driver e0) !! Engine.index_symbol cfg = Some c0)
  /\ (forall r o h l c,
      Engine.col_Open r = Some o -> Engine.col_High r = Some h ->
      Engine.col_Low r = Some l -> Engine.col_Close r = Some c ->
      Engine.row_prices r = Engine.Ok [o; h; l; c]
      /\ sub_ticks r = map (fun x => Engine.mkTick x x (Engine.row_time r)) [o; h; l; c])
  /\ (forall r c,
      Engine.col_Open r = None -> Engine.col_close r = Some c ->
      Engine.row_prices r = Engine.Ok [c]
      /\ sub_ticks r = [Engine.mkTick c c (Engine.row_time r)])
  /\ (forall (S : Type) (e : Engine.State S) f r,
      Engine.run [r] (with_class (with_callback f (Engine.strategy_class e)) e)
      = Engine.bind (Engine.run [r] e)
          (fun e' => Engine.Ok (with_class (with_callback f (Engine.strategy_class e)) e')))
  /\ (forall (S : Type) (sc : Engine.StrategyClass S) cfg' ceiling' r st o h l c,
      Engine.col_Open r = Some o -> Engine.col_High r = Some h ->
      Engine.col_Low r = Some l -> Engine.col_Close r = Some c ->
      let sub_tick := Engine.tick_step sc cfg' ceiling' (Engine.row_time r) in
      Engine.row_ticks sc cfg' ceiling' r st
      = Engine.Ok (sub_tick (sub_tick (sub_tick (sub_tick st o) h) l) c)).
Proof.
  intros Hcap Hceil Hseed Hrows.
  split; [|split; [|split; [|split; [|split]]]].
  - destruct (run_fresh_simple [] (fun tick seen d => (seen ++ [tick], d))
                p cfg capital ceiling r0 rows c0 Hcap Hseed)
      as (st0 & Htr & Hc & Hs & _ & _ & Hrun).
    destruct (watching_loop cfg ceiling Hceil rows Hrows [] st0 (conj Htr (conj Hc Hs)))
      as (st' & Hloop & Htr' & Hc' & Hs').
    destruct (Hrun st' Hloop) as (e' & He' & Hd & Hst & Hcnt).
    exists e'. split; [exact He'|]. rewrite Hd, Hst, Hcnt. cbn. rewrite Hs'. auto.
  - destruct (run_fresh_simple [] (fun tick seen d => (seen ++ [tick], d))
                p cfg capital ceiling r0 [] c0 Hcap Hseed)
      as (st0 & Htr & Hc & Hs & Htime & Hmark & Hrun).
    destruct (Hrun st0 eq_refl) as (e0 & He0 & Hd & Hst & _).
    exists e0. split; [exact He0|]. rewrite Hd, Hst. cbn. rewrite Hs. auto.
  - intros r o h l c Ho Hh Hl Hc. unfold Engine.row_prices, sub_ticks.
    rewrite Ho, Hh, Hl, Hc. cbn. auto.
  - intros r c Ho Hc. unfold Engine.row_prices, sub_ticks.
    rewrite Ho, Hc. cbn. auto.
  - intros S e f r. apply first_row_ignores_callback.
  - intros S sc cfg' ceiling' r st o h l c Ho Hh Hl Hc sub_tick.
    unfold Engine.row_ticks, Engine.row_prices. rewrite Ho, Hh, Hl, Hc. reflexivity.
Qed.

(** Capital 100000; a first day closing at 20000, then a day with OHLC
    (20010, 20050, 19990, 20005). *)
Lemma first_row_seeds_then_ohlc_ticks_witness :
  exists e',
    Engine.run [daily_bar (mkDate 2026 1 21) 19900 20010 19890 20000;
                daily_bar (mkDate 2026 1 22) 20010 20050 19990 20005]
      (Engine.load_csv_data no_tables (Engine.init recorder nifty_config 100000 5))
    = Engine.Ok e'
    /\ snd <$> Engine.strategy e'
       = Some (map (fun x => Engine.mkTick x x (mkTs (mkDate 2026 1 22) 0))
                   [20010; 20050; 19990; 20005]%Q)
    /\ Driver.trades (Engine.driver e') = []
    /\ Engine.daily_trade_count e' = ∅.
Proof.
  assert (Hcap : ~ (100000 == 0)%Q) by discriminate.
  refine (proj1 (first_row_seeds_then_ohlc_ticks no_tables nifty_config 100000%Q 5
                   (daily_bar (mkDate 2026 1 21) 19900 20010 19890 20000)
                   [daily_bar (mkDate 2026 1 22) 20010 20050 19990 20005]
                   20000%Q Hcap eq_refl eq_refl _)).
  repeat constructor; cbn; eauto.
Defined.

(** An engine on which [load_csv_data] was never called has no
    [csv_provider] attribute: [run] raises on its first test of it, after
    seeding the clock and the mark from the first row. *)
Example run_without_provider_raises :
  Engine.run [daily_bar (mkDate 2026 1 21) 19900 20010 19890 20000;
              daily_bar (mkDate 2026 1 22) 20010 20050 19990 20005]
    (Engine.init recorder nifty_config 100000 5)
  = Engine.Raise (Engine.AttributeError "csv_provider").
Proof. reflexivity. Qed.

(** * Further properties of the code *)

From Stdlib Require Import Sorted.

(** * Further properties of the driver *)

(** ** Marks and valuation *)

Section Valuation.

Import Driver.




End Valuation.

(** ** Equity and margin under fills *)

Section Equity.

Import Driver.









End Equity.



Section EquityUnderFills.

Import Driver.



(** An answer "ok" means the request went through [_execute_trade], at the
    quoted price. *)
Lemma place_order_filled (request : OrderRequest) (d : State) :
  status (snd (place_order request d)) = "ok"%string ->
  place_order request d
  = (_execute_trade (entry_of request d)
                    (with_orders (orders d ++ [entry_of request d]) d),
     {| status := "ok"; order_id := Some (o_order_id (entry_of request d));
        message := None; raw := Some (entry_of request d) |}).
Proof.
  unfold place_order.
  destruct (Qeq_bool _ 0); [discriminate|].
  destruct (_ && _); [discriminate|]. reflexivity.
Qed.

(** Any other answer leaves the driver as it was. *)
Lemma place_order_refused (request : OrderRequest) (d : State) :
  status (snd (place_order request d)) <> "ok"%string ->
  fst (place_order request d) = d.
Proof.
  unfold place_order.
  destruct (Qeq_bool _ 0); [reflexivity|].
  destruct (_ && _); [reflexivity|]. cbn. congruence.
Qed.




End EquityUnderFills.

Section ShortMargin.

Import Driver.












End ShortMargin.

(** ** The order and trade logs *)

(** A call made on the driver over its lifetime. *)
Inductive driver_call :=
| SetPrice (symbol : string) (price : Q)
| SetCurrentTime (dt : timestamp)
| SetCsvProvider (p : Driver.Provider)
| SetInstruments (df : list Driver.Instrument)
| PlaceOrder (request : Driver.OrderRequest)
| CancelOrder (oid : string)
| ModifyOrder (oid : string)
| DownloadInstruments.

Definition driver_step (d : Driver.State) (k : driver_call) : Driver.State :=
  match k with
  | SetPrice s p => Driver.set_price s p d
  | SetCurrentTime t => Driver.set_current_time t d
  | SetCsvProvider p => Driver.set_csv_provider p d
  | SetInstruments df => Driver.set_instruments df d
  | PlaceOrder r => fst (Driver.place_order r d)
  | CancelOrder oid => fst (Driver.cancel_order oid d)
  | ModifyOrder oid => fst (Driver.modify_order oid d)
  | DownloadInstruments => Driver.download_instruments d
  end.

Definition drive (ks : list driver_call) (d : Driver.State) : Driver.State :=
  fold_left driver_step ks d.

Section Logs.

Import Driver.

(** Both logs hold the same orders, numbered BT1, BT2, ... in order. *)
Definition logs_in_step (d : State) : Prop :=
  orders d = trades d
  /\ forall i o, orders d !! i = Some o ->
       o_order_id o = "BT" +:+ pretty (Z.of_nat i + 1) /\ o_status o = "COMPLETE"%string.

Lemma execute_trade_logs (o : Order) (d : State) :
  trades (_execute_trade o d) = trades d ++ [o]
  /\ orders (_execute_trade o d) = orders d.
Proof.
  unfold _execute_trade.
  destruct (o_transaction_type o); cbn;
    destruct (positions d !! o_symbol o) as [pos|]; cbn;
    try match goal with |- context [Z.eqb ?a ?b] => destruct (Z.eqb a b) end;
    auto.
Qed.

Lemma place_order_logs (request : OrderRequest) (d : State) :
  (status (snd (place_order request d)) = "ok"%string
   /\ orders (fst (place_order request d)) = orders d ++ [entry_of request d]
   /\ trades (fst (place_order request d)) = trades d ++ [entry_of request d])
  \/ (status (snd (place_order request d)) = "error"%string
      /\ fst (place_order request d) = d).
Proof.
  unfold place_order.
  destruct (Qeq_bool _ 0); [right; auto|].
  destruct (_ && _); [right; auto|].
  left. cbn [fst snd status].
  destruct (execute_trade_logs (entry_of request d)
              (with_orders (orders d ++ [entry_of request d]) d)) as (Ht & Ho).
  fold (entry_of request d). rewrite Ht, Ho. auto.
Qed.

Lemma driver_step_logs (d : State) (k : driver_call) :
  logs_in_step d -> logs_in_step (driver_step d k).
Proof.
  intros (Heq & Hids).
  destruct k as [s p|t|p|df|r|oid|oid|]; cbn [driver_step].
  - destruct (set_price_logs s p d) as (Ht & Ho & _).
    unfold logs_in_step. rewrite Ht, Ho. auto.
  - split; assumption.
  - split; assumption.
  - split; assumption.
  - destruct (place_order_logs r d) as [(_ & Ho & Ht)|(_ & ->)]; [|split; assumption].
    unfold logs_in_step. rewrite Ho, Ht, Heq. split; [reflexivity|].
    intros i o Hi. rewrite <- Heq in Hi.
    apply lookup_app_Some in Hi. destruct Hi as [Hi|(Hlen & Hi)].
    + apply Hids, Hi.
    + destruct (i - length (orders d))%nat as [|n] eqn:Hn; [|destruct n; discriminate].
      injection Hi as <-. cbn.
      replace i with (length (orders d)) by lia. auto.
  - split; assumption.
  - split; assumption.
  - unfold logs_in_step, download_instruments.
    destruct (get_option_chain d); cbn; auto.
Qed.

(** X4.  Whatever is called on a driver, from its creation on: the order log and
    the trade log are the same list, its [i]-th entry (from 0) has the
    identifier BT(i+1) and the status COMPLETE; a rejected order appears in
    neither log. *)
Theorem logs_stay_in_step (capital : Q) (ks : list driver_call) :
  orders (drive ks (init capital)) = trades (drive ks (init capital))
  /\ (forall i o, orders (drive ks (init capital)) !! i = Some o ->
        o_order_id o = "BT" +:+ pretty (Z.of_nat i + 1)
        /\ o_status o = "COMPLETE"%string)
  /\ (forall request,
        status (snd (place_order request (drive ks (init capital)))) <> "ok"%string ->
        fst (place_order request (drive ks (init capital))) = drive ks (init capital)).
Proof.
  assert (Hinv : forall ks d, logs_in_step d -> logs_in_step (drive ks d)).
  { clear ks. unfold drive. induction ks as [|k ks IH]; intros d Hd; cbn [fold_left].
    - exact Hd.
    - apply IH, driver_step_logs, Hd. }
  destruct (Hinv ks (init capital)) as (Heq & Hids).
  { split; [reflexivity|]. intros i o Hi. cbn in Hi. rewrite lookup_nil in Hi. discriminate. }
  split; [exact Heq|]. split; [exact Hids|].
  intros request. apply place_order_refused.
Qed.

(** ** Price resolution *)

(** X5.  The price of an order.  A nonzero mark of the symbol is the price quoted
    and the price every accepted order on it is filled at, whatever the
    provider holds.  With no nonzero mark, a symbol that does not contain NIFTY
    (also any symbol while no provider or no simulated time is set) has no
    price: every order on it is refused with the no-price error and changes
    nothing. *)
Theorem orders_fill_at_the_mark (d : State) (symbol : string) :
  (forall price, current_prices d !! symbol = Some price -> ~ (price == 0)%Q ->
     last_price (get_quote d symbol) = price
     /\ forall request, r_symbol request = symbol ->
          status (snd (place_order request d)) = "ok"%string ->
          o_price <$> raw (snd (place_order request d)) = Some price)
  /\ ((default 0 (current_prices d !! symbol) == 0)%Q ->
      contains "NIFTY" symbol = false \/ csv_provider d = None \/ current_time d = None ->
      (last_price (get_quote d symbol) == 0)%Q
      /\ forall request, r_symbol request = symbol ->
           place_order request d = (d, error_response ("No price for " +:+ symbol))).
Proof.
  split.
  - intros price Hm Hp.
    pose proof (get_quote_marked d symbol price Hm Hp) as Hq.
    split; [exact Hq|]. intros request <- Hok.
    rewrite (place_order_filled request d Hok).
    change (Some (last_price (get_quote d (r_symbol request))) = Some price).
    rewrite Hq. reflexivity.
  - intros Hz Hnone.
    assert (Hq : (last_price (get_quote d symbol) == 0)%Q).
    { unfold get_quote. cbn. apply Qeq_bool_iff in Hz.
      destruct (csv_provider d) as [prov|], (current_time d) as [now|];
        cbn; rewrite ?Hz; try (apply Qeq_bool_iff; exact Hz).
      destruct Hnone as [Hn|[Hn|Hn]]; try discriminate.
      rewrite Hn. cbn. apply Qeq_bool_iff; exact Hz. }
    split; [exact Hq|]. intros request <-.
    apply place_order_no_price, Hq.
Qed.

End Logs.

(** A driver with a provider without tables and a simulated time. *)
Definition timed_book : Driver.State :=
  Driver.set_current_time (mkTs (mkDate 2026 1 22) 0)
    (Driver.set_csv_provider no_tables (Driver.init 100000)).

Lemma orders_fill_at_the_mark_witness :
  Driver.o_price <$> Driver.raw (snd (Driver.place_order (market Driver.BUY "NIFTY" 50)
                                        (Driver.set_price "NIFTY" 22000 timed_book)))
  = Some 22000%Q
  /\ Driver.place_order (market Driver.BUY "RELIANCE" 10) timed_book
     = (timed_book, Driver.error_response "No price for RELIANCE").
Proof.
  assert (Hp : ~ (22000 == 0)%Q) by discriminate.
  split.
  - apply (proj1 (orders_fill_at_the_mark (Driver.set_price "NIFTY" 22000 timed_book) "NIFTY")
             22000%Q eq_refl Hp); reflexivity.
  - apply (proj2 (orders_fill_at_the_mark timed_book "RELIANCE") (Qeq_refl 0)
             (or_introl eq_refl)); reflexivity.
Defined.

(** ** The ledger: a round trip *)

Section RoundTrip.

Import Driver.





End RoundTrip.

(** * Further properties of the data provider *)

Section IndexPrice.

Import CSV.

Lemma last_some {A} (l : list A) :
  match List.last (map Some l) None with
  | Some x => exists l', l = l' ++ [x]
  | None => l = []
  end.
Proof.
  induction l as [|a l IH]; [reflexivity|].
  change (map Some (a :: l)) with (Some a :: map Some l).
  destruct l as [|b l].
  - exists []. reflexivity.
  - change (List.last (Some a :: map Some (b :: l)) None)
      with (List.last (map Some (b :: l)) None).
    destruct (List.last (map Some (b :: l)) None) as [x|].
    + destruct IH as (l' & ->). exists (a :: l'). reflexivity.
    + discriminate.
Qed.

(** Rows in ascending order of date, as [sort_index] leaves them. *)
Definition by_date (rows : list IndexRow) : Prop :=
  StronglySorted (fun a b => date_leb (iDate a) (iDate b) = true) rows.

Lemma by_date_filter (f : IndexRow -> bool) (rows : list IndexRow) :
  by_date rows -> by_date (List.filter f rows).
Proof.
  unfold by_date. induction 1 as [|a l Hs IH Hall]; cbn; [constructor|].
  destruct (f a); [|exact IH].
  constructor; [exact IH|].
  rewrite List.Forall_forall in *. intros x Hx. apply Hall.
  apply filter_In in Hx. tauto.
Qed.

Lemma by_date_last (l : list IndexRow) (x : IndexRow) :
  by_date (l ++ [x]) -> forall y, In y (l ++ [x]) -> date_leb (iDate y) (iDate x) = true.
Proof.
  unfold by_date. induction l as [|a l IH]; cbn; intros Hs y Hy.
  - destruct Hy as [<-|[]]. apply date_leb_refl.
  - apply StronglySorted_inv in Hs. destruct Hs as (Hs & Hall).
    destruct Hy as [<-|Hy]; [|apply IH; assumption].
    rewrite List.Forall_forall in Hall. apply Hall.
    apply in_or_app. right. left. reflexivity.
Qed.

(** X7.  [get_index_price] never looks ahead.  With a table, it answers none
    exactly when no row is dated at or before the day asked for; a price it
    answers is the Close of a row dated at or before that day, of a row of
    that very day when there is one, and, the table being in date order, of
    a row no other row at or before that day is dated after. *)
Theorem index_price_is_not_later (p : CSVDataProvider) (rows : list IndexRow)
    (ts : timestamp) :
  index_data p = Some rows ->
  (get_index_price p ts = None
   <-> forall r, In r rows -> date_leb (iDate r) (ts_date ts) = false)
  /\ (forall c, get_index_price p ts = Some c ->
      exists r,
        In r rows /\ iClose r = c
        /\ date_leb (iDate r) (ts_date ts) = true
        /\ ((exists r', In r' rows /\ iDate r' = ts_date ts) -> iDate r = ts_date ts)
        /\ (by_date rows ->
            forall r', In r' rows -> date_leb (iDate r') (ts_date ts) = true ->
                       date_leb (iDate r') (iDate r) = true)).
Proof.
  intros Hrows. unfold get_index_price. rewrite Hrows.
  set (d := ts_date ts).
  destruct (List.find (fun r => date_eqb (iDate r) d) rows) as [r|] eqn:Hfind.
  - apply find_some in Hfind. destruct Hfind as (Hin & Heq). apply date_eqb_eq in Heq.
    split.
    + split; [discriminate|]. intros Hall. specialize (Hall r Hin).
      rewrite Heq, date_leb_refl in Hall. discriminate.
    + intros c [= <-]. exists r. split; [exact Hin|]. split; [reflexivity|].
      split; [rewrite Heq; apply date_leb_refl|]. split; [intros _; exact Heq|].
      intros _ r' _ Hle. rewrite Heq. exact Hle.
  - pose proof (last_some (List.filter (fun r => date_leb (iDate r) d) rows)) as Hlast.
    destruct (List.last (map Some (List.filter (fun r => date_leb (iDate r) d) rows)) None)
      as [r|].
    + destruct Hlast as (l' & Hl').
      assert (Hr : In r (List.filter (fun r => date_leb (iDate r) d) rows)).
      { rewrite Hl'. apply in_or_app. right. left. reflexivity. }
      apply filter_In in Hr. destruct Hr as (Hin & Hle).
      split.
      * split; [discriminate|]. intros Hall. specialize (Hall r Hin). congruence.
      * intros c [= <-]. exists r. split; [exact Hin|]. split; [reflexivity|].
        split; [exact Hle|]. split.
        -- intros (r' & Hin' & Hd'). exfalso.
           pose proof (find_none _ _ Hfind r' Hin') as Hno. cbn in Hno.
           rewrite Hd' in Hno. unfold date_eqb in Hno.
           rewrite bool_decide_eq_true_2 in Hno by reflexivity. discriminate.
        -- intros Hsorted r' Hin' Hle'.
           apply (by_date_last l' r).
           ++ rewrite <- Hl'. apply by_date_filter, Hsorted.
           ++ rewrite <- Hl'. apply filter_In. split; assumption.
    + split.
      * split; [|reflexivity]. intros _. apply (proj1 (filter_nil_iff _ _) Hlast).
      * intros c; discriminate.
Qed.

Definition index_table : CSVDataProvider :=
  {| index_data := Some [mkIndexRow (mkDate 2026 1 20) 19950 20020 19900 20000;
                         mkIndexRow (mkDate 2026 1 22) 20010 20050 19990 20005];
     ce_data := None; pe_data := None |}.

(** A day without a bar takes the Close of the bar before it; a day before
    the first bar has no price. *)
Lemma index_price_is_not_later_witness :
  get_index_price index_table (mkTs (mkDate 2026 1 21) 0) = Some 20000%Q
  /\ (get_index_price index_table (mkTs (mkDate 2026 1 19) 0) = None).
Proof.
  split; [reflexivity|].
  apply (proj1 (index_price_is_not_later index_table _ (mkTs (mkDate 2026 1 19) 0) eq_refl)).
  intros r [<-|[<-|[]]]; reflexivity.
Defined.

End IndexPrice.

Section ChainSnapshot.

Import CSV.

Lemma day_subsets_dated (ce pe : list OptRow) (d : date) (cs ps : list OptRow) :
  day_subsets ce pe d = Some (cs, ps) ->
  exists d',
    date_leb d' d = true
    /\ cs = List.filter (on_date d') ce
    /\ ps = List.filter (on_date d') pe.
Proof.
  unfold day_subsets.
  destruct (is_empty (List.filter (on_date d) ce) && is_empty (List.filter (on_date d) pe)).
  - destruct (max_date (map Date (List.filter (upto_date d) ce))) as [last|] eqn:Hmax;
      [|discriminate].
    intros [= <- <-]. exists last. split; [|split; reflexivity].
    destruct (max_date_spec _ _ Hmax) as (Hin & _).
    apply in_map_iff in Hin. destruct Hin as (r & <- & Hr).
    apply filter_In in Hr. apply Hr.
  - intros [= <- <-]. exists d. split; [apply date_leb_refl | split; reflexivity].
Qed.

Lemma filter_no_expiry (l : list OptRow) : List.filter (has_expiry None) l = [].
Proof. induction l as [|x l IH]; [reflexivity | exact IH]. Qed.

(** X8.  A snapshot never looks ahead: all its rows, calls and puts, are rows of
    the tables of one date at or before the day asked for, the date the
    snapshot names, all of the expiry the snapshot names, each with the
    symbol synthesized from its own columns; it has both call and put rows.
    When the day asked for has put rows and no call row, the call raises
    [ValueError]. *)
Theorem chain_is_not_later (p : CSVDataProvider) (ce pe : list OptRow)
    (ts : timestamp) :
  ce_data p = Some ce ->
  pe_data p = Some pe ->
  (forall snap,
      get_option_chain p ts = Returns (Some snap) ->
      exists d' near,
        date_leb d' (ts_date ts) = true
        /\ snap_date snap = d'
        /\ expiry snap = Some near
        /\ (forall r, In r (CE snap) -> In (cr_row r) ce)
        /\ (forall r, In r (PE snap) -> In (cr_row r) pe)
        /\ (forall r, In r (CE snap ++ PE snap) ->
              Date (cr_row r) = d'
              /\ Expiry (cr_row r) = near
              /\ synth_symbol r = synth (cr_row r))
        /\ CE snap <> [] /\ PE snap <> [])
  /\ (List.filter (on_date (ts_date ts)) ce = [] ->
      List.filter (on_date (ts_date ts)) pe <> [] ->
      get_option_chain p ts = ValueError).
Proof.
  intros Hce Hpe. unfold get_option_chain. rewrite Hce, Hpe. split.
  - intros snap.
    destruct (day_subsets ce pe (ts_date ts)) as [[cs ps]|] eqn:Hday; [|discriminate].
    destruct (day_subsets_dated _ _ _ _ _ Hday) as (d' & Hle & -> & ->).
    set (near := min_date (map Expiry (List.filter (on_date d') ce))).
    assert (Hrow : forall tbl r,
               In r (map with_synth (List.filter (has_expiry near)
                                       (List.filter (on_date d') tbl))) ->
               In (cr_row r) tbl /\ Date (cr_row r) = d'
               /\ Some (Expiry (cr_row r)) = near /\ synth_symbol r = synth (cr_row r)).
    { intros tbl r Hr. apply in_map_iff in Hr. destruct Hr as (x & <- & Hx).
      apply filter_In in Hx. destruct Hx as (Hx & Hexp).
      apply filter_In in Hx. destruct Hx as (Hx & Hon).
      cbn. split; [exact Hx|]. split; [apply date_eqb_eq, Hon|]. split; [|reflexivity].
      unfold has_expiry in Hexp. destruct near as [e|]; [|discriminate].
      apply date_eqb_eq in Hexp. congruence. }
    pose proof (add_synth_symbol_rows
                  (List.filter (has_expiry near) (List.filter (on_date d') ce))) as Hc.
    destruct (add_synth_symbol (List.filter (has_expiry near) (List.filter (on_date d') ce)))
      as [ce_chain|]; [|discriminate].
    pose proof (add_synth_symbol_rows
                  (List.filter (has_expiry near) (List.filter (on_date d') pe))) as Hp.
    destruct (add_synth_symbol (List.filter (has_expiry near) (List.filter (on_date d') pe)))
      as [pe_chain|]; [|discriminate].
    destruct Hc as (-> & Hcne). destruct Hp as (-> & Hpne).
    intros [= <-]. cbn [CE PE expiry snap_date].
    destruct near as [e|] eqn:Hnear;
      [|exfalso; apply Hcne; apply filter_no_expiry].
    exists d', e. split; [exact Hle|].
    split.
    { destruct (map with_synth (List.filter (has_expiry (Some e))
                                  (List.filter (on_date d') ce)))
        as [|r rest] eqn:Hrows.
      - apply map_eq_nil in Hrows. contradiction.
      - apply (Hrow ce r). rewrite Hrows. left; reflexivity. }
    split; [reflexivity|].
    split; [intros r Hr; apply (Hrow ce r Hr)|].
    split; [intros r Hr; apply (Hrow pe r Hr)|].
    split.
    { intros r Hr. apply in_app_or in Hr.
      destruct Hr as [Hr|Hr]; [apply (Hrow ce) in Hr | apply (Hrow pe) in Hr];
        destruct Hr as (_ & Hd & He & Hs); split; [exact Hd| |exact Hd|];
        (split; [congruence | exact Hs]). }
    split; intros Hnil; apply map_eq_nil in Hnil; contradiction.
  - intros Hcd Hpd. unfold day_subsets. rewrite Hcd.
    destruct (List.filter (on_date (ts_date ts)) pe) as [|x rest]; [contradiction|].
    reflexivity.
Qed.

(** The snapshot of 21 January of the tables [both_on_21]. *)
Definition snapshot_21 : Snapshot :=
  {| CE := [with_synth ce_row_21jan]; PE := [with_synth pe_row_near];
     snap_date := mkDate 2026 1 21; expiry := Some (mkDate 2026 1 27) |}.

Lemma chain_is_not_later_witness :
  get_option_chain both_on_21 (mkTs (mkDate 2026 1 23) 0) = Returns (Some snapshot_21)
  /\ exists d' near,
       date_leb d' (mkDate 2026 1 23) = true
       /\ snap_date snapshot_21 = d'
       /\ expiry snapshot_21 = Some near
       /\ (forall r, In r (CE snapshot_21 ++ PE snapshot_21) ->
             Date (cr_row r) = d' /\ Expiry (cr_row r) = near)
       /\ PE snapshot_21 <> [].
Proof.
  split; [reflexivity|].
  destruct (proj1 (chain_is_not_later both_on_21 _ _ (mkTs (mkDate 2026 1 23) 0)
                     eq_refl eq_refl) snapshot_21 eq_refl)
    as (d' & near & Hle & Hdate & Hexp & _ & _ & Hrows & _ & Hpe).
  exists d', near. split; [exact Hle|]. split; [exact Hdate|]. split; [exact Hexp|].
  split; [|exact Hpe].
  intros r Hr. destruct (Hrows r Hr) as (Hd & He & _). split; assumption.
Defined.

(** ** The row an option price is read from *)

(** X9.  The row [get_option_price] reads is a row of the table at the strike
    asked for, dated at or before the day asked for; it is of that very day
    whenever the table has a row of that day at that strike. *)
Theorem option_row_is_not_later (rows : list OptRow) (d : date) (strike : Q) (r : OptRow) :
  find_row rows d strike = Some r ->
  In r rows
  /\ (Strike_Price r == strike)%Q
  /\ date_leb (Date r) d = true
  /\ ((exists r', In r' rows /\ Date r' = d /\ (Strike_Price r' == strike)%Q) -> Date r = d).
Proof.
  unfold find_row.
  assert (Hat : forall d0 x, In x (List.filter (at_strike d0 strike) rows) ->
                  In x rows /\ Date x = d0 /\ (Strike_Price x == strike)%Q).
  { intros d0 x Hx. apply filter_In in Hx. destruct Hx as (Hx & Hb).
    unfold at_strike in Hb. apply andb_true_iff in Hb. destruct Hb as (Hd & Hk).
    split; [exact Hx|]. split; [apply date_eqb_eq, Hd | apply Qeq_bool_iff, Hk]. }
  destruct (List.filter (at_strike d strike) rows) as [|x rest] eqn:Hexact.
  - destruct (max_date (map Date (List.filter (upto_date d) rows))) as [last|] eqn:Hmax;
      [|discriminate].
    intros Hhead.
    destruct (List.filter (at_strike last strike) rows) as [|y rest] eqn:Hlast;
      [discriminate|].
    injection Hhead as <-.
    destruct (Hat last y) as (Hin & Hd & Hk); [rewrite Hlast; left; reflexivity|].
    destruct (max_date_spec _ _ Hmax) as (Hl & _).
    apply in_map_iff in Hl. destruct Hl as (z & Hz & Hzin).
    apply filter_In in Hzin. destruct Hzin as (_ & Hzle). unfold upto_date in Hzle.
    split; [exact Hin|]. split; [exact Hk|]. split; [rewrite Hd, <- Hz; exact Hzle|].
    intros (r' & Hin' & Hd' & Hk'). exfalso.
    pose proof (proj1 (filter_nil_iff _ _) Hexact r' Hin') as Hno.
    unfold at_strike in Hno. rewrite Hd' in Hno.
    apply Qeq_bool_iff in Hk'. rewrite Hk' in Hno.
    unfold date_eqb in Hno. rewrite bool_decide_eq_true_2 in Hno by reflexivity.
    discriminate.
  - intros [= <-].
    destruct (Hat d x) as (Hin & Hd & Hk); [rewrite Hexact; left; reflexivity|].
    split; [exact Hin|]. split; [exact Hk|].
    split; [rewrite Hd; apply date_leb_refl | intros _; exact Hd].
Qed.

Lemma option_row_is_not_later_witness :
  In ce_row_21jan [ce_row_21jan] /\ date_leb (Date ce_row_21jan) (mkDate 2026 1 23) = true.
Proof.
  destruct (option_row_is_not_later [ce_row_21jan] (mkDate 2026 1 23) 25500 ce_row_21jan
              eq_refl) as (Hin & _ & Hle & _).
  split; assumption.
Defined.

End ChainSnapshot.

(** ** Synthesized symbols *)

Section Digits.

Fixpoint digits_only (s : string) : bool :=
  match s with
  | EmptyString => true
  | String c s' => is_digit c && digits_only s'
  end.

Definition digit_of (c : ascii) : Z := Z.of_nat (nat_of_ascii c) - 48.

Lemma digits_value_snoc (s : string) (c : ascii) :
  digits_value (s +:+ String c EmptyString) = 10 * digits_value s + digit_of c.
Proof.
  unfold digits_value, digit_of.
  assert (Happ : forall a b, list_ascii_of_string (a +:+ b)
                             = list_ascii_of_string a ++ list_ascii_of_string b).
  { induction a as [|x a IH]; intros b; [reflexivity|].
    change (x :: list_ascii_of_string (a +:+ b)
            = x :: (list_ascii_of_string a ++ list_ascii_of_string b)).
    f_equal. apply IH. }
  rewrite Happ, fold_left_app. reflexivity.
Qed.

Lemma append_nil (s : string) : EmptyString +:+ s = s.
Proof. reflexivity. Qed.

Lemma append_cons (x : ascii) (a s : string) : String x a +:+ s = String x (a +:+ s).
Proof. reflexivity. Qed.

Lemma digits_only_app (a b : string) :
  digits_only (a +:+ b) = digits_only a && digits_only b.
Proof.
  induction a as [|x a IH]; [reflexivity|].
  change (is_digit x && digits_only (a +:+ b)
          = is_digit x && digits_only a && digits_only b).
  rewrite IH, andb_assoc. reflexivity.
Qed.

Lemma append_assoc (a b c : string) : (a +:+ b) +:+ c = a +:+ (b +:+ c).
Proof.
  induction a as [|x a IH]; [reflexivity|].
  change (String x ((a +:+ b) +:+ c) = String x (a +:+ (b +:+ c))).
  rewrite IH. reflexivity.
Qed.

Lemma pretty_N_char_digit (n : N) :
  (n < 10)%N ->
  is_digit (pretty_N_char n) = true /\ digit_of (pretty_N_char n) = Z.of_N n.
Proof.
  intros Hn.
  assert (Hall : forallb (fun k => is_digit (pretty_N_char (N.of_nat k))
                                   && (digit_of (pretty_N_char (N.of_nat k))
                                       =? Z.of_N (N.of_nat k)))
                         (seq 0 10) = true) by reflexivity.
  rewrite forallb_forall in Hall.
  specialize (Hall (N.to_nat n)). rewrite N2Nat.id in Hall.
  destruct (andb_prop _ _ (Hall ltac:(apply in_seq; lia))) as (Hd & Hv).
  split; [exact Hd | apply Z.eqb_eq, Hv].
Qed.

Lemma pretty_N_go_app (x : N) :
  forall s, pretty_N_go x s = pretty_N_go x EmptyString +:+ s.
Proof.
  induction (N.lt_wf_0 x) as [x _ IH]. intros s.
  destruct (N.eq_0_gt_0_cases x) as [->|Hx].
  - rewrite !pretty_N_go_0. reflexivity.
  - rewrite (pretty_N_go_step x s Hx), (pretty_N_go_step x EmptyString Hx).
    assert (Hlt : (x `div` 10 < x)%N) by (apply N.div_lt; lia).
    rewrite (IH _ Hlt (String _ s)), (IH _ Hlt (String _ EmptyString)).
    rewrite append_assoc. reflexivity.
Qed.

Lemma pretty_N_go_digits (x : N) :
  digits_only (pretty_N_go x EmptyString) = true
  /\ digits_value (pretty_N_go x EmptyString) = Z.of_N x.
Proof.
  induction (N.lt_wf_0 x) as [x _ IH].
  destruct (N.eq_0_gt_0_cases x) as [->|Hx].
  - rewrite pretty_N_go_0. split; reflexivity.
  - rewrite (pretty_N_go_step x EmptyString Hx), pretty_N_go_app.
    destruct (IH (x `div` 10)%N) as (Hd & Hv); [apply N.div_lt; lia|].
    destruct (pretty_N_char_digit (x `mod` 10)%N) as (Hc & Hcv);
      [apply N.mod_lt; lia|].
    split.
    + rewrite digits_only_app, Hd. cbn. rewrite Hc. reflexivity.
    + rewrite digits_value_snoc, Hv, Hcv.
      rewrite (N.div_mod x 10) at 3 by lia. lia.
Qed.

(** The decimal text of a natural number: digits only, not empty, and read
    back as the number. *)
Lemma pretty_Z_digits (n : Z) :
  0 <= n ->
  digits_only (pretty n) = true
  /\ pretty n <> EmptyString
  /\ digits_value (pretty n) = n.
Proof.
  intros Hn. destruct n as [|q|q]; [repeat split; discriminate| |lia].
  change (pretty (Z.pos q)) with (pretty_N_go (N.pos q) EmptyString).
  destruct (pretty_N_go_digits (N.pos q)) as (Hd & Hv).
  split; [exact Hd|]. split; [|exact Hv].
  intros Hempty. rewrite Hempty in Hv. discriminate.
Qed.

Lemma span_digits (a rest : string) :
  digits_only a = true ->
  match rest with
  | String c _ => is_digit c = false
  | EmptyString => True
  end ->
  span is_digit (a +:+ rest) = (a, rest).
Proof.
  intros Ha Hrest. induction a as [|x a IH].
  - rewrite append_nil. destruct rest as [|c rest]; [reflexivity|].
    change (is_digit c = false) in Hrest. cbn [span]. rewrite Hrest. reflexivity.
  - rewrite append_cons. cbn [span].
    cbn [digits_only] in Ha. apply andb_true_iff in Ha. destruct Ha as (Hx & Ha).
    rewrite Hx, (IH Ha). reflexivity.
Qed.

Definition two_digits (s : string) : bool :=
  match s with
  | String a (String b EmptyString) => is_digit a && is_digit b
  | _ => false
  end.

Definition three_upper (s : string) : bool :=
  match s with
  | String a (String b (String c EmptyString)) => is_upper a && is_upper b && is_upper c
  | _ => false
  end.

Lemma take_two_digits (a rest : string) :
  two_digits a = true -> take_n is_digit 2 (a +:+ rest) = Some (a, rest).
Proof.
  destruct a as [|x [|y [|z a]]]; try discriminate.
  rewrite !append_cons, append_nil. cbn [two_digits take_n].
  intros H. apply andb_true_iff in H. destruct H as (-> & ->). reflexivity.
Qed.

Lemma take_three_upper (a rest : string) :
  three_upper a = true -> take_n is_upper 3 (a +:+ rest) = Some (a, rest).
Proof.
  destruct a as [|x [|y [|z [|w a]]]]; try discriminate.
  rewrite !append_cons, append_nil. cbn [three_upper take_n].
  intros H. apply andb_true_iff in H. destruct H as (H & ->).
  apply andb_true_iff in H. destruct H as (-> & ->). reflexivity.
Qed.

Lemma year2_two_digits (y : Z) : two_digits (year2 y) = true.
Proof.
  unfold year2.
  assert (Hr : 0 <= y mod 100 < 100) by (apply Z.mod_pos_bound; lia).
  set (r := y mod 100) in *.
  assert (Hall : forallb (fun n => two_digits
                            (let r := Z.of_nat n in
                             if r <? 10 then "0" +:+ pretty r else pretty r))
                         (seq 0 100) = true) by (vm_compute; reflexivity).
  rewrite forallb_forall in Hall.
  specialize (Hall (Z.to_nat r)). cbv zeta in Hall.
  rewrite Z2Nat.id in Hall by lia. apply Hall.
  apply in_seq. lia.
Qed.

Lemma month_abbr_three_upper (m : Z) : 1 <= m <= 12 -> three_upper (month_abbr m) = true.
Proof.
  intros Hm.
  assert (Hcases : m = 1 \/ m = 2 \/ m = 3 \/ m = 4 \/ m = 5 \/ m = 6 \/ m = 7
                   \/ m = 8 \/ m = 9 \/ m = 10 \/ m = 11 \/ m = 12) by lia.
  repeat (destruct Hcases as [->|Hcases]; [reflexivity|]).
  subst m. reflexivity.
Qed.

End Digits.

Section SynthSymbols.

Import CSV.

Variable py_float : string -> option pyfloat.

Lemma strip_prefix_app (pre s : string) : strip_prefix pre (pre +:+ s) = Some s.
Proof.
  induction pre as [|c pre IH]; [reflexivity|].
  rewrite append_cons. cbn [strip_prefix]. rewrite Ascii.eqb_refl. exact IH.
Qed.

(** A row the chain can name: a CE or PE row whose expiry has a calendar
    month and whose strike does not truncate to a negative number. *)
Definition nameable (r : OptRow) : Prop :=
  (Option_type r = "CE"%string \/ Option_type r = "PE"%string)
  /\ 1 <= month (Expiry r) <= 12
  /\ 0 <= int_of_Q (Strike_Price r).

Lemma synth_matches (r : OptRow) :
  nameable r ->
  match_symbol (synth r)
  = Some (year2 (year (Expiry r)), month_abbr (month (Expiry r)),
          pretty (int_of_Q (Strike_Price r)), Option_type r)
  /\ digits_value (pretty (int_of_Q (Strike_Price r))) = int_of_Q (Strike_Price r).
Proof.
  intros (Hty & Hm & Hk).
  destruct (pretty_Z_digits _ Hk) as (Hd & Hne & Hv).
  split; [|exact Hv].
  unfold match_symbol, synth. rewrite strip_prefix_app.
  rewrite (take_two_digits _ _ (year2_two_digits (year (Expiry r)))).
  rewrite (take_three_upper _ _ (month_abbr_three_upper _ Hm)).
  rewrite span_digits; [|exact Hd|destruct Hty as [-> | ->]; reflexivity].
  destruct (pretty (int_of_Q (Strike_Price r))) as [|c s]; [congruence|].
  destruct Hty as [-> | ->]; reflexivity.
Qed.

(** X10.  The symbol [get_option_chain] synthesizes for a row is read back by
    the pattern of [get_option_price] into the row's two-digit expiry year,
    its month abbreviation, the digits of its truncated strike and its option
    type; the digits give the truncated strike back; and the prefix the
    engine extracts from it for the contract roll is [NIFTY], the year and
    the month. *)
Theorem synth_symbol_parses (r : OptRow) :
  nameable r ->
  match_symbol (synth r)
  = Some (year2 (year (Expiry r)), month_abbr (month (Expiry r)),
          pretty (int_of_Q (Strike_Price r)), Option_type r)
  /\ digits_value (pretty (int_of_Q (Strike_Price r))) = int_of_Q (Strike_Price r)
  /\ Engine.contract_prefix (synth r)
     = Some ("NIFTY" +:+ year2 (year (Expiry r)) +:+ month_abbr (month (Expiry r))).
Proof.
  intros Hn. destruct (synth_matches r Hn) as (Hmatch & Hv).
  destruct Hn as (_ & Hm & _).
  split; [exact Hmatch|]. split; [exact Hv|].
  unfold Engine.contract_prefix, synth. rewrite strip_prefix_app.
  rewrite (take_two_digits _ _ (year2_two_digits (year (Expiry r)))).
  rewrite (take_three_upper _ _ (month_abbr_three_upper _ Hm)). reflexivity.
Qed.

Lemma synth_symbol_parses_witness :
  match_symbol (synth ce_row_far) = Some ("26", "FEB", "25500", "CE")%string
  /\ digits_value "25500" = 25500
  /\ Engine.contract_prefix (synth ce_row_far) = Some "NIFTY26FEB"%string.
Proof.
  apply (synth_symbol_parses ce_row_far).
  split; [left; reflexivity|]. split; [cbn; lia | vm_compute; discriminate].
Defined.

(** X11.  The price of a synthesized symbol is looked up by date, truncated
    strike and option type only: it is the price of the row [find_row] gives
    in the table of the row's type, 0.0 when there is none.  When the named
    row is itself in that table on the requested date with a whole strike,
    the price is read from the first row of the table with that date and
    strike, whatever its expiry. *)
Theorem synth_symbol_price (p : CSVDataProvider) (rows : list OptRow) (r : OptRow)
        (ts : timestamp) :
  nameable r ->
  table_of p (Option_type r) = Some rows ->
  get_option_price py_float p (synth r) ts
  = match find_row rows (ts_date ts) (inject_Z (int_of_Q (Strike_Price r))) with
    | Some r' => row_price py_float r'
    | None => FNum 0
    end
  /\ (In r rows -> Date r = ts_date ts ->
      (Strike_Price r == inject_Z (int_of_Q (Strike_Price r)))%Q ->
      exists r' rest,
        List.filter (at_strike (Date r) (Strike_Price r)) rows = r' :: rest
        /\ Date r' = Date r
        /\ (Strike_Price r' == Strike_Price r)%Q
        /\ get_option_price py_float p (synth r) ts = row_price py_float r').
Proof.
  intros Hn Htab.
  destruct (synth_matches r Hn) as (Hm & Hv).
  assert (Hprice :
    get_option_price py_float p (synth r) ts
    = match find_row rows (ts_date ts) (inject_Z (int_of_Q (Strike_Price r))) with
      | Some r' => row_price py_float r'
      | None => FNum 0
      end).
  { unfold get_option_price. rewrite Hm, Hv.
    unfold table_of in Htab. rewrite Htab. reflexivity. }
  split; [exact Hprice|].
  intros Hin Hd Hwhole.
  assert (Hsame : List.filter (at_strike (ts_date ts) (inject_Z (int_of_Q (Strike_Price r)))) rows
                  = List.filter (at_strike (Date r) (Strike_Price r)) rows).
  { rewrite Hd. apply filter_ext. intros x. unfold at_strike. f_equal.
    destruct (Qeq_bool (Strike_Price x) (inject_Z (int_of_Q (Strike_Price r)))) eqn:Ha;
      destruct (Qeq_bool (Strike_Price x) (Strike_Price r)) eqn:Hb; try reflexivity.
    - apply Qeq_bool_iff in Ha. rewrite <- Hwhole in Ha.
      apply Qeq_bool_iff in Ha. congruence.
    - apply Qeq_bool_iff in Hb. rewrite Hwhole in Hb.
      apply Qeq_bool_iff in Hb. congruence. }
  destruct (List.filter (at_strike (Date r) (Strike_Price r)) rows) as [|r' rest] eqn:Hf.
  - exfalso. pose proof (proj1 (filter_nil_iff _ _) Hf r Hin) as Hno.
    unfold at_strike in Hno.
    rewrite (proj2 (date_eqb_eq _ _) eq_refl) in Hno.
    rewrite (proj2 (Qeq_bool_iff _ _) (Qeq_refl _)) in Hno. discriminate.
  - exists r', rest. split; [reflexivity|].
    assert (Hr' : In r' (List.filter (at_strike (Date r) (Strike_Price r)) rows))
      by (rewrite Hf; left; reflexivity).
    apply filter_In in Hr'. destruct Hr' as (_ & Hb).
    unfold at_strike in Hb. apply andb_true_iff in Hb. destruct Hb as (Hb1 & Hb2).
    split; [apply date_eqb_eq, Hb1|]. split; [apply Qeq_bool_iff, Hb2|].
    rewrite Hprice. unfold find_row. rewrite Hsame. reflexivity.
Qed.

End SynthSymbols.

Section SynthExamples.

Import CSV.

(** The near-month row of a table that lists the far month first. *)
Definition ce_row_near : OptRow :=
  {| Date := mkDate 2026 1 21; Expiry := mkDate 2026 1 27; Strike_Price := 25500;
     Option_type := "CE"; LTP := CNum 90; Close := CNum 95;
     Underlying_Value := 25400 |}.

Definition far_first : CSVDataProvider :=
  {| index_data := None; ce_data := Some [ce_row_far; ce_row_near]; pe_data := Some [] |}.

Lemma synth_symbol_price_witness :
  synth ce_row_near = "NIFTY26JAN25500CE"%string
  /\ exists r' rest,
       List.filter (at_strike (mkDate 2026 1 21) 25500) [ce_row_far; ce_row_near]
       = r' :: rest
       /\ Date r' = mkDate 2026 1 21
       /\ (Strike_Price r' == 25500)%Q
       /\ get_option_price plain_float far_first (synth ce_row_near)
            (mkTs (mkDate 2026 1 21) 0) = row_price plain_float r'.
Proof.
  split; [reflexivity|].
  refine (proj2 (synth_symbol_price plain_float far_first [ce_row_far; ce_row_near] ce_row_near
                   (mkTs (mkDate 2026 1 21) 0) _ eq_refl) _ eq_refl _).
  - split; [left; reflexivity|]. split; [cbn; lia | vm_compute; discriminate].
  - right; left; reflexivity.
  - reflexivity.
Defined.

End SynthExamples.

(** ** The risk gate: the halt condition and the velocity window *)

Section RiskWindow.

Context {B : Type} `{Risk.BrokerDriver B}.

Implicit Types (c : Risk.State B) (k : Risk.call).

(** A P&L report at or beyond the drawdown threshold. *)
Definition breaches (threshold : Q) (k : Risk.call) : bool :=
  match k with
  | Risk.UpdateGlobalPnl r u => Qle_bool (r + u) (- Qabs' threshold)
  | _ => false
  end.

(** The test [now - t < 60] of [_check_velocity]. *)
Definition recent (now t : Q) : bool := Qltb (now - t) 60.

(** The clock readings of the placements of a call sequence. *)
Definition clock_readings (ks : list Risk.call) : list Q :=
  flat_map (fun k => match k with
                     | Risk.PlaceOrder _ now => [now]
                     | _ => []
                     end) ks.

Definition is_forwarded (r : Risk.PlaceResult) : bool :=
  match r with
  | Risk.Forwarded _ => true
  | Risk.Rejected _ => false
  end.

(** The clock readings of the placements the gate passed to the backend. *)
Fixpoint forwarded_times (ks : list Risk.call) c : list Q :=
  match ks with
  | [] => []
  | k :: ks' =>
      match k with
      | Risk.PlaceOrder req now =>
          if is_forwarded (snd (Risk.place_order req now c)) then [now] else []
      | _ => []
      end ++ forwarded_times ks' (Risk.step c k)
  end.

Lemma place_order_cases (request : Driver.OrderRequest) (now : Q) c :
  let kept := List.filter (recent now) (Risk._order_timestamps c) in
  Risk.place_order request now c
  = if Risk.is_halted c then (c, Risk.Rejected "Risk System Halted")
    else if Risk.max_orders_per_minute c <=? Z.of_nat (length kept)
         then (Risk.with_timestamps kept c, Risk.Rejected "Velocity Limit Exceeded")
         else (Risk.with_broker
                 (fst (Risk.b_place_order request (Risk.broker c)))
                 (Risk.with_timestamps (kept ++ [now]) c),
               Risk.Forwarded (snd (Risk.b_place_order request (Risk.broker c)))).
Proof.
  intros kept. unfold Risk.place_order, Risk._check_velocity.
  destruct (Risk.is_halted c); [reflexivity|].
  fold (recent now). fold kept.
  destruct (Risk.max_orders_per_minute c <=? Z.of_nat (length kept)); [reflexivity|].
  cbn [Risk.broker Risk.with_timestamps].
  destruct (Risk.b_place_order request (Risk.broker c)); reflexivity.
Qed.

Lemma step_constants c k :
  Risk.max_global_drawdown (Risk.step c k) = Risk.max_global_drawdown c
  /\ Risk.max_orders_per_minute (Risk.step c k) = Risk.max_orders_per_minute c
  /\ Risk.is_halted (Risk.step c k)
     = Risk.is_halted c || breaches (Risk.max_global_drawdown c) k.
Proof.
  destruct k as [r u|req now|oid|]; cbn [Risk.step breaches].
  - unfold Risk.update_global_pnl; cbn.
    destruct (Qle_bool (r + u) (- Qabs' (Risk.max_global_drawdown c)));
      destruct (Risk.is_halted c); repeat split; reflexivity.
  - rewrite place_order_cases, orb_false_r.
    destruct (Risk.is_halted c) eqn:Hh;
      [cbn [fst]; rewrite ?Hh; repeat split; reflexivity|].
    destruct (_ <=? _); cbn; rewrite ?Hh; repeat split; reflexivity.
  - rewrite cancel_order_forwards, orb_false_r. repeat split; reflexivity.
  - rewrite orb_false_r. repeat split; reflexivity.
Qed.

Lemma run_limit (ks : list Risk.call) c :
  Risk.max_orders_per_minute (Risk.run ks c) = Risk.max_orders_per_minute c.
Proof.
  unfold Risk.run. revert c.
  induction ks as [|k ks IH]; intros c; cbn [fold_left]; [reflexivity|].
  rewrite IH. apply step_constants.
Qed.


Lemma recent_earlier (prev now t : Q) :
  (prev <= now)%Q -> recent prev t = false -> recent now t = false.
Proof.
  unfold recent, Qltb. intros Hle Hp.
  apply negb_false_iff in Hp. apply Qle_bool_iff in Hp.
  apply negb_false_iff. apply Qle_bool_iff. lra.
Qed.

Lemma filter_recent_twice (prev now : Q) (l : list Q) :
  (prev <= now)%Q ->
  List.filter (recent now) (List.filter (recent prev) l) = List.filter (recent now) l.
Proof.
  intros Hle. induction l as [|t l IH]; [reflexivity|].
  cbn [List.filter]. destruct (recent prev t) eqn:Hp.
  - cbn [List.filter]. rewrite IH. reflexivity.
  - rewrite (recent_earlier _ _ _ Hle Hp). exact IH.
Qed.

Lemma recent_now (now : Q) : recent now now = true.
Proof. unfold recent. apply Qltb_true. lra. Qed.

(** The recorded timestamps are the forwarded placements of the last minute
    before some reading [prev'] that is no later than any bound of the
    readings so far. *)
Lemma timestamps_are_recent_forwards (ks : list Risk.call) :
  forall c (past : list Q) (prev : Q),
    Risk._order_timestamps c = List.filter (recent prev) past ->
    Forall (Qle prev) (clock_readings ks) ->
    StronglySorted Qle (clock_readings ks) ->
    exists prev',
      Risk._order_timestamps (Risk.run ks c)
      = List.filter (recent prev') (past ++ forwarded_times ks c)
      /\ (forall u, (prev <= u)%Q -> Forall (fun t => (t <= u)%Q) (clock_readings ks) ->
                    (prev' <= u)%Q).
Proof.
  unfold Risk.run.
  induction ks as [|k ks IH]; intros c past prev Hinv Hlow Hsorted.
  - exists prev. cbn. rewrite app_nil_r. split; [exact Hinv | auto].
  - cbn [fold_left forwarded_times].
    destruct k as [r u|req now|oid|].
    + destruct (IH (Risk.step c (Risk.UpdateGlobalPnl r u)) past prev Hinv Hlow Hsorted)
        as (prev' & Hst & Hup).
      exists prev'. auto.
    + change (clock_readings (Risk.PlaceOrder req now :: ks))
        with (now :: clock_readings ks) in *.
      apply Forall_cons_iff in Hlow. destruct Hlow as (Hnow & Hlow).
      apply StronglySorted_inv in Hsorted. destruct Hsorted as (Hsorted & Hnext).
      cbn [Risk.step]. rewrite place_order_cases. cbv zeta.
      rewrite Hinv, (filter_recent_twice _ _ _ Hnow).
      destruct (Risk.is_halted c).
      * cbn [fst snd is_forwarded app].
        destruct (IH c past prev Hinv Hlow Hsorted) as (prev' & Hst & Hup).
        exists prev'. split; [exact Hst|].
        intros u Hu Hall. apply Forall_cons_iff in Hall. apply Hup; tauto.
      * destruct (Risk.max_orders_per_minute c
                  <=? Z.of_nat (length (List.filter (recent now) past))).
        -- cbn [fst snd is_forwarded app].
           destruct (IH (Risk.with_timestamps (List.filter (recent now) past) c)
                       past now eq_refl Hnext Hsorted) as (prev' & Hst & Hup).
           exists prev'. split; [exact Hst|].
           intros u Hu Hall. apply Forall_cons_iff in Hall. apply Hup; tauto.
        -- cbn [fst snd is_forwarded].
           destruct (IH (Risk.with_broker
                           (fst (Risk.b_place_order req (Risk.broker c)))
                           (Risk.with_timestamps
                              (List.filter (recent now) past ++ [now]) c))
                       (past ++ [now]) now) as (prev' & Hst & Hup).
           { cbn [Risk._order_timestamps Risk.with_broker Risk.with_timestamps].
             rewrite List.filter_app. cbn [List.filter]. rewrite recent_now.
             reflexivity. }
           { exact Hnext. }
           { exact Hsorted. }
           exists prev'. rewrite <- app_assoc in Hst.
           split; [exact Hst|].
           intros u Hu Hall. apply Forall_cons_iff in Hall. apply Hup; tauto.
    + destruct (IH (Risk.step c (Risk.CancelOrder oid)) past prev) as (prev' & Hst & Hup).
      { cbn [Risk.step]. rewrite cancel_order_forwards. exact Hinv. }
      { exact Hlow. }
      { exact Hsorted. }
      exists prev'. auto.
    + destruct (IH (Risk.step c Risk.DownloadInstruments) past prev Hinv Hlow Hsorted)
        as (prev' & Hst & Hup).
      exists prev'. auto.
Qed.

Lemma sorted_snoc (l : list Q) (x : Q) :
  StronglySorted Qle (l ++ [x]) ->
  StronglySorted Qle l /\ Forall (fun t => (t <= x)%Q) l.
Proof.
  induction l as [|a l IH]; intros Hs.
  - split; constructor.
  - change ((a :: l) ++ [x]) with (a :: (l ++ [x])) in Hs.
    apply StronglySorted_inv in Hs. destruct Hs as (Hs & Ha).
    destruct (IH Hs) as (Hl & Hx).
    apply Forall_app in Ha. destruct Ha as (Ha & Hax).
    split; constructor; try assumption.
    apply Forall_cons_iff in Hax. tauto.
Qed.

(** X13.  With the placements made at clock readings that never go back,
    on a gate that starts with no recorded timestamp, a placement is
    answered by the count of the placements the gate forwarded less than 60
    seconds before: the halt rejection when the gate is halted; else the
    velocity rejection when that count has reached the order limit, the
    backend being left alone; else the backend's own answer, the placement
    being recorded.  So a forwarded placement has fewer than the limit
    forwarded in the minute before it. *)
Theorem velocity_counts_the_last_minute (ks : list Risk.call)
        (request : Driver.OrderRequest) (now : Q) c :
  Risk._order_timestamps c = [] ->
  StronglySorted Qle (clock_readings ks ++ [now]) ->
  let c1 := Risk.run ks c in
  let sent := List.filter (recent now) (forwarded_times ks c) in
  Risk.place_order request now c1
  = (if Risk.is_halted c1 then (c1, Risk.Rejected "Risk System Halted")
     else if Risk.max_orders_per_minute c <=? Z.of_nat (length sent)
          then (Risk.with_timestamps sent c1, Risk.Rejected "Velocity Limit Exceeded")
          else (Risk.with_broker
                  (fst (Risk.b_place_order request (Risk.broker c1)))
                  (Risk.with_timestamps (sent ++ [now]) c1),
                Risk.Forwarded (snd (Risk.b_place_order request (Risk.broker c1)))))
  /\ (is_forwarded (snd (Risk.place_order request now c1)) = true ->
      Z.of_nat (length sent) < Risk.max_orders_per_minute c).
Proof.
  intros Hempty Hsorted c1 sent.
  destruct (sorted_snoc _ _ Hsorted) as (Hs & Hup).
  assert (Hinv : exists prev',
            Risk._order_timestamps c1
            = List.filter (recent prev') (forwarded_times ks c)
            /\ (prev' <= now)%Q).
  { destruct (clock_readings ks) as [|a l] eqn:Hr.
    - destruct (timestamps_are_recent_forwards ks c [] now) as (prev' & Hst & Hle).
      + rewrite Hempty. reflexivity.
      + rewrite Hr. constructor.
      + rewrite Hr. constructor.
      + exists prev'. split; [exact Hst|].
        apply Hle; [lra | rewrite Hr; constructor].
    - destruct (timestamps_are_recent_forwards ks c [] a) as (prev' & Hst & Hle).
      + rewrite Hempty. reflexivity.
      + rewrite Hr. apply StronglySorted_inv in Hs. destruct Hs as (_ & Ha).
        constructor; [lra | exact Ha].
      + rewrite Hr. exact Hs.
      + exists prev'. split; [exact Hst|].
        apply Hle; [|rewrite Hr; exact Hup].
        apply Forall_cons_iff in Hup. tauto. }
  destruct Hinv as (prev' & Hst & Hle).
  assert (Heq : Risk.place_order request now c1
    = (if Risk.is_halted c1 then (c1, Risk.Rejected "Risk System Halted")
       else if Risk.max_orders_per_minute c <=? Z.of_nat (length sent)
            then (Risk.with_timestamps sent c1, Risk.Rejected "Velocity Limit Exceeded")
            else (Risk.with_broker
                    (fst (Risk.b_place_order request (Risk.broker c1)))
                    (Risk.with_timestamps (sent ++ [now]) c1),
                  Risk.Forwarded (snd (Risk.b_place_order request (Risk.broker c1)))))).
  { rewrite place_order_cases. cbv zeta.
    rewrite Hst, (filter_recent_twice _ _ _ Hle).
    fold sent.
    replace (Risk.max_orders_per_minute c1) with (Risk.max_orders_per_minute c)
      by (symmetry; apply run_limit).
    reflexivity. }
  split; [exact Heq|].
  rewrite Heq. destruct (Risk.is_halted c1); [discriminate|].
  destruct (Risk.max_orders_per_minute c <=? Z.of_nat (length sent)) eqn:Hcmp;
    [discriminate|].
  intros _. apply Z.leb_gt in Hcmp. exact Hcmp.
Qed.

End RiskWindow.

(** Two placements half a minute apart on the gate of [main.py] over the
    backtest driver, with a P&L report between them. *)
Definition calls_in_a_minute : list Risk.call :=
  [Risk.PlaceOrder (market Driver.BUY "NIFTY" 50) 0;
   Risk.UpdateGlobalPnl 10 0;
   Risk.PlaceOrder (market Driver.BUY "NIFTY" 50) 30].

Lemma velocity_counts_the_last_minute_witness :
  forwarded_times calls_in_a_minute (Risk.init (Driver.init 100000)) = [0%Q; 30%Q]
  /\ (is_forwarded
        (snd (Risk.place_order (market Driver.BUY "NIFTY" 50) 59
                (Risk.run calls_in_a_minute (Risk.init (Driver.init 100000))))) = true ->
      Z.of_nat (length (List.filter (recent 59)
                          (forwarded_times calls_in_a_minute
                             (Risk.init (Driver.init 100000))))) < 30).
Proof.
  split; [reflexivity|].
  refine (proj2 (velocity_counts_the_last_minute calls_in_a_minute
                   (market Driver.BUY "NIFTY" 50) 59
                   (Risk.init (Driver.init 100000)) eq_refl _)).
  repeat constructor; unfold Qle; cbn; lia.
Defined.

(** ** The scheduler: what a run raises, and the sum of the daily counters *)

Section RunOutcome.

Context {S : Type}.

Implicit Types (sc : Engine.StrategyClass S) (st : Engine.Loop S) (e : Engine.State S).

(** The first column the sub-ticks of a row ask for and the row lacks. *)
Definition missing_column (r : Engine.Row) : option string :=
  match Engine.col_Open r with
  | Some _ =>
      match Engine.col_High r, Engine.col_Low r, Engine.col_Close r with
      | None, _, _ => Some "High"%string
      | Some _, None, _ => Some "Low"%string
      | Some _, Some _, None => Some "Close"%string
      | Some _, Some _, Some _ => None
      end
  | None =>
      match Engine.col_close r with
      | None => Some "close"%string
      | Some _ => None
      end
  end.

(** The missing column of the first row that lacks one. *)
Fixpoint first_missing (rows : list Engine.Row) : option string :=
  match rows with
  | [] => None
  | r :: rest =>
      match missing_column r with
      | Some k => Some k
      | None => first_missing rest
      end
  end.

Lemma row_prices_outcome (r : Engine.Row) :
  match missing_column r with
  | Some k => Engine.row_prices r = Engine.Raise (Engine.KeyError k)
  | None => exists ps, Engine.row_prices r = Engine.Ok ps
  end.
Proof.
  unfold missing_column, Engine.row_prices.
  destruct (Engine.col_Open r) as [o|].
  - destruct (Engine.col_High r) as [h|]; [|reflexivity].
    destruct (Engine.col_Low r) as [l|]; [|reflexivity].
    destruct (Engine.col_Close r) as [c|]; [|reflexivity].
    eexists; reflexivity.
  - destruct (Engine.col_close r) as [c|]; [|reflexivity].
    eexists; reflexivity.
Qed.

Lemma loop_outcome sc (cfg : Engine.Config) (ceiling : Z) (rows : list Engine.Row) :
  forall st,
    match first_missing rows with
    | Some k => Engine.loop sc cfg ceiling rows false st
                = Engine.Raise (Engine.KeyError k)
    | None => exists st', Engine.loop sc cfg ceiling rows false st = Engine.Ok st'
    end.
Proof.
  induction rows as [|r rows IH]; intros st; cbn [first_missing Engine.loop].
  - exists st. reflexivity.
  - unfold Engine.row_ticks. pose proof (row_prices_outcome r) as Hr.
    destruct (missing_column r) as [k|].
    + rewrite Hr. reflexivity.
    + destruct Hr as (ps & ->). cbn [Engine.bind]. apply IH.
Qed.



(** A run over a complete frame ends. *)
Lemma run_ends e (r0 : Engine.Row) (rows : list Engine.Row) (c : Q) (p : Driver.Provider) :
  day_price r0 = Some c ->
  Engine.csv_provider e = Some p ->
  first_missing rows = None ->
  Qeq_bool (Engine.initial_capital e) 0 = false ->
  exists e', Engine.run (r0 :: rows) e = Engine.Ok e'.
Proof.
  intros Hday Hprov Hrows Hcap. unfold day_price in Hday. unfold Engine.run.
  rewrite Hprov.
  assert (Hfirst : exists c1,
             match Engine.col_close r0 with
             | Some c => Engine.Ok c
             | None => Engine.column "Close" (Engine.col_Close r0)
             end = Engine.Ok c1).
  { destruct (Engine.col_close r0) as [x|]; [exists x; reflexivity|].
    destruct (Engine.col_Close r0) as [x|]; [exists x; reflexivity | discriminate]. }
  destruct Hfirst as (c1 & ->). cbn [Engine.bind].
  destruct (Engine.construct _ _ _) as [s0 d3]. cbn [Engine.loop].
  assert (Hseed : match Engine.col_Close r0 with
                  | Some c => Engine.Ok c
                  | None => Engine.column "close" (Engine.col_close r0)
                  end = Engine.Ok c).
  { destruct (Engine.col_Close r0) as [x|]; [congruence|].
    destruct (Engine.col_close r0) as [x|]; cbn; congruence. }
  rewrite Hseed. cbn [Engine.bind].
  match goal with
  | |- context [Engine.loop ?sc ?cfg ?ceiling rows false ?st] =>
      pose proof (loop_outcome sc cfg ceiling rows st) as Hloop
  end.
  rewrite Hrows in Hloop. destruct Hloop as (st' & ->). cbn [Engine.bind].
  unfold Engine.calculate_metrics. rewrite Hcap. cbn [Engine.bind].
  eexists. reflexivity.
Qed.

End RunOutcome.

(** What the provider holding the tables [both_on_21] answers on
    21 January 2026. *)
Definition on_21_january : Driver.Provider :=
  {| Driver.prov_option_price := fun _ _ => 0%Q;
     Driver.prov_index_price := fun _ => None;
     Driver.prov_option_chain := fun _ => Some snapshot_21 |}.


Section DailyCounters.

Context {S : Type}.

Implicit Types (sc : Engine.StrategyClass S) (st : Engine.Loop S) (e : Engine.State S).

(** The sum of the daily counters. *)
Definition count_total (m : gmap date Z) : Z :=
  map_fold (fun _ v acc => v + acc) 0 m.

(** The callback never shortens the trade log. *)
Definition log_grows sc : Prop :=
  forall tick s d,
    (length (Driver.trades d)
     <= length (Driver.trades (snd (Engine.on_ticks_update sc tick s d))))%nat.

(** The constructor and [refresh_instruments] leave the trade log alone. *)
Definition quiet_setup sc : Prop :=
  (forall cfg d, Driver.trades (snd (Engine.construct sc cfg d)) = Driver.trades d)
  /\ (forall s d, Driver.trades (snd (Engine.refresh_instruments sc s d))
                  = Driver.trades d).

(** Trades on record less the counted ones. *)
Definition uncounted st : Z :=
  Z.of_nat (length (Driver.trades (Engine.l_driver st))) - count_total (Engine.l_counts st).

Lemma count_total_insert (m : gmap date Z) (k : date) (v : Z) :
  count_total (<[k := v]> m) = count_total m - default 0 (m !! k) + v.
Proof.
  unfold count_total.
  assert (Hins : forall (m' : gmap date Z) x, m' !! k = None ->
            map_fold (fun _ v acc => v + acc) 0 (<[k := x]> m')
            = x + map_fold (fun _ v acc => v + acc) 0 m').
  { intros m' x Hk. apply (map_fold_insert_L (fun _ v acc => v + acc)); [|exact Hk].
    intros; lia. }
  rewrite <- (insert_delete_eq m k v), Hins by apply lookup_delete_eq.
  destruct (m !! k) as [old|] eqn:Hk; cbn [default].
  - pose proof (Hins (delete k m) old (lookup_delete_eq m k)) as Hold.
    rewrite (insert_delete_id m k old Hk) in Hold. unfold id. lia.
  - rewrite delete_id by exact Hk. lia.
Qed.

Lemma tick_step_uncounted sc (cfg : Engine.Config) (ceiling : Z) (t : timestamp) st
    (price : Q) :
  log_grows sc ->
  uncounted (Engine.tick_step sc cfg ceiling t st price) = uncounted st.
Proof.
  intros Hgrow. unfold uncounted.
  destruct (Z.lt_ge_cases (trades_on t (Engine.l_counts st)) ceiling) as [Hlt|Hge].
  - rewrite (tick_step_delivered sc cfg ceiling t st price Hlt).
    cbn [Engine.l_driver Engine.l_counts].
    pose proof (Hgrow (Engine.mkTick price price t) (Engine.l_strategy st)
                  (marks_refreshed cfg price (Engine.l_driver st))) as Hle.
    rewrite marks_refreshed_trades in *.
    destruct (_ <? _) eqn:Hcmp.
    + rewrite count_total_insert. unfold trades_on. lia.
    + apply Z.ltb_ge in Hcmp. lia.
  - rewrite (tick_step_throttled sc cfg ceiling t st price Hge).
    cbn [Engine.l_driver Engine.l_counts]. rewrite marks_refreshed_trades. reflexivity.
Qed.

Lemma before_row_uncounted sc (r : Engine.Row) st :
  quiet_setup sc -> uncounted (Engine.before_row sc r st) = uncounted st.
Proof.
  intros (_ & Hquiet). unfold uncounted, Engine.before_row, Engine.roll_contract.
  cbn [Engine.with_driver Engine.l_driver Engine.l_strategy Engine.l_counts].
  rewrite (proj1 (download_instruments_ledger _)).
  destruct (Driver.get_option_chain _) as [chain|]; [|reflexivity].
  destruct (CSV.CE chain) as [|first rest]; [reflexivity|].
  destruct (Engine.contract_prefix (CSV.synth_symbol first)) as [prefix|]; [|reflexivity].
  destruct (String.eqb prefix _); [reflexivity|].
  match goal with
  | |- context [Engine.refresh_instruments sc ?s ?d] =>
      pose proof (Hquiet s d) as Hq;
      destruct (Engine.refresh_instruments sc s d) as [s2 d2]
  end.
  cbn in *. rewrite Hq. reflexivity.
Qed.

Lemma loop_uncounted sc (cfg : Engine.Config) (ceiling : Z) (rows : list Engine.Row) :
  log_grows sc -> quiet_setup sc ->
  forall (skip : bool) st st',
    Engine.loop sc cfg ceiling rows skip st = Engine.Ok st' ->
    uncounted st' = uncounted st.
Proof.
  intros Hgrow Hquiet.
  induction rows as [|r rows IH]; intros skip st st'; cbn [Engine.loop].
  - intros [= <-]. reflexivity.
  - destruct skip.
    + destruct (match Engine.col_Close r with
                | Some c => Engine.Ok c
                | None => Engine.column "close" (Engine.col_close r)
                end) as [c|x]; cbn [Engine.bind]; [|discriminate].
      intros Hloop. rewrite (IH _ _ _ Hloop).
      rewrite <- (before_row_uncounted sc r st Hquiet). unfold uncounted.
      cbn [Engine.with_driver Engine.l_driver Engine.l_counts].
      rewrite (proj1 (set_price_logs _ _ _)). reflexivity.
    + unfold Engine.row_ticks.
      destruct (Engine.row_prices r) as [ps|x]; cbn [Engine.bind]; [|discriminate].
      intros Hloop. rewrite (IH _ _ _ Hloop).
      rewrite <- (before_row_uncounted sc r st Hquiet).
      generalize (Engine.before_row sc r st). clear - Hgrow.
      induction ps as [|p ps IHp]; intros st0; cbn [fold_left]; [reflexivity|].
      rewrite IHp. apply tick_step_uncounted, Hgrow.
Qed.

(** X15.  For a strategy whose callback never shortens the trade log and
    whose constructor and [refresh_instruments] leave it alone, a run that
    ends adds to the daily counters, in total, exactly the number of trades
    it adds to the trade log; on an engine that starts without trades and
    counters the counters add up to the [total_trades] of the results. *)
Theorem daily_counts_add_up e (rows : list Engine.Row) e' :
  log_grows (Engine.strategy_class e) ->
  quiet_setup (Engine.strategy_class e) ->
  Engine.run rows e = Engine.Ok e' ->
  count_total (Engine.daily_trade_count e') - count_total (Engine.daily_trade_count e)
  = Z.of_nat (length (Driver.trades (Engine.driver e')))
    - Z.of_nat (length (Driver.trades (Engine.driver e)))
  /\ (Driver.trades (Engine.driver e) = [] -> Engine.daily_trade_count e = ∅ ->
      rows <> [] ->
      Engine.total_trades <$> Engine.results e'
      = Some (count_total (Engine.daily_trade_count e'))).
Proof.
  intros Hgrow Hquiet Hrun.
  assert (Hsum :
    count_total (Engine.daily_trade_count e') - count_total (Engine.daily_trade_count e)
    = Z.of_nat (length (Driver.trades (Engine.driver e')))
      - Z.of_nat (length (Driver.trades (Engine.driver e)))
    /\ (rows <> [] ->
        Engine.total_trades <$> Engine.results e'
        = Some (Z.of_nat (length (Driver.trades (Engine.driver e')))))).
  { unfold Engine.run in Hrun. destruct rows as [|r0 rows].
    - injection Hrun as <-. split; [lia | congruence].
    - destruct (match Engine.col_close r0 with
                | Some c => Engine.Ok c
                | None => Engine.column "Close" (Engine.col_Close r0)
                end) as [c|x]; cbn [Engine.bind] in Hrun; [|discriminate].
      destruct (Engine.csv_provider e) as [p|]; [|discriminate].
      destruct (Engine.construct _ _ _) as [s0 d3] eqn:Hcons.
      pose proof (proj1 Hquiet (Engine.config e)) as Hq.
      match type of Hcons with
      | Engine.construct _ _ ?d = _ => specialize (Hq d); rewrite Hcons in Hq
      end.
      cbn [snd] in Hq.
      destruct (Engine.loop _ _ _ _ _ _) as [st|x] eqn:Hloop; cbn [Engine.bind] in Hrun;
        [|discriminate].
      pose proof (loop_uncounted _ _ _ _ Hgrow Hquiet _ _ _ Hloop) as Hun.
      unfold Engine.calculate_metrics in Hrun.
      destruct (Qeq_bool (Engine.initial_capital e) 0); cbn [Engine.bind] in Hrun;
        [discriminate|].
      injection Hrun as <-. unfold uncounted in Hun.
      cbn [Engine.l_driver Engine.l_counts Engine.daily_trade_count Engine.driver
           Engine.results Engine.total_trades fmap option_fmap option_map] in *.
      rewrite Hq in Hun.
      rewrite (proj1 (download_instruments_ledger _)) in Hun.
      rewrite (proj1 (set_price_logs _ _ _)) in Hun.
      assert (Hinst : Driver.trades
                        match Driver.instruments_df (Engine.driver e) with
                        | Some _ => Engine.driver e
                        | None => Driver.set_instruments [Engine.mock_inst (Engine.config e)]
                                    (Engine.driver e)
                        end = Driver.trades (Engine.driver e))
        by (destruct (Driver.instruments_df (Engine.driver e)); reflexivity).
      cbn [Driver.trades Driver.set_current_time] in Hun. rewrite Hinst in Hun.
      split; [lia | reflexivity]. }
  destruct Hsum as (Hdiff & Hres). split; [exact Hdiff|].
  intros Hnone Hzero Hrows. rewrite (Hres Hrows). f_equal.
  rewrite Hnone, Hzero in Hdiff. cbn in Hdiff.
  change (count_total ∅) with 0 in Hdiff. lia.
Qed.

End DailyCounters.

Section CountedStrategies.

Lemma place_order_log_grows (request : Driver.OrderRequest) (d : Driver.State) :
  (length (Driver.trades d)
   <= length (Driver.trades (fst (Driver.place_order request d))))%nat.
Proof.
  unfold Driver.place_order.
  destruct (Qeq_bool _ 0); [cbn; lia|].
  destruct (_ && _); [cbn; lia|].
  cbn [fst]. rewrite (proj1 (execute_trade_logs _ _)), length_app. cbn. lia.
Qed.

Lemma buy_times_log_grows (k : nat) (sym : string) (qty : Z) (d : Driver.State) :
  (length (Driver.trades d) <= length (Driver.trades (buy_times k sym qty d)))%nat.
Proof.
  induction k as [|k IH]; [cbn; lia|].
  change (buy_times (S k) sym qty d)
    with (fst (Driver.place_order (market Driver.BUY sym qty) (buy_times k sym qty d))).
  pose proof (place_order_log_grows (market Driver.BUY sym qty) (buy_times k sym qty d)).
  lia.
Qed.

Lemma buyer_log_grows (k : nat) (sym : string) (qty : Z) : log_grows (buyer k sym qty).
Proof. intros tick s d. cbn. apply buy_times_log_grows. Qed.

Lemma simple_quiet_setup {A : Type} (a0 : A)
    (act : Engine.Tick -> A -> Driver.State -> A * Driver.State) :
  quiet_setup (simple_strategy a0 act).
Proof. split; intros; reflexivity. Qed.

End CountedStrategies.

(** One order per tick under a ceiling of five: the bar of 21 January seeds
    the mark, the eight sub-ticks of 22 January give five trades. *)
Lemma daily_counts_add_up_witness :
  exists e',
    Engine.run (daily_bar (mkDate 2026 1 21) 19900 20010 19890 20000 :: two_bars_one_day)
      (Engine.load_csv_data no_tables
         (Engine.init (buyer 1 "NIFTY" 1) nifty_config 100000 5))
    = Engine.Ok e'
    /\ Engine.total_trades <$> Engine.results e'
       = Some (count_total (Engine.daily_trade_count e')).
Proof.
  destruct (run_ends
              (Engine.load_csv_data no_tables
                 (Engine.init (buyer 1 "NIFTY" 1) nifty_config 100000 5))
              (daily_bar (mkDate 2026 1 21) 19900 20010 19890 20000)
              two_bars_one_day 20000 no_tables eq_refl eq_refl eq_refl eq_refl)
    as (e' & Hrun).
  exists e'. split; [exact Hrun|].
  refine (proj2 (daily_counts_add_up
                   (Engine.load_csv_data no_tables
                      (Engine.init (buyer 1 "NIFTY" 1) nifty_config 100000 5))
                   _ e' (buyer_log_grows 1 "NIFTY" 1)
                   (simple_quiet_setup _ _) Hrun) eq_refl eq_refl _).
  discriminate.
Defined.

(** ** The scheduler: the contract roll *)

Section ContractRoll.

Context {S : Type}.

Implicit Types (sc : Engine.StrategyClass S) (st : Engine.Loop S).

(** [symbol_initials] is a plain attribute of the strategy: what is set is
    read back, and [refresh_instruments] does not assign it. *)
Definition plain_prefix sc : Prop :=
  (forall x s, Engine.get_symbol_initials sc (Engine.set_symbol_initials sc x s) = x)
  /\ (forall s d, Engine.get_symbol_initials sc (fst (Engine.refresh_instruments sc s d))
                  = Engine.get_symbol_initials sc s).

(** The prefix of the contracts of an expiry. *)
Definition prefix_of (e : date) : string :=
  "NIFTY" +:+ year2 (year e) +:+ month_abbr (month e).

Lemma contract_prefix_synth (r : CSV.OptRow) :
  1 <= month (CSV.Expiry r) <= 12 ->
  Engine.contract_prefix (CSV.synth r) = Some (prefix_of (CSV.Expiry r)).
Proof.
  intros Hm. unfold Engine.contract_prefix, CSV.synth, prefix_of.
  rewrite strip_prefix_app.
  rewrite (take_two_digits _ _ (year2_two_digits _)).
  rewrite (take_three_upper _ _ (month_abbr_three_upper _ Hm)). reflexivity.
Qed.

(** The first CE row of a snapshot has the snapshot's expiry, and carries the
    symbol synthesized from it; a snapshot has a CE row. *)
Lemma chain_head (p : CSV.CSVDataProvider) (ts : timestamp) (snap : CSV.Snapshot) :
  CSV.get_option_chain p ts = CSV.Returns (Some snap) ->
  exists first rest,
    CSV.CE snap = first :: rest
    /\ CSV.expiry snap = Some (CSV.Expiry (CSV.cr_row first))
    /\ CSV.synth_symbol first = CSV.synth (CSV.cr_row first).
Proof.
  unfold CSV.get_option_chain.
  destruct (CSV.ce_data p) as [ce|]; [|discriminate].
  destruct (CSV.pe_data p) as [pe|]; [|discriminate].
  destruct (CSV.day_subsets ce pe (ts_date ts)) as [[cs ps]|]; [|discriminate].
  pose proof (add_synth_symbol_rows
                (List.filter (CSV.has_expiry (min_date (map CSV.Expiry cs))) cs)) as Hc.
  destruct (CSV.add_synth_symbol _) as [ce_chain|]; [|discriminate].
  destruct (CSV.add_synth_symbol _) as [pe_chain|]; [|discriminate].
  destruct Hc as (-> & Hne).
  intros [= <-]. cbn [CSV.CE CSV.expiry].
  destruct (List.filter (CSV.has_expiry (min_date (map CSV.Expiry cs))) cs)
    as [|r rows] eqn:Hrows; [contradiction|].
  exists (CSV.with_synth r), (map CSV.with_synth rows).
  split; [reflexivity|]. split; [|reflexivity].
  assert (Hin : In r (List.filter (CSV.has_expiry (min_date (map CSV.Expiry cs))) cs))
    by (rewrite Hrows; left; reflexivity).
  apply filter_In in Hin. destruct Hin as (_ & Hexp).
  destruct (min_date (map CSV.Expiry cs)) as [near|]; [|discriminate].
  cbn [CSV.has_expiry] in Hexp. apply date_eqb_eq in Hexp.
  cbn [CSV.with_synth CSV.cr_row]. rewrite Hexp. reflexivity.
Qed.

(** X16.  For a strategy whose [symbol_initials] is a plain attribute and a
    driver whose provider holds the CSV tables: when [get_option_chain]
    returns at the time of a row (it raises [ValueError] when the chain of
    that time would have no CE or no PE row), then after the head of the
    loop body for the row a snapshot has made the strategy's prefix
    [NIFTY], the two-digit year and the month abbreviation of the snapshot's
    expiry, the smallest expiry of the CE rows of the snapshot's date; when
    none is returned the prefix is left as it was. *)
Theorem roll_names_near_expiry sc (p : CSV.CSVDataProvider) (prov : Driver.Provider)
    (r : Engine.Row) st :
  plain_prefix sc ->
  Driver.csv_provider (Engine.l_driver st) = Some prov ->
  CSV.get_option_chain p (Engine.row_time r)
  = CSV.Returns (Driver.prov_option_chain prov (Engine.row_time r)) ->
  let after := Engine.get_symbol_initials sc
                 (Engine.l_strategy (Engine.before_row sc r st)) in
  match Driver.prov_option_chain prov (Engine.row_time r) with
  | Some snap =>
      exists near,
        CSV.expiry snap = Some near
        /\ CSV.CE snap <> []
        /\ (1 <= month near <= 12 -> after = prefix_of near)
  | None => after = Engine.get_symbol_initials sc (Engine.l_strategy st)
  end.
Proof.
  intros (Hset & Hrefresh) Hprov Hserved after. subst after.
  unfold Engine.before_row, Engine.roll_contract.
  cbn [Engine.with_driver Engine.l_driver Engine.l_strategy Engine.l_counts].
  assert (Hget : Driver.get_option_chain
                   (Driver.set_current_time (Engine.row_time r) (Engine.l_driver st))
                 = Driver.prov_option_chain prov (Engine.row_time r)).
  { unfold Driver.get_option_chain.
    cbn [Driver.set_current_time Driver.csv_provider Driver.current_time].
    rewrite Hprov. reflexivity. }
  rewrite Hget. clear Hget.
  destruct (Driver.prov_option_chain prov (Engine.row_time r)) as [snap|];
    [|reflexivity].
  destruct (chain_head p _ snap Hserved) as (first & rest & Hce & Hexp & Hsym).
  exists (CSV.Expiry (CSV.cr_row first)). split; [exact Hexp|].
  split; [rewrite Hce; discriminate|].
  intros Hm. rewrite Hce, Hsym, (contract_prefix_synth _ Hm).
  destruct (String.eqb _ _) eqn:Heq.
  - apply String.eqb_eq in Heq. cbn [Engine.l_strategy]. symmetry. exact Heq.
  - match goal with
    | |- context [Engine.refresh_instruments sc ?s ?d] =>
        pose proof (Hrefresh s d) as Hq;
        destruct (Engine.refresh_instruments sc s d) as [s2 d2]
    end.
    cbn [fst] in Hq. cbn [Engine.l_strategy]. rewrite Hq. apply Hset.
Qed.

End ContractRoll.

Definition before_roll : Engine.Loop (string * list Engine.Tick) :=
  {| Engine.l_driver := Driver.set_csv_provider on_21_january (Driver.init 100000);
     Engine.l_strategy := ("NIFTY25DEC"%string, []);
     Engine.l_counts := ∅ |}.

Lemma roll_names_near_expiry_witness :
  CSV.get_option_chain both_on_21 (mkTs (mkDate 2026 1 21) 0)
  = CSV.Returns (Some snapshot_21)
  /\ exists near,
       CSV.expiry snapshot_21 = Some near
       /\ CSV.CE snapshot_21 <> []
       /\ (1 <= month near <= 12 ->
           fst (Engine.l_strategy
                  (Engine.before_row recorder
                     (daily_bar (mkDate 2026 1 21) 19900 20010 19890 20000) before_roll))
           = prefix_of near).
Proof.
  split; [reflexivity|].
  exact (roll_names_near_expiry recorder both_on_21 on_21_january
           (daily_bar (mkDate 2026 1 21) 19900 20010 19890 20000) before_roll
           (conj (fun _ _ => eq_refl) (fun _ _ => eq_refl)) eq_refl eq_refl).
Defined.

(** ** The broker registry ([registry.py]) *)

Module Registry.

Section Registry.

(** [str.lower]. *)
Variable lower : string -> string.

(** The drivers the factories make; a factory is a callable without
    arguments. *)
Context {D : Type}.


(** What the three imports of [register_default_brokers] give; [None] is an
    import that raises, which is logged and passed over. *)
Record Defaults := mkDefaults {
  upstox : option (unit -> D);
  icici : option (unit -> D);
  backtest : option (unit -> D)
}.

(** [BrokerRegistry.register]. *)
Definition register (name : string) (factory : unit -> D) (reg : gmap string (unit -> D))
  : gmap string (unit -> D) :=
  <[lower name := factory]> reg.

Definition register_found (name : string) (found : option (unit -> D))
    (reg : gmap string (unit -> D)) : gmap string (unit -> D) :=
  match found with
  | Some factory => register name factory reg
  | None => reg
  end.

(** [register_default_brokers]. *)
Definition register_default_brokers (defs : Defaults) (reg : gmap string (unit -> D))
  : gmap string (unit -> D) :=
  register_found "backtest" (backtest defs)
    (register_found "icici" (icici defs)
       (register_found "upstox" (upstox defs) reg)).

(** What [create] returns or raises; the text of the [ValueError], which
    lists the registered names, is left out. *)
Inductive created :=
| Made (driver : D)
| ValueError (name : string).

(** [BrokerRegistry.create], with the class-level registry threaded. *)
Definition create (defs : Defaults) (name : string) (reg : gmap string (unit -> D))
  : gmap string (unit -> D) * created :=
  let key := lower name in
  let reg1 :=
    match reg !! key with
    | Some _ => reg
    | None => register_default_brokers defs reg
    end in
  match reg1 !! key with
  | Some factory => (reg1, Made (factory tt))
  | None => (reg1, ValueError name)
  end.

End Registry.

Arguments Defaults D : clear implicits.
Arguments created D : clear implicits.

End Registry.

Section RegistryProps.

Variable lower : string -> string.

Context {D : Type}.

Implicit Types (reg : gmap string (unit -> D)) (defs : Registry.Defaults D).

(** X17.  A factory registered under a name is the one [create] calls for
    any name with the same lower-case form, whatever the defaults are, and
    the registry is left as it is; registering again under another writing
    of the name replaces the factory. *)
Theorem create_after_register defs (name name' : string)
    (factory other : unit -> D) reg :
  lower name' = lower name ->
  Registry.create lower defs name' (Registry.register lower name factory reg)
  = (Registry.register lower name factory reg, Registry.Made (factory tt))
  /\ Registry.create lower defs name
       (Registry.register lower name' other (Registry.register lower name factory reg))
     = (Registry.register lower name' other reg, Registry.Made (other tt)).
Proof.
  intros Hsame. unfold Registry.create, Registry.register.
  rewrite Hsame, !lookup_insert_eq. split; [reflexivity|].
  rewrite insert_insert_eq. reflexivity.
Qed.

Lemma register_default_other defs reg (key : string) :
  key <> lower "upstox" -> key <> lower "icici" -> key <> lower "backtest" ->
  Registry.register_default_brokers lower defs reg !! key = reg !! key.
Proof.
  intros Hu Hi Hb. unfold Registry.register_default_brokers, Registry.register_found,
    Registry.register.
  destruct (Registry.backtest defs), (Registry.icici defs), (Registry.upstox defs);
    rewrite ?lookup_insert_ne by congruence; reflexivity.
Qed.

Lemma register_default_backtest defs reg (g : unit -> D) :
  Registry.backtest defs = Some g ->
  Registry.register_default_brokers lower defs reg !! lower "backtest" = Some g.
Proof.
  intros Hg. unfold Registry.register_default_brokers. rewrite Hg.
  cbn [Registry.register_found]. unfold Registry.register at 1.
  apply lookup_insert_eq.
Qed.

(** X18.  A lookup of a name that is not registered registers the defaults
    again before it answers.  So with a factory of one's own under
    [backtest], which [create] calls as long as every name asked for is
    registered, one lookup of a missing name puts the default backtest
    factory back in its place; the lookup itself raises [ValueError] unless
    the name is one of the defaults. *)
Theorem missing_name_restores_defaults defs (name : string)
    (custom g : unit -> D) reg :
  Registry.backtest defs = Some g ->
  reg !! lower name = None ->
  lower name <> lower "backtest" ->
  let reg0 := Registry.register lower "backtest" custom reg in
  let reg1 := fst (Registry.create lower defs name reg0) in
  Registry.create lower defs "backtest" reg0 = (reg0, Registry.Made (custom tt))
  /\ reg1 = Registry.register_default_brokers lower defs reg0
  /\ Registry.create lower defs "backtest" reg1 = (reg1, Registry.Made (g tt))
  /\ (lower name <> lower "upstox" -> lower name <> lower "icici" ->
      snd (Registry.create lower defs name reg0) = Registry.ValueError name).
Proof.
  intros Hg Hmiss Hne reg0 reg1.
  assert (Hmiss0 : reg0 !! lower name = None).
  { unfold reg0, Registry.register. rewrite lookup_insert_ne by congruence. exact Hmiss. }
  assert (Hreg1 : reg1 = Registry.register_default_brokers lower defs reg0).
  { unfold reg1, Registry.create. rewrite Hmiss0.
    destruct (Registry.register_default_brokers lower defs reg0 !! lower name);
      reflexivity. }
  split; [|split; [exact Hreg1|split]].
  - unfold Registry.create, reg0, Registry.register. rewrite !lookup_insert_eq.
    reflexivity.
  - assert (Hin : reg1 !! lower "backtest" = Some g)
      by (rewrite Hreg1; apply register_default_backtest, Hg).
    clearbody reg1. unfold Registry.create. cbv zeta.
    rewrite Hin. cbv beta iota. rewrite Hin. reflexivity.
  - intros Hu Hi. unfold Registry.create. rewrite Hmiss0.
    rewrite (register_default_other defs reg0 (lower name) Hu Hi Hne), Hmiss0.
    reflexivity.
Qed.

End RegistryProps.

(** [str.lower] on the letters A to Z; other characters are left as they
    are.  Used for the worked examples only. *)
Definition ascii_lower (s : string) : string :=
  string_of_list_ascii
    (map (fun c => if is_upper c then ascii_of_nat (nat_of_ascii c + 32) else c)
         (list_ascii_of_string s)).

Lemma create_after_register_witness :
  Registry.create ascii_lower (Registry.mkDefaults None None None) "BackTest"
    (Registry.register ascii_lower "backtest" (fun _ => Driver.init 100000) ∅)
  = (Registry.register ascii_lower "backtest" (fun _ => Driver.init 100000) ∅,
     Registry.Made (Driver.init 100000)).
Proof.
  exact (proj1 (create_after_register ascii_lower (Registry.mkDefaults None None None)
                  "backtest" "BackTest" (fun _ => Driver.init 100000)
                  (fun _ => Driver.init 0) ∅ eq_refl)).
Defined.

Lemma missing_name_restores_defaults_witness :
  Registry.create ascii_lower
    (Registry.mkDefaults None None (Some (fun _ => Driver.init 100000)))
    "backtest"
    (fst (Registry.create ascii_lower
            (Registry.mkDefaults None None (Some (fun _ => Driver.init 100000)))
            "zerodha"
            (Registry.register ascii_lower "backtest" (fun _ => Driver.init 5) ∅)))
  = (fst (Registry.create ascii_lower
            (Registry.mkDefaults None None (Some (fun _ => Driver.init 100000)))
            "zerodha"
            (Registry.register ascii_lower "backtest" (fun _ => Driver.init 5) ∅)),
     Registry.Made (Driver.init 100000)).
Proof.
  refine (proj1 (proj2 (proj2
            (missing_name_restores_defaults ascii_lower
               (Registry.mkDefaults None None (Some (fun _ => Driver.init 100000)))
               "zerodha" (fun _ => Driver.init 5) (fun _ => Driver.init 100000) ∅
               eq_refl eq_refl _)))).
  vm_compute. discriminate.
Defined.

(** ** The strategy base class ([strategy/base.py]) *)

Module Strategy.

Inductive StrategyStatus := STOPPED | RUNNING | ERROR.

(** The dataclass [StrategyState]. *)
Record StrategyState := mkStrategyState {
  name : string;
  status : StrategyStatus;
  realized_pnl : Q;
  unrealized_pnl : Q;
  active_orders : Z;
  current_position : string;
  last_signal : string;
  trades_taken : Z;
  open_trades : Z;
  closed_trades : Z;
  recent_logs : list string
}.

(** [StrategyState(name=name)]. *)
Definition init (name : string) : StrategyState :=
  {| name := name; status := STOPPED; realized_pnl := 0; unrealized_pnl := 0;
     active_orders := 0; current_position := "Flat"; last_signal := "Awaiting...";
     trades_taken := 0; open_trades := 0; closed_trades := 0; recent_logs := [] |}.

(** The text [_update_signal] stores for a message at the clock reading
    [time_str] (the [%H:%M:%S] text of [datetime.now()]). *)
Definition signal_text (time_str message : string) : string :=
  "[" +:+ time_str +:+ "] " +:+ message.

(** [_update_signal], with the clock reading made an argument; [pop(0)]
    drops the oldest entry. *)
Definition _update_signal (time_str message : string) (st : StrategyState)
  : StrategyState :=
  let signal := signal_text time_str message in
  let logs := recent_logs st ++ [signal] in
  {| name := name st; status := status st; realized_pnl := realized_pnl st;
     unrealized_pnl := unrealized_pnl st; active_orders := active_orders st;
     current_position := current_position st; last_signal := signal;
     trades_taken := trades_taken st; open_trades := open_trades st;
     closed_trades := closed_trades st;
     recent_logs := if (50 <? length logs)%nat then tail logs else logs |}.

(** A sequence of signals, each with its clock reading. *)
Definition signals (msgs : list (string * string)) (st : StrategyState) : StrategyState :=
  fold_left (fun acc m => _update_signal (fst m) (snd m) acc) msgs st.

End Strategy.

Section RecentLogs.

Import Strategy.

Lemma update_signal_logs (time_str message : string) (st : StrategyState) :
  (length (recent_logs st) <= 50)%nat ->
  let all := recent_logs st ++ [signal_text time_str message] in
  recent_logs (_update_signal time_str message st) = skipn (length all - 50) all
  /\ (length (recent_logs (_update_signal time_str message st)) <= 50)%nat.
Proof.
  intros Hlen all. unfold _update_signal. cbn [recent_logs]. fold all.
  assert (Hall : length all = S (length (recent_logs st)))
    by (unfold all; rewrite length_app; cbn; lia).
  destruct (50 <? length all)%nat eqn:Hcmp.
  - apply Nat.ltb_lt in Hcmp.
    replace (length all - 50)%nat with 1%nat by lia.
    destruct all as [|x l]; [cbn in Hall; lia|]. cbn in *. split; [reflexivity | lia].
  - apply Nat.ltb_ge in Hcmp.
    replace (length all - 50)%nat with 0%nat by lia. cbn. split; [reflexivity | lia].
Qed.

Lemma last_nonempty {A} (l : list A) (a d d' : A) :
  List.last (a :: l) d = List.last (a :: l) d'.
Proof.
  revert a. induction l as [|b l IH]; intros a; [reflexivity|].
  change (List.last (b :: l) d = List.last (b :: l) d'). apply IH.
Qed.

(** X19.  Starting with at most 50 entries, after any sequence of signals
    [recent_logs] holds the last 50 of the old entries followed by the new
    signals, in order, and never more than 50; [last_signal] is the text of
    the last signal; the other fields are left as they are. *)
Theorem recent_logs_keep_last_fifty (msgs : list (string * string)) (st : StrategyState) :
  (length (recent_logs st) <= 50)%nat ->
  let st' := signals msgs st in
  let all := recent_logs st
             ++ map (fun m => signal_text (fst m) (snd m)) msgs in
  recent_logs st' = skipn (length all - 50) all
  /\ (length (recent_logs st') <= 50)%nat
  /\ last_signal st'
     = List.last (map (fun m => signal_text (fst m) (snd m)) msgs) (last_signal st)
  /\ (name st', status st', realized_pnl st', unrealized_pnl st')
     = (name st, status st, realized_pnl st, unrealized_pnl st).
Proof.
  revert st. unfold signals.
  induction msgs as [|m msgs IH]; intros st Hlen; cbn [fold_left map].
  - rewrite app_nil_r. replace (length (recent_logs st) - 50)%nat with 0%nat by lia.
    cbn. auto.
  - destruct (update_signal_logs (fst m) (snd m) st Hlen) as (Hlogs & Hlen1).
    destruct (IH (_update_signal (fst m) (snd m) st) Hlen1) as (Hl & Hn & Hs & Hf).
    cbv zeta in *. split; [|split; [exact Hn|split]].
    + rewrite Hl, Hlogs.
      set (sig := signal_text (fst m) (snd m)).
      set (rest := map (fun m0 => signal_text (fst m0) (snd m0)) msgs).
      set (l := recent_logs st).
      assert (Hcut : skipn (length (l ++ [sig]) - 50) (l ++ [sig]) ++ rest
                     = skipn (length (l ++ [sig]) - 50) (l ++ sig :: rest)).
      { change (l ++ sig :: rest) with (l ++ [sig] ++ rest).
        rewrite app_assoc, (skipn_app _ (l ++ [sig]) rest).
        replace (length (l ++ [sig]) - 50 - length (l ++ [sig]))%nat with 0%nat by lia.
        reflexivity. }
      rewrite Hcut, skipn_skipn. f_equal.
      rewrite length_skipn, !length_app. cbn [length].
      fold l in Hlen. lia.
    + rewrite Hs. cbn [last_signal _update_signal].
      destruct msgs as [|m' msgs']; [reflexivity|].
      cbn [map]. rewrite (last_nonempty _ _ _ (last_signal st)). reflexivity.
    + rewrite Hf. reflexivity.
Qed.

Lemma recent_logs_keep_last_fifty_witness :
  recent_logs (signals [("09:15:00", "Market stable"); ("09:15:05", "Market stable")]%string
                 (Strategy.init "Saviour Combo"))
  = ["[09:15:00] Market stable"; "[09:15:05] Market stable"]%string.
Proof.
  exact (proj1 (recent_logs_keep_last_fifty
                  [("09:15:00", "Market stable"); ("09:15:05", "Market stable")]%string
                  (Strategy.init "Saviour Combo") (Nat.le_0_l 50))).
Defined.

End RecentLogs.
